(** * Subscription billing bot: the billing core of [bot.py]

    A shallow embedding of the money helpers, the promo code engine, the
    subscription activation, the manual payment review and the removal sweep
    of [bot.py], with the properties its specification states about them.

    Conventions of the embedding:
    - Python [int] is [Z]; [//] and [%] by a positive divisor are [Z.div] and
      [Z.modulo] (both floor).
    - Python [str] is [string], read as a sequence of ASCII bytes.  The text
      helpers ([strip], [int(...)]) recognise ASCII blanks and ASCII digits.
    - An SQLite table with an [INTEGER PRIMARY KEY] is a [gmap] from the key to
      the row; the AUTOINCREMENT counter is part of the database state.
    - Calls to the chat platform are recorded in an event trace; what the
      platform answers is an input of the handler (the [world] record). *)

From Stdlib Require Import ZArith Lia String Ascii List.
From Stdlib Require Import Decimal DecimalString DecimalZ DecimalFacts.
From stdpp Require Import base option list gmap fin_maps strings.
From stdpp Require Import sorting.

Open Scope Z_scope.

(* ================================================================= *)
(** ** Python text primitives *)

(** The blanks removed by [str.strip()]: tab, LF, VT, FF, CR, the
    separators 0x1c-0x1f and the space. *)
Definition is_space (c : ascii) : bool :=
  let n := nat_of_ascii c in
  ((9 <=? n)%nat && (n <=? 13)%nat) || ((28 <=? n)%nat && (n <=? 32)%nat).

(** The blanks [int(...)] skips around a number: tab, LF, VT, FF, CR and the
    space (the separators 0x1c-0x1f are refused there). *)
Definition is_int_space (c : ascii) : bool :=
  let n := nat_of_ascii c in
  ((9 <=? n)%nat && (n <=? 13)%nat) || (n =? 32)%nat.

Definition is_digit (c : ascii) : bool :=
  let n := nat_of_ascii c in (48 <=? n)%nat && (n <=? 57)%nat.

Fixpoint lstrip (blank : ascii -> bool) (s : string) : string :=
  match s with
  | EmptyString => EmptyString
  | String c r => if blank c then lstrip blank r else s
  end.

Fixpoint rstrip (blank : ascii -> bool) (s : string) : string :=
  match s with
  | EmptyString => EmptyString
  | String c r =>
      match rstrip blank r with
      | EmptyString => if blank c then EmptyString else String c EmptyString
      | t => String c t
      end
  end.

Definition strip_with (blank : ascii -> bool) (s : string) : string :=
  lstrip blank (rstrip blank s).

(** [s.strip()] *)
Definition strip (s : string) : string := strip_with is_space s.

(** [sep in s] for a one-character [sep] *)
Fixpoint contains_char (sep : ascii) (s : string) : bool :=
  match s with
  | EmptyString => false
  | String c r => Ascii.eqb c sep || contains_char sep r
  end.

(** [s.split(sep)] for a one-character [sep]: never an empty list. *)
Fixpoint split (sep : ascii) (s : string) : list string :=
  match s with
  | EmptyString => [EmptyString]
  | String c r =>
      if Ascii.eqb c sep then EmptyString :: split sep r
      else match split sep r with
           | h :: t => String c h :: t
           | [] => [String c EmptyString]
           end
  end.

(** [s[:n]] *)
Definition slice_to (n : nat) (s : string) : string := String.substring 0 n s.

Fixpoint repeat_char (n : nat) (c : ascii) : string :=
  match n with
  | O => EmptyString
  | S k => String c (repeat_char k c)
  end.

(** [s.ljust(width, fill)] *)
Definition ljust (width : nat) (fill : ascii) (s : string) : string :=
  s +:+ repeat_char (width - String.length s) fill.

(** Underscores of an integer literal: [int] accepts one underscore between
    two digits, and nowhere else.  [prev] tells whether the previous
    character allows an underscore or the end of the text to follow. *)
Fixpoint drop_underscores (prev : bool) (s : string) : option string :=
  match s with
  | EmptyString => if prev then Some EmptyString else None
  | String c r =>
      if Ascii.eqb c "_"
      then (if prev then drop_underscores false r else None)
      else String c <$> drop_underscores true r
  end.

(** [int(s)] in base 10: blanks around, an optional sign, decimal digits.
    [None] stands for the [ValueError] Python raises.  (CPython's limit on the
    number of digits of a conversion is not part of the model.) *)
Definition py_int (s : string) : option Z :=
  let t := strip_with is_int_space s in
  let '(neg, body) :=
    match t with
    | String "-" r => (true, r)
    | String "+" r => (false, r)
    | _ => (false, t)
    end in
  ds ← drop_underscores false body;
  d ← NilEmpty.uint_of_string ds;
  Some (if neg then - Z.of_uint d else Z.of_uint d).

(** [str(n)] *)
Definition py_str (n : Z) : string := NilZero.string_of_int (Z.to_int n).

(** [format(n, "0<width>d")]: the sign first, then zeros up to the width. *)
Definition fmt_0d (width : nat) (n : Z) : string :=
  let digits := py_str (Z.abs n) in
  let sign := if n <? 0 then "-"%string else EmptyString in
  sign +:+ repeat_char (width - String.length sign - String.length digits) "0"
       +:+ digits.

(** [int(a / b)] for two integers: the true division yields a float and
    [int] truncates it toward zero.  CPython rounds the quotient of two
    integers correctly, so for [|a| < 2^53] and [b = 100] the float is
    below the next integer whenever the exact quotient is, and the
    truncation is the exact truncated quotient [Z.quot].  The theorems on
    prices carry that range as a hypothesis. *)
Definition int_of_truediv (a b : Z) : Z := Z.quot a b.

(** Truthiness of a nullable integer: [None] and [0] are false. *)
Definition truthy (o : option Z) : bool :=
  match o with
  | Some z => negb (z =? 0)
  | None => false
  end.

(* ================================================================= *)
(** ** Money helpers *)

Section Money.

Variable CURRENCY : string.

(** [price_str_from_cents] *)
Definition price_str_from_cents (cents : option Z) : string :=
  let cents := match cents with Some c => c | None => 0 end in
  py_str (cents / 100) +:+ "." +:+ fmt_0d 2 (cents mod 100)
    +:+ " " +:+ CURRENCY.

(** [cents_from_str]: [None] is the value returned from the [except]
    branch; every failure inside the [try] lands there. *)
Definition cents_from_str (s : string) : option Z :=
  let s := strip s in
  if contains_char "." s then
    let parts := split "." s in
    p0 ← parts !! 0%nat;
    whole ← py_int p0;
    p1 ← parts !! 1%nat;
    let frac := ljust 2 "0" (slice_to 2 p1) in
    f ← py_int frac;
    Some (whole * 100 + f)
  else
    n ← py_int s;
    Some (n * 100).

(* ----------------------------------------------------------------- *)
(** ** Promo codes *)

(** A row of [promo_codes], in the column order of [get_promo_code]. *)
Record promo := {
  promo_id : Z;
  code : string;
  discount_percent : option Z;
  discount_fixed_cents : option Z;
  is_active : option Z;
  used_count : option Z;
  max_uses : option Z;
  expires_ts : option Z
}.

Definition opt_Z (o : option Z) : Z := default 0 o.

(** [apply_promo_code] *)
Definition apply_promo_code (price_cents : Z) (promo_data : promo) : Z * string :=
  if truthy (discount_percent promo_data) then
    let d := opt_Z (discount_percent promo_data) in
    let discount := int_of_truediv (price_cents * d) 100 in
    let new_price := Z.max 0 (price_cents - discount) in
    (new_price,
     "Промокод " +:+ code promo_data +:+ " применен! Скидка " +:+ py_str d +:+ "%")
  else if truthy (discount_fixed_cents promo_data) then
    let f := opt_Z (discount_fixed_cents promo_data) in
    let new_price := Z.max 0 (price_cents - f) in
    (new_price,
     "Промокод " +:+ code promo_data +:+ " применен! Скидка "
       +:+ price_str_from_cents (Some f))
  else
    (price_cents, "Ошибка применения промокода"%string).

(** The promo row [handle_promo_value] prepares for a percentage promo:
    the percentage in [discount_percent] and [0] in [discount_fixed_cents]. *)
Definition percent_promo (c : string) (d : Z) : promo :=
  {| promo_id := 1; code := c; discount_percent := Some d;
     discount_fixed_cents := Some 0; is_active := Some 1;
     used_count := Some 0; max_uses := None; expires_ts := None |}.

(** The price a percentage promo of [d] percent yields. *)
Definition apply_percent (p d : Z) : Z :=
  fst (apply_promo_code p (percent_promo "PROMO" d)).

End Money.

(* ================================================================= *)
(** ** Local time *)

(** A naive [datetime]: the civil fields, no zone attached. *)
Record datetime := {
  year : Z;
  month : Z;
  day : Z;
  hour : Z;
  minute : Z;
  second : Z
}.

(** Days since 1970-01-01 of a date of the proleptic Gregorian calendar.
    The year starts in March, so that the leap day is the last of the
    year; an era is 400 years, 146097 days. *)
Definition days_from_civil (y m d : Z) : Z :=
  let y := if m <=? 2 then y - 1 else y in
  let era := y / 400 in
  let yoe := y - era * 400 in
  let doy := (153 * (if 2 <? m then m - 3 else m + 9) + 2) / 5 + d - 1 in
  let doe := yoe * 365 + yoe / 4 - yoe / 100 + doy in
  era * 146097 + doe - 719468.

(** The date of the day [doe] of the era [era]. *)
Definition civil_from_era_doe (era doe : Z) : Z * Z * Z :=
  let yoe := (doe - doe / 1460 + doe / 36524 - doe / 146096) / 365 in
  let y := yoe + era * 400 in
  let doy := doe - (365 * yoe + yoe / 4 - yoe / 100) in
  let mp := (5 * doy + 2) / 153 in
  let d := doy - (153 * mp + 2) / 5 + 1 in
  let m := if mp <? 10 then mp + 3 else mp - 9 in
  (if m <=? 2 then y + 1 else y, m, d).

Definition civil_from_days (z : Z) : Z * Z * Z :=
  let z := z + 719468 in
  let era := z / 146097 in
  civil_from_era_doe era (z - era * 146097).

(** [LOCAL_TZ = pytz.timezone("Europe/Minsk")]: the zone has been at UTC+3
    with no daylight saving since 2011, which is what the source relies on
    (its comment reads "GMT+3"); the model is that fixed offset, in seconds. *)
Definition LOCAL_TZ : Z := 3 * 3600.

(** [datetime.fromtimestamp(ts, LOCAL_TZ)], the zone dropped. *)
Definition fromtimestamp (ts : Z) : datetime :=
  let loc := ts + LOCAL_TZ in
  let days := loc / 86400 in
  let rem := loc mod 86400 in
  let '(y, m, d) := civil_from_days days in
  {| year := y; month := m; day := d;
     hour := rem / 3600; minute := (rem mod 3600) / 60; second := rem mod 60 |}.

(** [int(LOCAL_TZ.localize(dt).timestamp())] *)
Definition timestamp (dt : datetime) : Z :=
  days_from_civil (year dt) (month dt) (day dt) * 86400
  + hour dt * 3600 + minute dt * 60 + second dt - LOCAL_TZ.

(* ================================================================= *)
(** ** The database *)

(** A row of [plans]: the columns the billing core reads. *)
Record plan := {
  price_cents : option Z;
  title : option string;
  plan_group_id : option Z
}.

(** A row of [users], keyed by [user_id]. *)
Record user := {
  referred_by : option Z;
  cashback_cents : Z;
  username : option string
}.

(** A row of [subscriptions], keyed by [id].  The one INSERT of the program
    gives every column but [invite_link] and [last_notification_ts] a value. *)
Record subscription := {
  user_id : Z;
  plan_id : Z;
  start_ts : Z;
  end_ts : Z;
  active : Z;
  invite_link : option string;
  removed : Z;
  group_id : option Z;
  payment_type : string;
  current_period_month : Z;
  current_period_year : Z;
  part_paid : string;
  next_payment_date : Z;
  last_notification_ts : option Z
}.

(** A row of [manual_payments], keyed by [id]. *)
Record manual_payment := {
  mp_user_id : Z;
  mp_plan_id : Z;
  amount_cents : Z;
  status : string;
  admin_id : option Z;
  reviewed_ts : option Z;
  mp_payment_type : string
}.

Record db := {
  plans : gmap Z plan;
  users : gmap Z user;
  subscriptions : gmap Z subscription;
  (** the AUTOINCREMENT counter of [subscriptions] (its [sqlite_sequence]) *)
  subscriptions_seq : Z;
  manual_payments : gmap Z manual_payment
}.

Definition set_subscriptions (m : gmap Z subscription) (d : db) : db :=
  {| plans := plans d; users := users d; subscriptions := m;
     subscriptions_seq := subscriptions_seq d;
     manual_payments := manual_payments d |}.

Definition set_manual_payments (m : gmap Z manual_payment) (d : db) : db :=
  {| plans := plans d; users := users d; subscriptions := subscriptions d;
     subscriptions_seq := subscriptions_seq d; manual_payments := m |}.

(** The largest key of a table, [0] when it is empty. *)
Definition max_rowid {A} (m : gmap Z A) : Z :=
  foldr Z.max 0 ((map_to_list m).*1).

(** The id AUTOINCREMENT gives the next row: one more than the largest id
    the table holds or ever held. *)
Definition next_rowid (d : db) : Z :=
  Z.max (subscriptions_seq d) (max_rowid (subscriptions d)) + 1.

(** [INSERT INTO subscriptions ...] *)
Definition insert_subscription (r : subscription) (d : db) : db :=
  let i := next_rowid d in
  {| plans := plans d; users := users d;
     subscriptions := <[i := r]> (subscriptions d);
     subscriptions_seq := i;
     manual_payments := manual_payments d |}.

(** The row of a list of (id, row) with the largest id:
    [ORDER BY id DESC LIMIT 1]. *)
Definition latest {A} (l : list (Z * A)) : option (Z * A) :=
  foldr (fun x acc =>
           match acc with
           | None => Some x
           | Some y => if y.1 <? x.1 then Some x else Some y
           end) None l.

Definition is_active_sub (u p : Z) (ir : Z * subscription) : Prop :=
  user_id ir.2 = u /\ plan_id ir.2 = p /\ active ir.2 = 1.

#[global] Instance is_active_sub_dec u p ir : Decision (is_active_sub u p ir).
Proof. unfold is_active_sub. apply _. Defined.

(** [SELECT ... FROM subscriptions WHERE user_id=? AND plan_id=? AND active=1
     ORDER BY id DESC LIMIT 1] *)
Definition select_active_sub (m : gmap Z subscription) (u p : Z)
  : option (Z * subscription) :=
  latest (filter (is_active_sub u p) (map_to_list m)).

(* ================================================================= *)
(** ** The platform and the event trace *)

(** How the HTTP request of [create_chat_invite_link_one_time] ends: an
    exception ([requests.post] or the JSON decoding), or a response with its
    status code, the ["ok"] field and the link when the body has one. *)
Inductive http_outcome :=
| RequestRaised
| Response (status_code : Z) (ok : bool) (link : option string).

(** What the outside world answers during one handler run: the clock
    ([time.time()], in whole seconds, read once, from which [now_local()]
    derives) and the answer to [createChatInviteLink].  The outcome of the
    other platform calls is not an input: a failing ban, unban or send is
    caught and logged, or it ends a handler after its last write to the
    tables modelled here.  The trace records the calls attempted. *)
Record world := {
  clock : Z;
  invite_response : http_outcome
}.

(** The texts sent to users, by template, with the values they interpolate. *)
Inductive message :=
| MsgActivationError (result : option string)
| MsgSubscriptionRenewed (plan_title : option string) (result : option string)
| MsgSubscriptionCreated (plan_title : option string) (result : option string)
| MsgPaymentApproved (plan_title : option string) (result : option string)
| MsgPaymentRejected (plan_title : option string)
| MsgAccessSuspended (plan_title : option string).

(** The answers to a callback query. *)
Inductive answer :=
| AnsAccessDenied
| AnsNotFoundOrProcessed
| AnsApproved
| AnsError (result : option string)
| AnsRejected.

Inductive caption :=
| CaptionApproved (who : string + Z) (plan_title : option string)
| CaptionRejected (who : string + Z) (plan_title : option string).

(** The calls made to the platform, in order. *)
Inductive event :=
| UnbanChatMember (chat user : Z)
| CreateChatInviteLink (chat expire_date member_limit : Z)
| BanChatMember (chat user until_date : Z)
| SendMessage (chat : Z) (m : message)
| AnswerCallbackQuery (a : answer)
| EditMessageCaption (c : caption).

(** [now_local()] *)
Definition now_local (w : world) : datetime := fromtimestamp (clock w).

(** [get_current_period()] *)
Definition get_current_period (w : world) : Z * Z :=
  let now := now_local w in (month now, year now).

(** [create_chat_invite_link_one_time]: the link of a 200 response whose
    body says ok, [None] in every other case. *)
Definition create_chat_invite_link_one_time
    (w : world) (chat_id expire_seconds member_limit : Z)
  : list event * option string :=
  let expire_date := clock w + expire_seconds in
  ([CreateChatInviteLink chat_id expire_date member_limit],
   match invite_response w with
   | Response 200 true (Some l) => Some l
   | _ => None
   end).

(* ================================================================= *)
(** ** Activation *)

(** The month after [now]: [(next_month, next_year)]. *)
Definition next_month_of (now : datetime) : Z * Z :=
  if month now =? 12 then (1, year now + 1) else (month now + 1, year now).

(** The end of validity computed at [now]: the 5th of the next month,
    23:59:59, as a timestamp. *)
Definition end_ts_at (now : datetime) : Z :=
  let '(next_month, next_year) := next_month_of now in
  timestamp {| year := next_year; month := next_month; day := 5;
               hour := 23; minute := 59; second := 59 |}.

(** [UPDATE subscriptions SET invite_link=?, last_notification_ts=NULL] *)
Definition refresh_link (l : option string) (r : subscription) : subscription :=
  {| user_id := user_id r; plan_id := plan_id r; start_ts := start_ts r;
     end_ts := end_ts r; active := active r; invite_link := l;
     removed := removed r; group_id := group_id r;
     payment_type := payment_type r;
     current_period_month := current_period_month r;
     current_period_year := current_period_year r;
     part_paid := part_paid r; next_payment_date := next_payment_date r;
     last_notification_ts := None |}.

(** [UPDATE subscriptions SET current_period_month=?, current_period_year=?,
     part_paid=?, start_ts=?, end_ts=?, invite_link=?,
     last_notification_ts=NULL, active=1, removed=0, payment_type=?] *)
Definition renew_row (cm cy : Z) (pp : string) (now_ts e : Z)
    (l : option string) (pt : string) (r : subscription) : subscription :=
  {| user_id := user_id r; plan_id := plan_id r; start_ts := now_ts;
     end_ts := e; active := 1; invite_link := l;
     removed := 0; group_id := group_id r;
     payment_type := pt;
     current_period_month := cm;
     current_period_year := cy;
     part_paid := pp; next_payment_date := next_payment_date r;
     last_notification_ts := None |}.

(** The row paid for the period [(cm, cy)] and not expired at [now_ts]:
    the test of the re-invite branch. *)
Definition paid_current (cm cy now_ts : Z) (r : subscription) : bool :=
  (current_period_month r =? cm) && (current_period_year r =? cy)
  && String.eqb (part_paid r) "full" && (now_ts <? end_ts r).

(** [activate_subscription(user_id, plan_id, payment_type, group_id,
    is_renewal)]: the new database, the platform calls and the pair
    returned.  [is_renewal] is not read by the body. *)
Definition activate_subscription (w : world) (d : db)
    (uid pid : Z) (ptype : string) (gid : option Z) (is_renewal : bool)
  : db * list event * (bool * option string) :=
  match plans d !! pid with
  | None => (d, [], (false, Some "Тариф не найден"%string))
  | Some pl =>
      let '(current_month, current_year) := get_current_period w in
      let now_ts := clock w in
      let now := now_local w in
      let target_group_id :=
        if truthy (plan_group_id pl) then plan_group_id pl else gid in
      if negb (truthy target_group_id) then
        (d, [], (false, Some "Не указана группа для подписки"%string))
      else
        let target := opt_Z target_group_id in
        let ev_unban := [UnbanChatMember target uid] in
        let existing_sub := select_active_sub (subscriptions d) uid pid in
        let end_ts := end_ts_at now in
        let part_paid := "full"%string in
        let '(ev_link, link) :=
          create_chat_invite_link_one_time w target (7 * 24 * 3600) 1 in
        let evs := ev_unban ++ ev_link in
        match existing_sub with
        | Some (sub_id, ex) =>
            if paid_current current_month current_year now_ts ex then
              (set_subscriptions
                 (alter (refresh_link link) sub_id (subscriptions d)) d,
               evs, (true, link))
            else
              (set_subscriptions
                 (alter (renew_row current_month current_year part_paid
                                   now_ts end_ts link ptype)
                        sub_id (subscriptions d)) d,
               evs, (true, link))
        | None =>
            (insert_subscription
               {| user_id := uid; plan_id := pid; start_ts := now_ts;
                  end_ts := end_ts; active := 1; invite_link := link;
                  removed := 0; group_id := target_group_id;
                  payment_type := ptype;
                  current_period_month := current_month;
                  current_period_year := current_year;
                  part_paid := part_paid; next_payment_date := end_ts;
                  last_notification_ts := None |} d,
             evs, (true, link))
        end
  end.

(* ================================================================= *)
(** ** The removal sweep *)

(** A row of the sweep's SELECT: [s.id, s.user_id, s.group_id, s.plan_id,
    p.title, u.username]. *)
Record expired_sub := {
  es_sub_id : Z;
  es_user_id : Z;
  es_group_id : option Z;
  es_plan_id : Z;
  es_plan_title : option string;
  es_username : option string
}.

(** The WHERE clause of the sweep on one row. *)
Definition lapsed (cm cy now_ts : Z) (r : subscription) : bool :=
  (active r =? 1) && (end_ts r <? now_ts)
  && (negb (current_period_month r =? cm)
      || negb (current_period_year r =? cy)
      || negb (String.eqb (part_paid r) "full")).

(** One row of [subscriptions] through the sweep's SELECT: the WHERE clause
    and the two inner joins. *)
Definition expired_row (d : db) (cm cy now_ts : Z) (ir : Z * subscription)
  : option expired_sub :=
  if lapsed cm cy now_ts ir.2 then
    p ← plans d !! plan_id ir.2;
    u ← users d !! user_id ir.2;
    Some {| es_sub_id := ir.1; es_user_id := user_id ir.2;
            es_group_id := group_id ir.2; es_plan_id := plan_id ir.2;
            es_plan_title := title p; es_username := username u |}
  else None.

Definition select_expired (d : db) (cm cy now_ts : Z) : list expired_sub :=
  omap (expired_row d cm cy now_ts) (map_to_list (subscriptions d)).

(** [UPDATE subscriptions SET active = 0, removed = 1] *)
Definition deactivate (r : subscription) : subscription :=
  {| user_id := user_id r; plan_id := plan_id r; start_ts := start_ts r;
     end_ts := end_ts r; active := 0; invite_link := invite_link r;
     removed := 1; group_id := group_id r;
     payment_type := payment_type r;
     current_period_month := current_period_month r;
     current_period_year := current_period_year r;
     part_paid := part_paid r; next_payment_date := next_payment_date r;
     last_notification_ts := last_notification_ts r |}.

(** The body of the sweep's loop for one selected row: the ban when the row
    has a group, the deactivation, the notice to the user. *)
Definition remove_one (now_ts : Z) (acc : db * list event) (e : expired_sub)
  : db * list event :=
  let ev_ban :=
    if truthy (es_group_id e)
    then [BanChatMember (opt_Z (es_group_id e)) (es_user_id e) (now_ts + 30)]
    else [] in
  (set_subscriptions (alter deactivate (es_sub_id e) (subscriptions acc.1)) acc.1,
   acc.2 ++ ev_ban
     ++ [SendMessage (es_user_id e) (MsgAccessSuspended (es_plan_title e))]).

(** [remove_unpaid_users()] *)
Definition remove_unpaid_users (w : world) (d : db) : db * list event :=
  let '(current_month, current_year) := get_current_period w in
  let now_ts := clock w in
  let expired_subs := select_expired d current_month current_year now_ts in
  foldl (remove_one now_ts) (d, []) expired_subs.

(* ================================================================= *)
(** ** Handlers *)

(** A ticket of the review's SELECT: [mp.user_id, mp.plan_id,
    mp.amount_cents, p.title, u.username, mp.payment_type]; the joins are
    LEFT joins, so a missing plan or user gives NULL. *)
Record pending_payment := {
  pp_user_id : Z;
  pp_plan_id : Z;
  pp_amount_cents : Z;
  pp_plan_title : option string;
  pp_username : option string;
  pp_payment_type : string
}.

(** [SELECT ... FROM manual_payments mp LEFT JOIN plans p ... LEFT JOIN
     users u ... WHERE mp.id = ? AND mp.status = 'pending'] *)
Definition select_pending (d : db) (payment_id : Z) : option pending_payment :=
  mp ← manual_payments d !! payment_id;
  if String.eqb (status mp) "pending" then
    Some {| pp_user_id := mp_user_id mp; pp_plan_id := mp_plan_id mp;
            pp_amount_cents := amount_cents mp;
            pp_plan_title := plans d !! mp_plan_id mp ≫= title;
            pp_username := users d !! mp_user_id mp ≫= username;
            pp_payment_type := mp_payment_type mp |}
  else None.

(** [UPDATE manual_payments SET status=?, admin_id=?, reviewed_ts=?] *)
Definition review (st : string) (adm ts : Z) (mp : manual_payment)
  : manual_payment :=
  {| mp_user_id := mp_user_id mp; mp_plan_id := mp_plan_id mp;
     amount_cents := amount_cents mp; status := st;
     admin_id := Some adm; reviewed_ts := Some ts;
     mp_payment_type := mp_payment_type mp |}.

(** [username or user_id] *)
Definition name_or_id (u : option string) (i : Z) : string + Z :=
  match u with
  | Some (String c r) => inl (String c r)
  | _ => inr i
  end.

Section Handlers.

Variable ADMIN_IDS : list Z.

(** [handle_payment_review(call)] with [call.from_user.id] and [call.data].
    An exception outside the [try] blocks ends the handler where it is. *)
Definition handle_payment_review (w : world) (d : db)
    (from_user : Z) (data : string) : db * list event :=
  if negb (bool_decide (from_user ∈ ADMIN_IDS)) then
    (d, [AnswerCallbackQuery AnsAccessDenied])
  else
    let is_approve := String.prefix "approve_payment:" data in
    match split ":" data !! 1%nat ≫= py_int with
    | None => (d, [])
    | Some payment_id =>
        match select_pending d payment_id with
        | None => (d, [AnswerCallbackQuery AnsNotFoundOrProcessed])
        | Some t =>
            if is_approve then
              let '(db1, evs, (success, result)) :=
                activate_subscription w d (pp_user_id t) (pp_plan_id t)
                                      (pp_payment_type t) None false in
              if success then
                (set_manual_payments
                   (alter (review "approved" from_user (clock w)) payment_id
                          (manual_payments db1)) db1,
                 evs ++ [SendMessage (pp_user_id t)
                           (MsgPaymentApproved (pp_plan_title t) result);
                         AnswerCallbackQuery AnsApproved;
                         EditMessageCaption
                           (CaptionApproved
                              (name_or_id (pp_username t) (pp_user_id t))
                              (pp_plan_title t))])
              else
                (db1, evs ++ [AnswerCallbackQuery (AnsError result)])
            else
              (set_manual_payments
                 (alter (review "rejected" from_user (clock w)) payment_id
                        (manual_payments d)) d,
               [SendMessage (pp_user_id t) (MsgPaymentRejected (pp_plan_title t));
                AnswerCallbackQuery AnsRejected;
                EditMessageCaption
                  (CaptionRejected
                     (name_or_id (pp_username t) (pp_user_id t))
                     (pp_plan_title t))])
        end
    end.

(** The fields [got_payment] reads from the payload: [plan_id = parts[1]],
    [payment_type = parts[5]], the promo id [parts[11]] when there is one
    and it is not ["0"], the mode [parts[13]] or ["new_subscription"]. *)
Definition parse_payload (payload : string)
  : option (Z * string * option Z * string) :=
  let parts := split ":" payload in
  plan_id ← parts !! 1%nat ≫= py_int;
  payment_type ← parts !! 5%nat;
  promo_id ←
    match parts !! 11%nat with
    | Some p11 => if String.eqb p11 "0" then Some None else Some <$> py_int p11
    | None => Some None
    end;
  Some (plan_id, payment_type, promo_id,
        default "new_subscription"%string (parts !! 13%nat)).

(** [got_payment(message)] up to the message to the payer, with
    [message.from_user.id], the invoice payload and the group of the
    payer's conversation state ([state.get("group_id")]).  The promo usage
    and the referral cashback recorded after that message do not touch
    the tables modelled here. *)
Definition got_payment (w : world) (d : db)
    (uid : Z) (payload : string) (state_group_id : option Z)
  : db * list event :=
  match parse_payload payload with
  | None => (d, [])
  | Some (pid, ptype, promo, mode) =>
      let '(db1, evs, (success, result)) :=
        activate_subscription w d uid pid ptype state_group_id false in
      if negb success then
        (db1, evs ++ [SendMessage uid (MsgActivationError result)])
      else
        let plan_title := plans db1 !! pid ≫= title in
        (db1, evs ++ [SendMessage uid
                       (if String.eqb mode "renewal"
                        then MsgSubscriptionRenewed plan_title result
                        else MsgSubscriptionCreated plan_title result)])
  end.

(* ----------------------------------------------------------------- *)
(** ** The writes to [subscriptions] as a transition system *)

(** [UPDATE subscriptions SET invite_link=?, last_notification_ts=?]
    of [callback_new_link] *)
Definition set_link (l : string) (ts : Z) (r : subscription) : subscription :=
  {| user_id := user_id r; plan_id := plan_id r; start_ts := start_ts r;
     end_ts := end_ts r; active := active r; invite_link := Some l;
     removed := removed r; group_id := group_id r;
     payment_type := payment_type r;
     current_period_month := current_period_month r;
     current_period_year := current_period_year r;
     part_paid := part_paid r; next_payment_date := next_payment_date r;
     last_notification_ts := Some ts |}.

(** [UPDATE subscriptions SET last_notification_ts = ?]
    of [send_payment_notifications] *)
Definition set_notified (ts : Z) (r : subscription) : subscription :=
  {| user_id := user_id r; plan_id := plan_id r; start_ts := start_ts r;
     end_ts := end_ts r; active := active r; invite_link := invite_link r;
     removed := removed r; group_id := group_id r;
     payment_type := payment_type r;
     current_period_month := current_period_month r;
     current_period_year := current_period_year r;
     part_paid := part_paid r; next_payment_date := next_payment_date r;
     last_notification_ts := Some ts |}.

(** Every statement of the program that writes [subscriptions] belongs to
    one of these operations; [op_other] is any write to the other tables. *)
Inductive step (d : db) : db -> Prop :=
| op_activate w u p pt g rn :
    step d (activate_subscription w d u p pt g rn).1.1
| op_sweep w :
    step d (remove_unpaid_users w d).1
| op_review w who data :
    step d (handle_payment_review w d who data).1
| op_payment w u payload g :
    step d (got_payment w d u payload g).1
| op_new_link i l ts :
    step d (set_subscriptions (alter (set_link l ts) i (subscriptions d)) d)
| op_notified i ts :
    step d (set_subscriptions (alter (set_notified ts) i (subscriptions d)) d)
| op_other d' :
    subscriptions d' = subscriptions d ->
    subscriptions_seq d' = subscriptions_seq d ->
    step d d'.

(** The databases the program reaches from one with no subscription. *)
Inductive reachable : db -> Prop :=
| reach_init d : subscriptions d = ∅ -> reachable d
| reach_step d d' : reachable d -> step d d' -> reachable d'.

(** At most one active row per (user, plan). *)
Definition one_active_per_pair (m : gmap Z subscription) : Prop :=
  forall i j r1 r2,
    m !! i = Some r1 -> m !! j = Some r2 ->
    active r1 = 1 -> active r2 = 1 ->
    user_id r1 = user_id r2 -> plan_id r1 = plan_id r2 ->
    i = j.

End Handlers.

(* ================================================================= *)
(** ** The invoice payload *)

(** The payload line of [process_card_payment]:
    [f"plan:{pid}:user:{user.id}:type:{payment_type}:month:{current_month}:
       year:{current_year}:promo:{promo_id or 0}:mode:{mode}:{int(time.time())}"] *)
Definition invoice_payload (pid uid : Z) (ptype : string) (cm cy : Z)
    (promo : option Z) (mode : string) (now_ts : Z) : string :=
  "plan:" +:+ py_str pid +:+ ":user:" +:+ py_str uid
  +:+ ":type:" +:+ ptype
  +:+ ":month:" +:+ py_str cm +:+ ":year:" +:+ py_str cy
  +:+ ":promo:" +:+ py_str (if truthy promo then opt_Z promo else 0)
  +:+ ":mode:" +:+ mode +:+ ":" +:+ py_str now_ts.

(* ================================================================= *)
(** ** The status of a subscription *)

(** The dictionary [check_existing_subscription] returns. *)
Record sub_check := {
  sc_id : Z;
  sc_paid : bool;
  sc_active : bool;
  sc_part_paid : string;
  sc_end_ts : Z;
  sc_plan_title : option string;
  sc_current_month : Z;
  sc_current_year : Z;
  sc_user_id : Z;
  sc_plan_id : Z;
  sc_group_id : option Z;
  sc_needs_renewal : bool;
  sc_status : string
}.

(** The row of a list of (id, row) with the largest [end_ts]:
    [ORDER BY s.end_ts DESC LIMIT 1]. *)
Definition latest_end (l : list (Z * subscription)) : option (Z * subscription) :=
  foldr (fun x acc =>
           match acc with
           | None => Some x
           | Some y => if end_ts y.2 <? end_ts x.2 then Some x else Some y
           end) None l.

(** [check_existing_subscription(user_id, plan_id)]; the inner join with
    [plans] on [s.plan_id] is the lookup of the plan asked for. *)
Definition check_existing_subscription (w : world) (d : db) (uid pid : Z)
  : option sub_check :=
  let '(current_month, current_year) := get_current_period w in
  let now_ts := clock w in
  pl ← plans d !! pid;
  ir ← latest_end (filter (is_active_sub uid pid) (map_to_list (subscriptions d)));
  let r := ir.2 in
  let paid_for_current := paid_current current_month current_year now_ts r in
  Some {| sc_id := ir.1; sc_paid := paid_for_current;
          sc_active := negb (active r =? 0);
          sc_part_paid := part_paid r; sc_end_ts := end_ts r;
          sc_plan_title := title pl;
          sc_current_month := current_period_month r;
          sc_current_year := current_period_year r;
          sc_user_id := user_id r; sc_plan_id := plan_id r;
          sc_group_id := group_id r;
          sc_needs_renewal := negb paid_for_current || (end_ts r <=? now_ts);
          sc_status := if paid_for_current then "paid"
                       else if end_ts r <? now_ts then "expired"
                            else "needs_payment" |}.

(** [can_user_pay_partial(user_id, plan_id)] *)
Definition can_user_pay_partial (w : world) (d : db) (uid pid : Z) : bool :=
  let '(m, y) := get_current_period w in
  match filter (fun ir : Z * subscription =>
                  user_id ir.2 = uid /\ plan_id ir.2 = pid
                  /\ current_period_month ir.2 = m
                  /\ current_period_year ir.2 = y
                  /\ part_paid ir.2 = "first"%string)
               (map_to_list (subscriptions d)) with
  | [] => false
  | _ => true
  end.


(* ================================================================= *)
(** ** The reminders and the scheduler *)

(** The texts of the two reminders, by template, with the values they
    interpolate. *)
Inductive reminder :=
| DeadlineReminder (plan_title : option string) (days_left end_ts : Z)
                   (price_cents : option Z) (plan_id : Z)
| PaymentReminder (now : datetime) (plan_title : option string)
                  (price_cents : option Z) (plan_id : Z).

(** A row of the SELECT of [send_deadline_notifications]: [s.user_id,
    u.username, s.plan_id, p.title, s.end_ts, p.price_cents, s.id]. *)
Record deadline_row := {
  dl_user_id : Z;
  dl_username : option string;
  dl_plan_id : Z;
  dl_plan_title : option string;
  dl_end_ts : Z;
  dl_price_cents : option Z;
  dl_sub_id : Z
}.

(** Its WHERE clause on one row. *)
Definition deadline_due (cm cy now_ts : Z) (r : subscription) : bool :=
  (active r =? 1)
  && ((now_ts <=? end_ts r) && (end_ts r <=? now_ts + 5 * 24 * 3600))
  && ((current_period_month r =? cm) && (current_period_year r =? cy)
      && String.eqb (part_paid r) "full").

Definition deadline_select_row (d : db) (cm cy now_ts : Z)
    (ir : Z * subscription) : option deadline_row :=
  if deadline_due cm cy now_ts ir.2 then
    u ← users d !! user_id ir.2;
    p ← plans d !! plan_id ir.2;
    Some {| dl_user_id := user_id ir.2; dl_username := username u;
            dl_plan_id := plan_id ir.2; dl_plan_title := title p;
            dl_end_ts := end_ts ir.2; dl_price_cents := price_cents p;
            dl_sub_id := ir.1 |}
  else None.

(** [ORDER BY s.end_ts] *)
Definition by_end_ts (a b : deadline_row) : Prop := dl_end_ts a <= dl_end_ts b.

#[global] Instance by_end_ts_dec a b : Decision (by_end_ts a b).
Proof. unfold by_end_ts. apply _. Defined.

(** The rows selected. *)
Definition select_deadline (d : db) (cm cy now_ts : Z) : list deadline_row :=
  merge_sort by_end_ts
    (omap (deadline_select_row d cm cy now_ts) (map_to_list (subscriptions d))).

(** [send_deadline_notifications()]: the messages it tries to send, in
    order, and the count it returns.  [delivered] tells for the row of a
    subscription whether [bot.send_message] returns; when it raises, the
    row is skipped. *)
Definition send_deadline_notifications (delivered : Z -> bool)
    (w : world) (d : db) : list (Z * reminder) * Z :=
  let '(current_month, current_year) := get_current_period w in
  let now_ts := clock w in
  let users := select_deadline d current_month current_year now_ts in
  ((fun u =>
      (dl_user_id u,
       DeadlineReminder (dl_plan_title u)
         ((dl_end_ts u - now_ts) / (24 * 3600)) (dl_end_ts u)
         (dl_price_cents u) (dl_plan_id u))) <$> users,
   Z.of_nat (length (filter (fun u => delivered (dl_sub_id u) = true) users))).

(** A row of the SELECT of [send_payment_notifications]: [s.user_id,
    u.username, s.plan_id, p.title, p.price_cents, s.id]. *)
Record unpaid_row := {
  up_user_id : Z;
  up_username : option string;
  up_plan_id : Z;
  up_plan_title : option string;
  up_price_cents : option Z;
  up_sub_id : Z
}.

(** Its WHERE clause on one row; [since] is [now_ts - cooldown_seconds]. *)
Definition unpaid_due (cm cy since : Z) (r : subscription) : bool :=
  (active r =? 1)
  && negb ((current_period_month r =? cm) && (current_period_year r =? cy)
           && String.eqb (part_paid r) "full")
  && match last_notification_ts r with
     | None => true
     | Some t => t <? since
     end.

Definition unpaid_select_row (d : db) (cm cy since : Z)
    (ir : Z * subscription) : option unpaid_row :=
  if unpaid_due cm cy since ir.2 then
    u ← users d !! user_id ir.2;
    p ← plans d !! plan_id ir.2;
    Some {| up_user_id := user_id ir.2; up_username := username u;
            up_plan_id := plan_id ir.2; up_plan_title := title p;
            up_price_cents := price_cents p; up_sub_id := ir.1 |}
  else None.

(** [ORDER BY s.user_id] *)
Definition by_user_id (a b : unpaid_row) : Prop := up_user_id a <= up_user_id b.

#[global] Instance by_user_id_dec a b : Decision (by_user_id a b).
Proof. unfold by_user_id. apply _. Defined.

(** The rows selected; they are distinct, for each carries the id of its
    subscription. *)
Definition select_unpaid (d : db) (cm cy since : Z) : list unpaid_row :=
  merge_sort by_user_id
    (omap (unpaid_select_row d cm cy since) (map_to_list (subscriptions d))).

(** The body of the loop of [send_payment_notifications] for one row: the
    message, and when it was delivered the count and the UPDATE of
    [last_notification_ts]. *)
Definition notify_one (delivered : Z -> bool) (now : datetime) (now_ts : Z)
    (acc : db * list (Z * reminder) * Z) (u : unpaid_row)
  : db * list (Z * reminder) * Z :=
  let msgs :=
    acc.1.2 ++ [(up_user_id u,
                 PaymentReminder now (up_plan_title u) (up_price_cents u)
                                 (up_plan_id u))] in
  if delivered (up_sub_id u) then
    (set_subscriptions
       (alter (set_notified now_ts) (up_sub_id u) (subscriptions acc.1.1))
       acc.1.1,
     msgs, acc.2 + 1)
  else (acc.1.1, msgs, acc.2).

(** [send_payment_notifications()]: the new database, the messages it
    tries to send and the count it returns. *)
Definition send_payment_notifications (delivered : Z -> bool)
    (w : world) (d : db) : db * list (Z * reminder) * Z :=
  let '(current_month, current_year) := get_current_period w in
  let now_ts := clock w in
  let now := now_local w in
  let cooldown_seconds := 20 * 3600 in
  let users :=
    select_unpaid d current_month current_year (now_ts - cooldown_seconds) in
  foldl (notify_one delivered now now_ts) (d, [], 0) users.

(** One turn of the loop of [check_expirations_loop], the sleeps left out:
    the sweep on the 6th at 00:01, the payment reminders on the 1st at
    10:00, the deadline reminders on the 4th at 18:00, local time. *)
Definition check_expirations_tick (delivered : Z -> bool)
    (w : world) (d : db) : db * list event * list (Z * reminder) :=
  let now := now_local w in
  let current_day := day now in
  let current_hour := hour now in
  let current_minute := minute now in
  if (current_day =? 6) && (current_hour =? 0) && (current_minute =? 1) then
    let res := remove_unpaid_users w d in (res.1, res.2, [])
  else if (current_day =? 1) && (current_hour =? 10) && (current_minute =? 0) then
    let res := send_payment_notifications delivered w d in (res.1.1, [], res.1.2)
  else if (current_day =? 4) && (current_hour =? 18) && (current_minute =? 0) then
    (d, [], (send_deadline_notifications delivered w d).1)
  else (d, [], []).

(* ================================================================= *)
(** ** A new invite link on request *)

(** The answers [callback_new_link] gives to the callback query, by text. *)
Inductive new_link_answer :=
| NlBadData
| NlNotFound
| NlForbidden
| NlNoGroup
| NlNotAdmin
| NlNoInvite
| NlInternalError
| NlGenerated.

(** What it tells the user, in order: [bot.answer_callback_query] with one
    of these texts, [bot.send_message] with the link to a chat. *)
Inductive new_link_call :=
| NlAnswer (a : new_link_answer)
| NlSend (chat : Z) (invite : string).

(** [callback_new_link(call)] with [call.from_user.id],
    [call.message.chat.id] and [call.data].  [bot_is_admin] is what
    [is_bot_admin_in_chat] answers for the group of the row (it catches its
    own exceptions).  [answered] tells, for each text, whether
    [bot.answer_callback_query] returns, and [owner_reached] whether the
    message to the owner of the row is sent.  An answer that raises ends
    the handler in the outer [except], which answers with the internal
    error, as does the [ValueError] of [int]; but the answer "not an
    administrator" sits in a [try] of its own, and when it raises the
    handler goes on to create the link.  When the last answer or the
    message to the owner raises, the link is sent to the chat of the
    button instead.  The third component lists the calls attempted. *)
Definition callback_new_link (ADMIN_IDS : list Z) (bot_is_admin : bool)
    (answered : new_link_answer -> bool) (owner_reached : bool)
    (w : world) (d : db) (uid chat_id : Z) (data : string)
  : db * list event * list new_link_call :=
  let refuse a :=
    if answered a then [NlAnswer a]
    else [NlAnswer a; NlAnswer NlInternalError] in
  let parts := split ":" data in
  match parts !! 1%nat with
  | None => (d, [], refuse NlBadData)
  | Some p1 =>
      match py_int p1 with
      | None => (d, [], [NlAnswer NlInternalError])
      | Some sub_id =>
          match subscriptions d !! sub_id with
          | None => (d, [], refuse NlNotFound)
          | Some row =>
              let sub_user_id := user_id row in
              if negb (uid =? sub_user_id)
                 && negb (bool_decide (uid ∈ ADMIN_IDS)) then
                (d, [], refuse NlForbidden)
              else if negb (truthy (group_id row)) then
                (d, [], refuse NlNoGroup)
              else if negb bot_is_admin && answered NlNotAdmin then
                (d, [], [NlAnswer NlNotAdmin])
              else
                let warned :=
                  if bot_is_admin then [] else [NlAnswer NlNotAdmin] in
                let '(evs, invite) :=
                  create_chat_invite_link_one_time
                    w (opt_Z (group_id row)) (7 * 24 * 3600) 1 in
                match invite with
                | Some (String c l) =>
                    (set_subscriptions
                       (alter (set_link (String c l) (clock w)) sub_id
                              (subscriptions d)) d,
                     evs,
                     warned ++ NlAnswer NlGenerated
                       :: (if answered NlGenerated then
                             if owner_reached
                             then [NlSend sub_user_id (String c l)]
                             else [NlSend sub_user_id (String c l);
                                   NlSend chat_id (String c l)]
                           else [NlSend chat_id (String c l)]))
                | _ => (d, evs, warned ++ refuse NlNoInvite)
                end
          end
      end
  end.

(* ================================================================= *)
(** ** The promo tables *)

(** [promo_codes], keyed by [id], and the rows [(promo_id, user_id,
    used_ts)] of [promo_usage].  No statement of the program deletes a row
    of either; the id AUTOINCREMENT gives a new code is then one more than
    the largest id of the table. *)
Record promo_db := {
  promo_codes : gmap Z promo;
  promo_usage : list (Z * Z * Z)
}.

(** [SELECT id FROM promo_usage WHERE promo_id=? AND user_id=?] finds a row. *)
Definition used_by (pd : promo_db) (pid uid : Z) : bool :=
  existsb (fun u : Z * Z * Z => (u.1.1 =? pid) && (u.1.2 =? uid))
          (promo_usage pd).

(** [can_use_promo_code(promo_id, user_id)]; [None] stands for the
    [TypeError] of [used_count >= max_uses] on a NULL [used_count]. *)
Definition can_use_promo_code (w : world) (pd : promo_db) (pid uid : Z)
  : option (bool * string) :=
  if used_by pd pid uid then
    Some (false, "Вы уже использовали этот промокод"%string)
  else
    match promo_codes pd !! pid with
    | None => Some (false, "Промокод не найден"%string)
    | Some promo =>
        if negb (truthy (is_active promo)) then
          Some (false, "Промокод неактивен"%string)
        else
          exhausted ←
            (if truthy (max_uses promo)
             then c ← used_count promo; Some (opt_Z (max_uses promo) <=? c)
             else Some false);
          if exhausted : bool then
            Some (false,
                  "Промокод уже использован максимальное количество раз"%string)
          else if truthy (expires_ts promo)
                  && (opt_Z (expires_ts promo) <? clock w) then
            Some (false, "Срок действия промокода истек"%string)
          else Some (true, "OK"%string)
    end.

(** [UPDATE promo_codes SET used_count = used_count + 1] *)
Definition count_use (p : promo) : promo :=
  {| promo_id := promo_id p; code := code p;
     discount_percent := discount_percent p;
     discount_fixed_cents := discount_fixed_cents p;
     is_active := is_active p;
     used_count := Z.succ <$> used_count p;
     max_uses := max_uses p; expires_ts := expires_ts p |}.

(** The block of [got_payment] that marks the promo of a payment as
    used: under [if promo_id and promo_id > 0], the INSERT into
    [promo_usage] and the UPDATE of the counter. *)
Definition record_promo_use (now_ts : Z) (pd : promo_db)
    (promo : option Z) (uid : Z) : promo_db :=
  if truthy promo && (0 <? opt_Z promo) then
    {| promo_codes := alter count_use (opt_Z promo) (promo_codes pd);
       promo_usage := promo_usage pd ++ [(opt_Z promo, uid, now_ts)] |}
  else pd.

(* ----------------------------------------------------------------- *)
(** ** Creating a promo code *)

(** The entries of [admin_states[uid]] the three steps of the creation
    read and write. *)
Record promo_draft := {
  draft_chat_id : Z;
  draft_step : string;
  draft_promo_type : option string;
  draft_discount_percent : option Z;
  draft_discount_fixed_cents : option Z;
  draft_max_uses : option Z
}.

(** How a step ends: it returns at once (the message is from another
    chat), it asks again, it raises, or it moves the draft on. *)
Inductive wizard (A : Type) :=
| WzIgnored
| WzAskAgain
| WzRaised
| WzNext (a : A).

Arguments WzIgnored {A}.
Arguments WzAskAgain {A}.
Arguments WzRaised {A}.
Arguments WzNext {A} a.

(** [handle_promo_value(message)]: [except ValueError] catches the
    failure of [int] and the two [raise ValueError]; the [TypeError] of
    [None <= 0], when [cents_from_str] returns [None], is not caught. *)
Definition handle_promo_value (state : promo_draft) (chat_id : Z)
    (text : string) : wizard promo_draft :=
  if negb (draft_chat_id state =? chat_id) then WzIgnored
  else
    let value_text := strip text in
    if bool_decide (draft_promo_type state = Some "percent"%string) then
      match py_int value_text with
      | None => WzAskAgain
      | Some discount_percent =>
          if (discount_percent <=? 0) || (100 <? discount_percent)
          then WzAskAgain
          else WzNext {| draft_chat_id := draft_chat_id state;
                         draft_step := "max_uses";
                         draft_promo_type := draft_promo_type state;
                         draft_discount_percent := Some discount_percent;
                         draft_discount_fixed_cents := Some 0;
                         draft_max_uses := draft_max_uses state |}
      end
    else
      match cents_from_str value_text with
      | None => WzRaised
      | Some discount_cents =>
          if discount_cents <=? 0 then WzAskAgain
          else WzNext {| draft_chat_id := draft_chat_id state;
                         draft_step := "max_uses";
                         draft_promo_type := draft_promo_type state;
                         draft_discount_percent := Some 0;
                         draft_discount_fixed_cents := Some discount_cents;
                         draft_max_uses := draft_max_uses state |}
      end.

(** [handle_promo_max_uses(message)] *)
Definition handle_promo_max_uses (state : promo_draft) (chat_id : Z)
    (text : string) : wizard promo_draft :=
  if negb (draft_chat_id state =? chat_id) then WzIgnored
  else
    match py_int (strip text) with
    | None => WzAskAgain
    | Some n =>
        if n <? 0 then WzAskAgain
        else WzNext {| draft_chat_id := draft_chat_id state;
                       draft_step := "expires";
                       draft_promo_type := draft_promo_type state;
                       draft_discount_percent := draft_discount_percent state;
                       draft_discount_fixed_cents :=
                         draft_discount_fixed_cents state;
                       draft_max_uses := if 0 <? n then Some n else None |}
    end.

(** The four buttons of the last step: the life of the code in seconds,
    [None] for a code with no end. *)
Definition promo_life (text : string) : option (option Z) :=
  if String.eqb text "⏩ Без срока" then Some None
  else if String.eqb text "7 дней" then Some (Some (7 * 24 * 3600))
  else if String.eqb text "30 дней" then Some (Some (30 * 24 * 3600))
  else if String.eqb text "90 дней" then Some (Some (90 * 24 * 3600))
  else None.

(** [handle_promo_expires(message)]: the INSERT into [promo_codes], with
    the defaults of the table for [is_active] and [used_count], and the id
    of the new row.  [new_code] is what [generate_promo_code()] returns. *)
Definition handle_promo_expires (w : world) (pd : promo_db)
    (state : promo_draft) (chat_id : Z) (text : string) (new_code : string)
  : promo_db * wizard Z :=
  if negb (draft_chat_id state =? chat_id) then (pd, WzIgnored)
  else
    match promo_life (strip text) with
    | None => (pd, WzAskAgain)
    | Some life =>
        let expires := (fun s => clock w + s) <$> life in
        let i := max_rowid (promo_codes pd) + 1 in
        ({| promo_codes :=
              <[i := {| promo_id := i; code := new_code;
                        discount_percent := draft_discount_percent state;
                        discount_fixed_cents := draft_discount_fixed_cents state;
                        is_active := Some 1; used_count := Some 0;
                        max_uses := draft_max_uses state;
                        expires_ts := expires |}]> (promo_codes pd);
            promo_usage := promo_usage pd |},
         WzNext i)
    end.

(* ================================================================= *)
(** ** Users, referrers and cashback *)

Definition set_users (u : gmap Z user) (d : db) : db :=
  {| plans := plans d; users := u; subscriptions := subscriptions d;
     subscriptions_seq := subscriptions_seq d;
     manual_payments := manual_payments d |}.

(** [f"@{username}" if username else None] *)
Definition at_name (name : option string) : option string :=
  match name with
  | Some (String c r) => Some (String "@" (String c r))
  | _ => None
  end.

(** [add_user_if_not_exists(user_id, referred_by, username)]: a new user
    gets the referrer and a balance of 0; for a known user only the name
    is rewritten.  ([join_date] is not a column of the model.) *)
Definition add_user_if_not_exists (d : db) (uid : Z) (ref : option Z)
    (name : option string) : db :=
  match users d !! uid with
  | None =>
      set_users (<[uid := {| referred_by := ref; cashback_cents := 0;
                             username := at_name name |}]> (users d)) d
  | Some u =>
      set_users (<[uid := {| referred_by := referred_by u;
                             cashback_cents := cashback_cents u;
                             username := at_name name |}]> (users d)) d
  end.

(** [s.split()]: the words of a text, split at runs of blanks. *)
Fixpoint split_blanks (s : string) : list string :=
  match s with
  | EmptyString => []
  | String c r =>
      if is_space c then split_blanks r
      else
        match r with
        | EmptyString => [String c EmptyString]
        | String c' _ =>
            if is_space c' then String c EmptyString :: split_blanks r
            else
              match split_blanks r with
              | word :: words => String c word :: words
              | [] => [String c EmptyString]
              end
        end
  end.

(** [s[n:]] *)
Fixpoint slice_from (n : nat) (s : string) : string :=
  match n, s with
  | O, _ => s
  | S n', String _ r => slice_from n' r
  | S _, EmptyString => EmptyString
  end.

(** The referrer [cmd_start] reads from the text of the command: the
    number after [ref] in the second word, [None] when there is none or
    [int] raises. *)
Definition start_ref (text : string) : option Z :=
  match split_blanks text !! 1%nat with
  | Some token =>
      if String.prefix "ref" token then py_int (slice_from 3 token) else None
  | None => None
  end.

(** The registration of [cmd_start(message)], with [message.from_user.id],
    its username and the text: the new database and the referrer told of
    the new referral, if any.  The greetings that follow write nothing. *)
Definition cmd_start (d : db) (uid : Z) (name : option string) (text : string)
  : db * option Z :=
  let ref := start_ref text in
  if truthy ref && negb (opt_Z ref =? uid) then
    (add_user_if_not_exists d uid ref name, ref)
  else
    (add_user_if_not_exists d uid None name, None).

(** [int(math.floor(a * b / 100.0))] for two integers: the product is
    exact below [2^53] and the correctly rounded quotient by 100 stays
    below the next integer, so the floor is that of the exact quotient. *)
Definition floor_percent (a b : Z) : Z := (a * b) / 100.

(** [UPDATE users SET cashback_cents = cashback_cents + ?] *)
Definition add_cashback (c : Z) (u : user) : user :=
  {| referred_by := referred_by u; cashback_cents := cashback_cents u + c;
     username := username u |}.

(** The rest of [got_payment(message)], after the message to the payer:
    the promo of the payment is marked as used and the referrer of the
    payer is credited with [REFERRAL_PERCENT] percent of
    [sp.total_amount].  [delivered] tells whether the message to the
    payer was sent; when [bot.send_message] raises there, the handler
    ends before these writes.  The result is the two databases and the
    referrer credited with the amount, if any. *)
Definition got_payment_books (REFERRAL_PERCENT : Z) (delivered : bool)
    (w : world) (d : db) (pd : promo_db)
    (uid : Z) (payload : string) (state_group_id : option Z)
    (total_amount : Z)
  : db * promo_db * option (Z * Z) :=
  let db1 := (got_payment w d uid payload state_group_id).1 in
  match parse_payload payload with
  | None => (db1, pd, None)
  | Some (pid, ptype, promo, mode) =>
      let success :=
        (activate_subscription w d uid pid ptype state_group_id false).2.1 in
      if negb success || negb delivered then (db1, pd, None)
      else
        let pd1 := record_promo_use (clock w) pd promo uid in
        let referrer := users db1 !! uid ≫= referred_by in
        if truthy referrer then
          let cashback := floor_percent total_amount REFERRAL_PERCENT in
          (set_users (alter (add_cashback cashback) (opt_Z referrer)
                            (users db1)) db1,
           pd1, Some (opt_Z referrer, cashback))
        else (db1, pd1, None)
  end.

(* ================================================================= *)
(** * Properties *)

(** ** The helpers on concrete inputs *)

Example cents_1499 : cents_from_str "14.99" = Some 1499.
Proof. reflexivity. Qed.
Example cents_14 : cents_from_str " 14 " = Some 1400.
Proof. reflexivity. Qed.
Example cents_1_5 : cents_from_str "1.5" = Some 150.
Proof. reflexivity. Qed.
Example cents_1_999 : cents_from_str "1.999" = Some 199.
Proof. reflexivity. Qed.
Example cents_bad : cents_from_str "abc" = None.
Proof. reflexivity. Qed.
Example cents_us : cents_from_str "1_000.5" = Some 100050.
Proof. reflexivity. Qed.
Example cents_us2 : cents_from_str "1__0" = None.
Proof. reflexivity. Qed.
Example cents_neg : cents_from_str "-1.50" = Some (-50).
Proof. reflexivity. Qed.
Example price_1499 : price_str_from_cents "BYN" (Some 1499) = "14.99 BYN"%string.
Proof. reflexivity. Qed.
Example price_5 : price_str_from_cents "BYN" (Some 5) = "0.05 BYN"%string.
Proof. reflexivity. Qed.
Example price_none : price_str_from_cents "BYN" None = "0.00 BYN"%string.
Proof. reflexivity. Qed.
Example price_neg : price_str_from_cents "BYN" (Some (-50)) = "-1.50 BYN"%string.
Proof. reflexivity. Qed.
Example promo_10 : fst (apply_promo_code "BYN" 1000 (percent_promo "X" 10)) = 900.
Proof. reflexivity. Qed.

Example epoch_local :
  fromtimestamp 0 = {| year := 1970; month := 1; day := 1;
                       hour := 3; minute := 0; second := 0 |}.
Proof. reflexivity. Qed.
Example april_5_2025 :
  timestamp {| year := 2025; month := 4; day := 5;
               hour := 23; minute := 59; second := 59 |} = 1743886799.
Proof. reflexivity. Qed.
Example leap_day_2024 :
  fromtimestamp 1709200000 = {| year := 2024; month := 2; day := 29;
                                hour := 12; minute := 46; second := 40 |}.
Proof. reflexivity. Qed.

Example cents_blank_inside : cents_from_str "1 . 5" = Some 105.
Proof. reflexivity. Qed.
Example cents_two_dots : cents_from_str "1.2.3" = Some 120.
Proof. reflexivity. Qed.
Example cents_no_fraction : cents_from_str "5." = Some 500.
Proof. reflexivity. Qed.
Example cents_plus : cents_from_str "+5" = Some 500.
Proof. reflexivity. Qed.
Example cents_empty : cents_from_str "" = None.
Proof. reflexivity. Qed.
Example fmt_negative : fmt_0d 4 (-5) = "-005"%string.
Proof. reflexivity. Qed.
Example fmt_wide : fmt_0d 2 123 = "123"%string.
Proof. reflexivity. Qed.

(* ================================================================= *)
(** ** Prices as text *)

(** Every character of [s] satisfies [p]. *)
Fixpoint all_chars (p : ascii -> bool) (s : string) : bool :=
  match s with
  | EmptyString => true
  | String c r => p c && all_chars p r
  end.

(** The number a string of decimal digits writes. *)
Definition digits_value (s : string) : Z :=
  match NilEmpty.uint_of_string s with
  | Some d => Z.of_uint d
  | None => 0
  end.

(** A numeral without its leading zeros; the last digit always stays. *)
Fixpoint drop_leading_zeros (s : string) : string :=
  match s with
  | String c r =>
      if Ascii.eqb c "0"
      then match r with
           | EmptyString => s
           | _ => drop_leading_zeros r
           end
      else s
  | EmptyString => EmptyString
  end.

Lemma is_digit_cases c :
  is_digit c = true ->
  In c ["0"; "1"; "2"; "3"; "4"; "5"; "6"; "7"; "8"; "9"]%char.
Proof.
  destruct c as [[] [] [] [] [] [] [] []]; cbv; intros H;
    try discriminate H; tauto.
Qed.

Lemma lstrip_no_blank blank s :
  all_chars (fun c => negb (blank c)) s = true -> lstrip blank s = s.
Proof.
  destruct s as [|c r]; simpl; [done|].
  intros [Hc _]%andb_true_iff. by destruct (blank c).
Qed.

Lemma rstrip_no_blank blank s :
  all_chars (fun c => negb (blank c)) s = true -> rstrip blank s = s.
Proof.
  induction s as [|c r IH]; simpl; [done|].
  intros [Hc Hr]%andb_true_iff. rewrite (IH Hr).
  destruct r; [by destruct (blank c)|done].
Qed.

Lemma strip_with_no_blank blank s :
  all_chars (fun c => negb (blank c)) s = true -> strip_with blank s = s.
Proof.
  intros H. unfold strip_with.
  by rewrite (rstrip_no_blank _ _ H), (lstrip_no_blank _ _ H).
Qed.

Lemma all_chars_impl (p q : ascii -> bool) s :
  (forall c, p c = true -> q c = true) ->
  all_chars p s = true -> all_chars q s = true.
Proof.
  intros Hpq. induction s as [|c r IH]; simpl; [done|].
  intros [Hc Hr]%andb_true_iff. by rewrite (Hpq _ Hc), (IH Hr).
Qed.

Lemma append_assoc (s t u : string) : (s +:+ t) +:+ u = s +:+ t +:+ u.
Proof.
  induction s as [|c r IH]; [done|].
  change (String c ((r +:+ t) +:+ u) = String c (r +:+ t +:+ u)).
  by rewrite IH.
Qed.

Lemma all_chars_app p s t :
  all_chars p (s +:+ t) = all_chars p s && all_chars p t.
Proof.
  induction s as [|c r IH]; simpl; [done|]. by rewrite IH, andb_assoc.
Qed.

(** What a digit is not: a blank, a dot, a sign, an underscore. *)
Lemma digit_plain c :
  is_digit c = true ->
  is_space c = false /\ is_int_space c = false /\ Ascii.eqb c "." = false
  /\ Ascii.eqb c "_" = false /\ c <> "-"%char /\ c <> "+"%char.
Proof.
  intros H%is_digit_cases. simpl in H.
  repeat (destruct H as [<-|H]; [by repeat split|]). done.
Qed.

Lemma split_no_sep sep s :
  contains_char sep s = false -> split sep s = [s].
Proof.
  induction s as [|c r IH]; simpl; [done|].
  intros [Hc Hr]%orb_false_iff. by rewrite Hc, (IH Hr).
Qed.

Lemma split_at_first sep s t :
  contains_char sep s = false ->
  split sep (s +:+ String sep t) = s :: split sep t.
Proof.
  induction s as [|c r IH]; simpl.
  - intros _. by rewrite Ascii.eqb_refl.
  - intros [Hc Hr]%orb_false_iff. by rewrite Hc, (IH Hr).
Qed.

Lemma contains_char_app sep s t :
  contains_char sep (s +:+ String sep t) = true.
Proof.
  induction s as [|c r IH]; simpl.
  - by rewrite Ascii.eqb_refl.
  - rewrite IH. apply orb_true_r.
Qed.

Lemma digits_no_dot s :
  all_chars is_digit s = true -> contains_char "." s = false.
Proof.
  induction s as [|c r IH]; simpl; [done|].
  intros [Hc Hr]%andb_true_iff.
  destruct (digit_plain _ Hc) as (_ & _ & -> & _). by rewrite (IH Hr).
Qed.

Lemma drop_underscores_digits s :
  all_chars is_digit s = true -> drop_underscores true s = Some s.
Proof.
  induction s as [|c r IH]; simpl; [done|].
  intros [Hc Hr]%andb_true_iff.
  destruct (digit_plain _ Hc) as (_ & _ & _ & -> & _). by rewrite (IH Hr).
Qed.

Lemma uint_of_digits s :
  all_chars is_digit s = true ->
  exists d, NilEmpty.uint_of_string s = Some d.
Proof.
  induction s as [|c r IH]; simpl; [by eexists|].
  intros [Hc Hr]%andb_true_iff. destruct (IH Hr) as [d ->].
  apply is_digit_cases in Hc. simpl in Hc.
  repeat (destruct Hc as [<-|Hc]; [by eexists|]). done.
Qed.

(** [int] reads a plain numeral as the number it writes. *)
Lemma py_int_digits s :
  s <> EmptyString -> all_chars is_digit s = true ->
  py_int s = Some (digits_value s).
Proof.
  intros Hne Hs. unfold py_int, digits_value.
  rewrite strip_with_no_blank
    by (eapply all_chars_impl; [|exact Hs];
        intros c Hc; by destruct (digit_plain _ Hc) as (_ & -> & _)).
  destruct s as [|c r]; [done|].
  assert (Hc : is_digit c = true) by (simpl in Hs; by apply andb_true_iff in Hs as [? _]).
  destruct (digit_plain _ Hc) as (_ & _ & _ & Hu & Hm & Hp).
  assert (Hbody : (let '(neg, body) :=
             match String c r with
             | String "-" r0 => (true, r0)
             | String "+" r0 => (false, r0)
             | _ => (false, String c r)
             end in
           ds ← drop_underscores false body;
           d ← NilEmpty.uint_of_string ds;
           Some (if neg then - Z.of_uint d else Z.of_uint d))
          = (ds ← drop_underscores false (String c r);
             d ← NilEmpty.uint_of_string ds; Some (Z.of_uint d))).
  { apply is_digit_cases in Hc. simpl in Hc.
    repeat (destruct Hc as [<-|Hc]; [reflexivity|]). done. }
  rewrite Hbody. clear Hbody.
  assert (Hd : drop_underscores false (String c r) = Some (String c r)).
  { simpl. rewrite Hu. simpl in Hs. apply andb_true_iff in Hs as [_ Hr].
    by rewrite (drop_underscores_digits _ Hr). }
  rewrite Hd. simpl.
  destruct (uint_of_digits _ Hs) as [d Hd']. simpl in Hd'. by rewrite Hd'.
Qed.

Lemma string_of_unorm d :
  d <> Nil ->
  NilEmpty.string_of_uint (unorm d) = drop_leading_zeros (NilEmpty.string_of_uint d).
Proof.
  induction d as [|d IH| | | | | | | | |]; intros Hne; try done.
  rewrite unorm_D0. destruct d; try done; by rewrite IH.
Qed.

(** [str] of the number a numeral writes is the numeral without its
    leading zeros. *)
Lemma py_str_digits s :
  s <> EmptyString -> all_chars is_digit s = true ->
  py_str (digits_value s) = drop_leading_zeros s.
Proof.
  intros Hne Hs. unfold py_str, digits_value.
  destruct (uint_of_digits _ Hs) as [d Hd]. rewrite Hd.
  pose proof (NilEmpty.sus _ _ Hd) as <-.
  change (Z.of_uint d) with (Z.of_int (Pos d)).
  rewrite DecimalZ.to_of. simpl.
  assert (d <> Nil) by (intros ->; by apply Hne).
  rewrite <- string_of_unorm by done.
  pose proof (unorm_nonnil d). unfold NilZero.string_of_uint.
  by destruct (unorm d).
Qed.

Lemma digits_value_nonneg s : 0 <= digits_value s.
Proof.
  unfold digits_value. destruct (NilEmpty.uint_of_string s) as [d|]; [|done].
  unfold Z.of_uint. lia.
Qed.

(** The two digits of a fraction: read by [int] and written back by the
    zero-padded format. *)
Lemma two_digits f1 f2 :
  is_digit f1 = true -> is_digit f2 = true ->
  let ff := String f1 (String f2 EmptyString) in
  py_int (ljust 2 "0" (slice_to 2 ff)) = Some (digits_value ff)
  /\ 0 <= digits_value ff < 100
  /\ fmt_0d 2 (digits_value ff) = ff.
Proof.
  intros H1%is_digit_cases H2%is_digit_cases. simpl in H1, H2.
  repeat (destruct H1 as [<-|H1]);
    try done;
    repeat (destruct H2 as [<-|H2]); try done; vm_compute; repeat split; congruence.
Qed.

(** C9. A price written [W.FF], with [W] a non-empty string of digits and
    [FF] exactly two digits, is parsed by [cents_from_str] to
    [W * 100 + FF] cents, and [price_str_from_cents] writes those cents back
    as the same value: [W] (without leading zeros, if it had any), the dot,
    the same two digits, a space and the currency.  When [W] has no leading
    zero the text is the input itself followed by the currency. *)
Theorem price_round_trip (CURRENCY W : string) (f1 f2 : ascii) :
  W <> EmptyString ->
  all_chars is_digit W = true ->
  is_digit f1 = true -> is_digit f2 = true ->
  let FF := String f1 (String f2 EmptyString) in
  let s := W +:+ "." +:+ FF in
  exists c,
    cents_from_str s = Some c
    /\ c = digits_value W * 100 + digits_value FF
    /\ price_str_from_cents CURRENCY (Some c)
       = drop_leading_zeros W +:+ "." +:+ FF +:+ " " +:+ CURRENCY
    /\ (drop_leading_zeros W = W ->
        price_str_from_cents CURRENCY (cents_from_str s) = s +:+ " " +:+ CURRENCY).
Proof.
  intros Hne HW H1 H2 FF s.
  destruct (two_digits f1 f2 H1 H2) as (Hint & Hrange & Hfmt).
  fold FF in Hint, Hrange, Hfmt.
  assert (HFF : all_chars is_digit FF = true) by (simpl; by rewrite H1, H2).
  assert (Hparse : cents_from_str s = Some (digits_value W * 100 + digits_value FF)).
  { unfold cents_from_str, strip.
    change s with (W +:+ String "." FF).
    rewrite strip_with_no_blank.
    2:{ rewrite all_chars_app. apply andb_true_iff. split.
        - eapply all_chars_impl; [|exact HW].
          intros c Hc. by destruct (digit_plain _ Hc) as (-> & _).
        - simpl. destruct (digit_plain _ H1) as (-> & _).
          by destruct (digit_plain _ H2) as (-> & _). }
    rewrite contains_char_app.
    rewrite split_at_first by by apply digits_no_dot.
    rewrite split_no_sep by by apply digits_no_dot.
    simpl lookup. simpl mbind.
    rewrite (py_int_digits W Hne HW). simpl. fold FF.
    by rewrite Hint. }
  exists (digits_value W * 100 + digits_value FF).
  assert (Hprint :
    price_str_from_cents CURRENCY (Some (digits_value W * 100 + digits_value FF))
    = drop_leading_zeros W +:+ "." +:+ FF +:+ " " +:+ CURRENCY).
  { unfold price_str_from_cents.
    replace ((digits_value W * 100 + digits_value FF) `div` 100)
      with (digits_value W)
      by (apply Z.div_unique_pos with (r := digits_value FF); lia).
    replace ((digits_value W * 100 + digits_value FF) `mod` 100)
      with (digits_value FF)
      by (apply Z.mod_unique_pos with (q := digits_value W); lia).
    by rewrite Hfmt, (py_str_digits W Hne HW). }
  repeat split; [done|done|].
  intros Hcanon. rewrite Hparse, Hprint, Hcanon. unfold s.
  by rewrite !append_assoc.
Qed.

Lemma price_round_trip_witness :
  exists c,
    cents_from_str "14.99" = Some c
    /\ c = digits_value "14" * 100 + digits_value "99"
    /\ price_str_from_cents "BYN" (Some c) = "14.99 BYN"%string
    /\ (drop_leading_zeros "14" = "14"%string ->
        price_str_from_cents "BYN" (cents_from_str "14.99") = "14.99 BYN"%string).
Proof.
  apply (price_round_trip "BYN" "14" "9" "9"); [discriminate | reflexivity ..].
Defined.

Example price_round_trip_leading_zeros :
  price_str_from_cents "BYN" (cents_from_str "007.50") = "7.50 BYN"%string.
Proof. reflexivity. Qed.

(* ================================================================= *)
(** ** Promo codes *)

Lemma truthy_Some d : d <> 0 -> truthy (Some d) = true.
Proof. intros H. simpl. by apply negb_true_iff, Z.eqb_neq. Qed.

Lemma truthy_false o : truthy o = false -> o = None \/ o = Some 0.
Proof.
  destruct o as [z|]; simpl; [|by left].
  intros H%negb_false_iff%Z.eqb_eq. subst. by right.
Qed.

(** C5. The price [apply_promo_code] returns.  For a promo whose
    [discount_percent] is [d > 0], applied to a price [p >= 0] with
    [p * d < 2^53] (the range where the float quotient truncates exactly),
    it is [max 0 (p - floor (p * d / 100))]; 10 percent on 1000 give 900.
    For a promo with no percentage and a fixed discount [f >= 0] it is
    [max 0 (p - f)]. *)
Theorem apply_promo_code_price (CURRENCY : string) :
  (forall p d pr,
      0 <= p -> 0 < d -> p * d < 2 ^ 53 ->
      discount_percent pr = Some d ->
      (apply_promo_code CURRENCY p pr).1 = Z.max 0 (p - p * d / 100))
  /\ (forall p f pr,
         0 <= p -> 0 <= f ->
         truthy (discount_percent pr) = false ->
         discount_fixed_cents pr = Some f ->
         (apply_promo_code CURRENCY p pr).1 = Z.max 0 (p - f))
  /\ (apply_promo_code CURRENCY 1000 (percent_promo "TEN" 10)).1 = 900.
Proof.
  split; [|split; [|reflexivity]].
  - intros p d pr Hp Hd _ Hpr. unfold apply_promo_code.
    rewrite Hpr, truthy_Some by lia. simpl.
    unfold int_of_truediv. rewrite Z.quot_div_nonneg by lia. done.
  - intros p f pr Hp Hf Hnp Hpr. unfold apply_promo_code.
    rewrite Hnp, Hpr.
    destruct (truthy (Some f)) eqn:Ht; simpl; [done|].
    apply truthy_false in Ht as [Ht|Ht]; [done|]. injection Ht as ->. lia.
Qed.

(** C6, as the code has it.  For a price [p >= 0] and a percentage
    [0 <= d <= 100] with [p * d < 2^53], the price after the promo is
    [max 0 (p - floor (p * d / 100))]: it is between [0] and [p], and what
    the promo takes off the price is [max 0 (floor (p * d / 100))]. *)
Theorem apply_percent_price (CURRENCY : string) (p d : Z) :
  0 <= p -> 0 <= d <= 100 -> p * d < 2 ^ 53 ->
  apply_percent CURRENCY p d = Z.max 0 (p - p * d / 100)
  /\ 0 <= apply_percent CURRENCY p d <= p
  /\ p - apply_percent CURRENCY p d = Z.max 0 (p * d / 100).
Proof.
  intros Hp Hd _. unfold apply_percent, apply_promo_code, percent_promo. simpl.
  assert (0 <= p * d / 100 <= p).
  { split; [apply Z.div_pos; nia|]. apply Z.div_le_upper_bound; nia. }
  destruct (d =? 0) eqn:H0; simpl.
  - apply Z.eqb_eq in H0 as ->. clear H. rewrite Z.mul_0_r, Z.div_0_l by lia. lia.
  - unfold int_of_truediv. rewrite Z.quot_div_nonneg by nia. lia.
Qed.

Lemma apply_percent_price_witness :
  apply_percent "BYN" 1000 10 = Z.max 0 (1000 - 1000 * 10 / 100)
  /\ 0 <= apply_percent "BYN" 1000 10 <= 1000
  /\ 1000 - apply_percent "BYN" 1000 10 = Z.max 0 (1000 * 10 / 100).
Proof. apply (apply_percent_price "BYN" 1000 10); lia. Defined.

(** C6 as the specification words it equates the price after the promo
    with the discount itself; 10 percent on 1000 give 900, not 100. *)
Lemma apply_percent_is_not_the_discount :
  ~ (forall p d, 0 <= p -> 0 <= d <= 100 ->
       apply_percent "BYN" p d = Z.max 0 (p * d / 100)
       /\ apply_percent "BYN" p d <= p).
Proof.
  intros H. destruct (H 1000 10) as [Heq _]; [lia..|]. vm_compute in Heq.
  discriminate Heq.
Qed.

Lemma apply_promo_code_price_witness :
  (apply_promo_code "BYN" 1000 (percent_promo "TEN" 10)).1
  = Z.max 0 (1000 - 1000 * 10 / 100).
Proof.
  apply (proj1 (apply_promo_code_price "BYN") 1000 10); [lia | lia | lia | reflexivity].
Defined.

(* ================================================================= *)
(** ** The calendar *)

(** The month and the day of a date depend on the day of the era only, and
    the year moves with the era. *)
Lemma civil_from_era_doe_shift era doe :
  civil_from_era_doe era doe =
  let '(y, m, d) := civil_from_era_doe 0 doe in (y + era * 400, m, d).
Proof.
  unfold civil_from_era_doe. cbv zeta.
  match goal with |- context [if ?c <=? 2 then _ else _] => destruct (c <=? 2) end;
    f_equal; f_equal; lia.
Qed.

(** The check run over one whole era: the month is between 1 and 12. *)
Definition month_in_range (doe : Z) : bool :=
  let m := (civil_from_era_doe 0 doe).1.2 in (1 <=? m) && (m <=? 12).

(** [p] holds of every [z] with [0 <= z < n], by counting up. *)
Definition all_below (n : N) (p : Z -> bool) : bool :=
  (N.iter n (fun s : Z * bool => (s.1 + 1, s.2 && p s.1)) (0, true)).2.

Lemma all_below_spec n p :
  all_below n p = true -> forall z, 0 <= z < Z.of_N n -> p z = true.
Proof.
  unfold all_below.
  set (f := fun s : Z * bool => (s.1 + 1, s.2 && p s.1)).
  assert (H : forall k,
            (N.iter k f (0, true)).1 = Z.of_N k
            /\ ((N.iter k f (0, true)).2 = true ->
                forall z, 0 <= z < Z.of_N k -> p z = true)).
  { induction k as [|k [IH1 IH2]] using N.peano_ind.
    - split; [done|]. intros _ z Hz. lia.
    - rewrite N.iter_succ. unfold f at 1 3. simpl. rewrite IH1. split; [lia|].
      intros [Hs Hp]%andb_true_iff z Hz.
      destruct (decide (z = Z.of_N k)) as [->|Hne]; [done|].
      apply IH2; [done|lia]. }
  intros Hall z Hz. by apply (proj2 (H n)).
Qed.

Lemma month_in_range_era : all_below 146097 month_in_range = true.
Proof. vm_cast_no_check (eq_refl true). Qed.

Lemma civil_from_days_month z :
  1 <= (civil_from_days z).1.2 <= 12.
Proof.
  unfold civil_from_days. cbv zeta.
  set (t := z + 719468). set (doe := t - t `div` 146097 * 146097).
  assert (Hdoe : 0 <= doe < 146097).
  { unfold doe. pose proof (Z.mod_pos_bound t 146097 ltac:(lia)) as Hm.
    rewrite Z.mod_eq in Hm by lia. lia. }
  rewrite civil_from_era_doe_shift.
  pose proof (all_below_spec _ _ month_in_range_era doe Hdoe) as Hin.
  unfold month_in_range in Hin.
  destruct (civil_from_era_doe 0 doe) as [[y m] d]. simpl in *. lia.
Qed.

Lemma fromtimestamp_month ts :
  month (fromtimestamp ts) = (civil_from_days ((ts + LOCAL_TZ) `div` 86400)).1.2.
Proof.
  unfold fromtimestamp. cbv zeta.
  by destruct (civil_from_days _) as [[y m] d].
Qed.

(** The month of a local time is a month. *)
Lemma fromtimestamp_month_range ts : 1 <= month (fromtimestamp ts) <= 12.
Proof. rewrite fromtimestamp_month. apply civil_from_days_month. Qed.

(** The check run over the 400 years of an era and the 12 months: the 5th
    of the month comes back from its day number. *)
Definition fifth_round_trip (yoe m : Z) : bool :=
  let doy := (153 * (if 2 <? m then m - 3 else m + 9) + 2) / 5 + 5 - 1 in
  let doe := yoe * 365 + yoe / 4 - yoe / 100 + doy in
  (0 <=? doe) && (doe <? 146097)
  && match civil_from_era_doe 0 doe with
     | (y, m', d) =>
         (y =? yoe + (if m <=? 2 then 1 else 0)) && (m' =? m) && (d =? 5)
     end.

Lemma fifth_round_trip_era :
  forallb (fun y => forallb (fun m => fifth_round_trip (Z.of_nat y) (Z.of_nat m))
                            (seq 1 12))
          (seq 0 400) = true.
Proof. vm_compute. reflexivity. Qed.

Lemma civil_of_fifth y m :
  1 <= m <= 12 -> civil_from_days (days_from_civil y m 5) = (y, m, 5).
Proof.
  intros Hm. unfold civil_from_days, days_from_civil. cbv zeta.
  set (y' := if m <=? 2 then y - 1 else y).
  set (era := y' `div` 400). set (yoe := y' - era * 400).
  set (doy := (153 * (if 2 <? m then m - 3 else m + 9) + 2) `div` 5 + 5 - 1).
  set (doe := yoe * 365 + yoe `div` 4 - yoe `div` 100 + doy).
  assert (Hyoe : 0 <= yoe < 400).
  { unfold yoe, era. pose proof (Z.mod_pos_bound y' 400 ltac:(lia)) as Hb.
    rewrite Z.mod_eq in Hb by lia. lia. }
  pose proof fifth_round_trip_era as Hall.
  rewrite forallb_forall in Hall.
  specialize (Hall (Z.to_nat yoe) ltac:(apply in_seq; lia)).
  rewrite forallb_forall in Hall.
  specialize (Hall (Z.to_nat m) ltac:(apply in_seq; lia)).
  rewrite !Z2Nat.id in Hall by lia.
  unfold fifth_round_trip in Hall. cbv zeta in Hall.
  fold doy in Hall. fold doe in Hall.
  apply andb_true_iff in Hall as [Hrange Hciv].
  apply andb_true_iff in Hrange as [Hlo%Z.leb_le Hhi%Z.ltb_lt].
  replace (era * 146097 + doe - 719468 + 719468) with (doe + era * 146097) by lia.
  rewrite Z.div_add by lia. rewrite Z.div_small by lia.
  replace (doe + era * 146097 - (0 + era) * 146097) with doe by lia.
  rewrite civil_from_era_doe_shift.
  destruct (civil_from_era_doe 0 doe) as [[y0 m0] d0].
  apply andb_true_iff in Hciv as [Hciv Hd%Z.eqb_eq].
  apply andb_true_iff in Hciv as [Hy%Z.eqb_eq Hm0%Z.eqb_eq].
  subst m0 d0. f_equal. f_equal.
  unfold yoe, y' in *. destruct (m <=? 2); lia.
Qed.

(** The local time of the timestamp of 23:59:59 on the 5th of a month is
    that time. *)
Lemma fromtimestamp_of_fifth y m :
  1 <= m <= 12 ->
  fromtimestamp (timestamp {| year := y; month := m; day := 5;
                              hour := 23; minute := 59; second := 59 |})
  = {| year := y; month := m; day := 5;
       hour := 23; minute := 59; second := 59 |}.
Proof.
  intros Hm. unfold fromtimestamp, timestamp.
  cbv beta iota zeta delta [year month day hour minute second].
  set (days := days_from_civil y m 5).
  replace (days * 86400 + 23 * 3600 + 59 * 60 + 59 - LOCAL_TZ + LOCAL_TZ)
    with (86399 + days * 86400) by lia.
  rewrite Z.div_add, Z_mod_plus_full by lia.
  change (86399 `div` 86400) with 0. change (86399 `mod` 86400) with 86399.
  rewrite Z.add_0_l. unfold days. rewrite (civil_of_fifth y m Hm).
  reflexivity.
Qed.

Lemma next_month_of_range now :
  1 <= month now <= 12 ->
  1 <= (next_month_of now).1 <= 12
  /\ (next_month_of now).2 * 12 + (next_month_of now).1
     = year now * 12 + month now + 1.
Proof.
  intros H. unfold next_month_of.
  destruct (month now =? 12) eqn:E; simpl.
  - apply Z.eqb_eq in E. lia.
  - apply Z.eqb_neq in E. lia.
Qed.

(** The end of validity computed at a local time: read back in local time,
    it is 23:59:59 on the 5th of the month that follows. *)
Lemma end_ts_at_local ts :
  let now := fromtimestamp ts in
  let e := fromtimestamp (end_ts_at now) in
  day e = 5 /\ hour e = 23 /\ minute e = 59 /\ second e = 59
  /\ 1 <= month e <= 12
  /\ year e * 12 + month e = year now * 12 + month now + 1.
Proof.
  intros now e.
  pose proof (fromtimestamp_month_range ts) as Hm. fold now in Hm.
  destruct (next_month_of_range now Hm) as [Hr Hn].
  unfold e, end_ts_at.
  destruct (next_month_of now) as [nm ny]. simpl in Hr, Hn.
  rewrite fromtimestamp_of_fifth by done. simpl. lia.
Qed.

Example activation_on_march_3 :
  end_ts_at (fromtimestamp 1740992400) = 1743886799
  /\ fromtimestamp 1740992400
     = {| year := 2025; month := 3; day := 3; hour := 12; minute := 0; second := 0 |}.
Proof. split; reflexivity. Qed.

Example activation_on_march_31 :
  end_ts_at (fromtimestamp 1743454799) = 1743886799
  /\ fromtimestamp 1743454799
     = {| year := 2025; month := 3; day := 31; hour := 23; minute := 59; second := 59 |}.
Proof. split; reflexivity. Qed.

Example activation_in_december :
  fromtimestamp (end_ts_at (fromtimestamp 1767211200))
  = {| year := 2026; month := 1; day := 5; hour := 23; minute := 59; second := 59 |}
  /\ fromtimestamp 1767211200
     = {| year := 2025; month := 12; day := 31; hour := 23; minute := 0; second := 0 |}.
Proof. split; reflexivity. Qed.

(* ================================================================= *)
(** ** Queries on [subscriptions] *)

Lemma latest_spec {A} (l : list (Z * A)) :
  match latest l with
  | None => l = []
  | Some x => x ∈ l /\ forall y, y ∈ l -> y.1 <= x.1
  end.
Proof.
  induction l as [|x l IH]; simpl; [done|].
  destruct (latest l) as [y|].
  - destruct IH as [Hy Hmax]. destruct (y.1 <? x.1) eqn:E.
    + apply Z.ltb_lt in E. split; [left|].
      intros z [->|Hz]%elem_of_cons; [lia|]. specialize (Hmax z Hz). lia.
    + apply Z.ltb_ge in E. split; [by right|].
      intros z [->|Hz]%elem_of_cons; [lia|]. by apply Hmax.
  - subst l. split; [left|]. intros z [->|Hz]%elem_of_cons; [lia|].
    by apply elem_of_nil in Hz.
Qed.

Lemma select_active_sub_Some m u p i r :
  select_active_sub m u p = Some (i, r) ->
  m !! i = Some r /\ user_id r = u /\ plan_id r = p /\ active r = 1
  /\ forall j r', m !! j = Some r' ->
       user_id r' = u -> plan_id r' = p -> active r' = 1 -> j <= i.
Proof.
  unfold select_active_sub. intros H.
  pose proof (latest_spec (filter (is_active_sub u p) (map_to_list m))) as Hs.
  rewrite H in Hs. destruct Hs as [Hin Hmax].
  apply list_elem_of_filter in Hin as [(Hu & Hp & Ha) Hin].
  apply elem_of_map_to_list in Hin. simpl in *.
  repeat split; try done.
  intros j r' Hj Hu' Hp' Ha'.
  apply (Hmax (j, r')). apply list_elem_of_filter. split; [done|].
  by apply elem_of_map_to_list.
Qed.

Lemma select_active_sub_None m u p j r :
  select_active_sub m u p = None ->
  m !! j = Some r -> user_id r = u -> plan_id r = p -> active r <> 1.
Proof.
  unfold select_active_sub. intros H Hj Hu Hp Ha.
  pose proof (latest_spec (filter (is_active_sub u p) (map_to_list m))) as Hs.
  rewrite H in Hs.
  assert (Hin : (j, r) ∈ filter (is_active_sub u p) (map_to_list m)).
  { apply list_elem_of_filter. split; [done|]. by apply elem_of_map_to_list. }
  rewrite Hs in Hin. by apply elem_of_nil in Hin.
Qed.

Lemma select_active_sub_intro m u p i r :
  m !! i = Some r -> user_id r = u -> plan_id r = p -> active r = 1 ->
  (forall j r', m !! j = Some r' ->
     user_id r' = u -> plan_id r' = p -> active r' = 1 -> j <= i) ->
  select_active_sub m u p = Some (i, r).
Proof.
  intros Hi Hu Hp Ha Hmax.
  destruct (select_active_sub m u p) as [[j r']|] eqn:E.
  - apply select_active_sub_Some in E as (Hj & Hu' & Hp' & Ha' & Hmax').
    assert (j = i) as ->.
    { specialize (Hmax j r' Hj Hu' Hp' Ha').
      specialize (Hmax' i r Hi Hu Hp Ha). lia. }
    congruence.
  - by destruct (select_active_sub_None _ _ _ _ _ E Hi Hu Hp).
Qed.

(** The selected row stays selected when it is rewritten in place and
    stays an active row of the pair. *)
Lemma select_active_sub_alter f m u p i r :
  select_active_sub m u p = Some (i, r) ->
  user_id (f r) = user_id r -> plan_id (f r) = plan_id r -> active (f r) = 1 ->
  select_active_sub (alter f i m) u p = Some (i, f r).
Proof.
  intros (Hi & Hu & Hp & Ha & Hmax)%select_active_sub_Some Hfu Hfp Hfa.
  apply select_active_sub_intro; try congruence.
  - rewrite lookup_alter_eq. by rewrite Hi.
  - intros j r' Hj Hu' Hp' Ha'.
    destruct (decide (j = i)) as [->|Hne]; [lia|].
    rewrite lookup_alter_ne in Hj by done. by eapply Hmax.
Qed.

Lemma max_rowid_ge {A} (m : gmap Z A) j x :
  m !! j = Some x -> j <= max_rowid m.
Proof.
  intros Hj. unfold max_rowid.
  assert (Hin : j ∈ (map_to_list m).*1).
  { apply list_elem_of_fmap. exists (j, x). split; [done|].
    by apply elem_of_map_to_list. }
  revert Hin. generalize ((map_to_list m).*1). intros l.
  induction l as [|k l IH]; simpl.
  - intros H. by apply elem_of_nil in H.
  - intros [->|H]%elem_of_cons; [lia|]. specialize (IH H). lia.
Qed.

(** AUTOINCREMENT gives an id above every id of the table. *)
Lemma next_rowid_fresh d j r :
  subscriptions d !! j = Some r -> j < next_rowid d.
Proof.
  intros H%max_rowid_ge. unfold next_rowid. lia.
Qed.

Lemma next_rowid_None d : subscriptions d !! next_rowid d = None.
Proof.
  destruct (subscriptions d !! next_rowid d) as [r|] eqn:E; [|done].
  apply next_rowid_fresh in E. lia.
Qed.

Lemma select_active_sub_insert d u p r :
  user_id r = u -> plan_id r = p -> active r = 1 ->
  select_active_sub (<[next_rowid d := r]> (subscriptions d)) u p
  = Some (next_rowid d, r).
Proof.
  intros Hu Hp Ha. apply select_active_sub_intro; try done.
  - apply lookup_insert_eq.
  - intros j r' Hj _ _ _.
    destruct (decide (j = next_rowid d)) as [->|Hne]; [lia|].
    rewrite lookup_insert_ne in Hj by done.
    apply next_rowid_fresh in Hj. lia.
Qed.

(* ================================================================= *)
(** ** Activation, case by case *)

(** The row [activate_subscription] inserts. *)
Definition new_row (w : world) (uid pid : Z) (ptype : string)
    (target : option Z) (link : option string) : subscription :=
  {| user_id := uid; plan_id := pid; start_ts := clock w;
     end_ts := end_ts_at (now_local w); active := 1; invite_link := link;
     removed := 0; group_id := target; payment_type := ptype;
     current_period_month := (get_current_period w).1;
     current_period_year := (get_current_period w).2;
     part_paid := "full"; next_payment_date := end_ts_at (now_local w);
     last_notification_ts := None |}.

(** The four ways through [activate_subscription]. *)
Inductive activation (w : world) (d : db) (uid pid : Z) (ptype : string)
  : db * list event * (bool * option string) -> Prop :=
| act_failed msg :
    activation w d uid pid ptype (d, [], (false, Some msg))
| act_reinvite evs link i ex :
    select_active_sub (subscriptions d) uid pid = Some (i, ex) ->
    paid_current (get_current_period w).1 (get_current_period w).2 (clock w) ex = true ->
    activation w d uid pid ptype
      (set_subscriptions (alter (refresh_link link) i (subscriptions d)) d,
       evs, (true, link))
| act_renew evs link i ex :
    select_active_sub (subscriptions d) uid pid = Some (i, ex) ->
    paid_current (get_current_period w).1 (get_current_period w).2 (clock w) ex = false ->
    activation w d uid pid ptype
      (set_subscriptions
         (alter (renew_row (get_current_period w).1 (get_current_period w).2
                           "full" (clock w) (end_ts_at (now_local w)) link ptype)
                i (subscriptions d)) d,
       evs, (true, link))
| act_insert evs link target :
    select_active_sub (subscriptions d) uid pid = None ->
    activation w d uid pid ptype
      (insert_subscription (new_row w uid pid ptype target link) d,
       evs, (true, link)).

Lemma activate_subscription_cases w d uid pid ptype gid rn :
  activation w d uid pid ptype (activate_subscription w d uid pid ptype gid rn).
Proof.
  unfold activate_subscription.
  destruct (plans d !! pid) as [pl|]; [|constructor].
  unfold get_current_period. cbv zeta.
  destruct (negb (truthy _)); [constructor|].
  unfold create_chat_invite_link_one_time. cbv zeta.
  destruct (select_active_sub (subscriptions d) uid pid) as [[i ex]|] eqn:E.
  - destruct (paid_current _ _ _ ex) eqn:Hp.
    + by eapply act_reinvite.
    + by eapply act_renew.
  - by apply act_insert.
Qed.

(** The end of validity that belongs to a billing period. *)
Definition period_end (m y : Z) : Z :=
  end_ts_at {| year := y; month := m; day := 1;
               hour := 0; minute := 0; second := 0 |}.

Lemma end_ts_at_period now : end_ts_at now = period_end (month now) (year now).
Proof. reflexivity. Qed.

(** Every row ends at the end of validity of the period it is paid for. *)
Definition ends_with_period (m : gmap Z subscription) : Prop :=
  forall i r, m !! i = Some r ->
    end_ts r = period_end (current_period_month r) (current_period_year r).


Lemma paid_current_true cm cy now_ts r :
  paid_current cm cy now_ts r = true <->
  current_period_month r = cm /\ current_period_year r = cy
  /\ part_paid r = "full"%string /\ now_ts < end_ts r.
Proof.
  unfold paid_current. rewrite !andb_true_iff, !Z.eqb_eq, Z.ltb_lt, String.eqb_eq.
  tauto.
Qed.

(* ----------------------------------------------------------------- *)
(** ** Invariants of the table *)

Lemma one_active_alter f i m :
  one_active_per_pair m ->
  (forall r, m !! i = Some r ->
     user_id (f r) = user_id r /\ plan_id (f r) = plan_id r
     /\ (active (f r) = 1 -> active r = 1)) ->
  one_active_per_pair (alter f i m).
Proof.
  intros Hinv Hf a b r1 r2 Ha Hb A1 A2 Hu Hp.
  assert (Hview : forall k r, alter f i m !! k = Some r ->
            exists r0, m !! k = Some r0 /\ user_id r = user_id r0
                       /\ plan_id r = plan_id r0 /\ (active r = 1 -> active r0 = 1)).
  { intros k r Hk. destruct (decide (k = i)) as [->|Hne].
    - rewrite lookup_alter_eq in Hk.
      destruct (m !! i) as [r0|] eqn:E; [|done]. injection Hk as <-.
      destruct (Hf r0 eq_refl) as (? & ? & ?). by exists r0.
    - rewrite lookup_alter_ne in Hk by done. by exists r. }
  destruct (Hview _ _ Ha) as (ra & Hra & Hua & Hpa & Haa).
  destruct (Hview _ _ Hb) as (rb & Hrb & Hub & Hpb & Hab).
  eapply (Hinv a b ra rb); eauto; congruence.
Qed.

Lemma one_active_insert d r :
  one_active_per_pair (subscriptions d) ->
  select_active_sub (subscriptions d) (user_id r) (plan_id r) = None ->
  one_active_per_pair (<[next_rowid d := r]> (subscriptions d)).
Proof.
  intros Hinv Hnone a b r1 r2 Ha Hb A1 A2 Hu Hp.
  destruct (decide (a = next_rowid d)) as [->|Hna];
    destruct (decide (b = next_rowid d)) as [->|Hnb]; [done| | |].
  - rewrite lookup_insert_eq in Ha. injection Ha as <-.
    rewrite lookup_insert_ne in Hb by done.
    by destruct (select_active_sub_None _ _ _ _ _ Hnone Hb).
  - rewrite lookup_insert_eq in Hb. injection Hb as <-.
    rewrite lookup_insert_ne in Ha by done.
    by destruct (select_active_sub_None _ _ _ _ _ Hnone Ha).
  - rewrite lookup_insert_ne in Ha, Hb by done. by eapply Hinv.
Qed.

Lemma ends_with_period_alter f i m :
  ends_with_period m ->
  (forall r, m !! i = Some r ->
     end_ts (f r) = period_end (current_period_month (f r)) (current_period_year (f r))) ->
  ends_with_period (alter f i m).
Proof.
  intros Hinv Hf k r Hk. destruct (decide (k = i)) as [->|Hne].
  - rewrite lookup_alter_eq in Hk.
    destruct (m !! i) as [r0|] eqn:E; [|done]. injection Hk as <-. by apply Hf.
  - rewrite lookup_alter_ne in Hk by done. by eapply Hinv.
Qed.

(** What an activation does to the two invariants. *)
Lemma activation_one_active w d uid pid ptype res :
  activation w d uid pid ptype res ->
  one_active_per_pair (subscriptions d) ->
  one_active_per_pair (subscriptions res.1.1).
Proof.
  intros [msg|evs link i ex Hsel Hp|evs link i ex Hsel Hp|evs link target Hsel] Hinv;
    simpl; try done.
  - apply one_active_alter; [done|]. by intros r _.
  - apply one_active_alter; [done|]. intros r Hr.
    apply select_active_sub_Some in Hsel as (Hi & _ & _ & Ha & _).
    simpl. repeat split. intros _. congruence.
  - by apply one_active_insert.
Qed.

Lemma activation_ends_with_period w d uid pid ptype res :
  activation w d uid pid ptype res ->
  ends_with_period (subscriptions d) ->
  ends_with_period (subscriptions res.1.1).
Proof.
  intros [msg|evs link i ex Hsel Hp|evs link i ex Hsel Hp|evs link target Hsel] Hinv;
    simpl; try done.
  - apply ends_with_period_alter; [done|]. intros r Hr. simpl. by eapply Hinv.
  - apply ends_with_period_alter; [done|]. intros r Hr. simpl.
    apply end_ts_at_period.
  - intros k r Hk. destruct (decide (k = next_rowid d)) as [->|Hne].
    + rewrite lookup_insert_eq in Hk. injection Hk as <-. simpl.
      apply end_ts_at_period.
    + rewrite lookup_insert_ne in Hk by done. by eapply Hinv.
Qed.

(* ----------------------------------------------------------------- *)
(** ** The sweep, row by row *)

Definition sweep_events (now_ts : Z) (e : expired_sub) : list event :=
  (if truthy (es_group_id e)
   then [BanChatMember (opt_Z (es_group_id e)) (es_user_id e) (now_ts + 30)]
   else [])
  ++ [SendMessage (es_user_id e) (MsgAccessSuspended (es_plan_title e))].

Lemma deactivate_idemp r : deactivate (deactivate r) = deactivate r.
Proof. reflexivity. Qed.

(** The loop of the sweep: the selected rows are deactivated, the other
    rows and the other tables stay, and the trace is the rows' events in
    order. *)
Lemma sweep_loop now_ts l d evs :
  let res := foldl (remove_one now_ts) (d, evs) l in
  plans res.1 = plans d /\ users res.1 = users d
  /\ manual_payments res.1 = manual_payments d
  /\ subscriptions_seq res.1 = subscriptions_seq d
  /\ (forall i, i ∈ (es_sub_id <$> l) ->
        subscriptions res.1 !! i = deactivate <$> subscriptions d !! i)
  /\ (forall i, i ∉ (es_sub_id <$> l) ->
        subscriptions res.1 !! i = subscriptions d !! i)
  /\ res.2 = evs ++ mjoin (sweep_events now_ts <$> l).
Proof.
  revert d evs. induction l as [|e l IH]; intros d evs.
  - simpl. repeat split; try done.
    + intros i Hi. by apply elem_of_nil in Hi.
    + by rewrite app_nil_r.
  - rewrite fmap_cons. cbn [foldl].
    destruct (remove_one now_ts (d, evs) e) as [d1 e1] eqn:E1.
    unfold remove_one in E1. cbn [fst snd] in E1. injection E1 as Hd1 He1.
    assert (Hsub1 : subscriptions d1
                    = alter deactivate (es_sub_id e) (subscriptions d))
      by by subst d1.
    assert (Hrest : plans d1 = plans d /\ users d1 = users d
                    /\ manual_payments d1 = manual_payments d
                    /\ subscriptions_seq d1 = subscriptions_seq d)
      by by subst d1.
    destruct Hrest as (Hp1 & Hu1 & Hm1 & Hs1). clear Hd1.
    destruct (IH d1 e1) as (Hp & Hu & Hm & Hs & Hin & Hout & Hev).
    cbv zeta. repeat split; try congruence.
    + intros i Hi. destruct (decide (i ∈ (es_sub_id <$> l))) as [Hl|Hl].
      * rewrite (Hin i Hl), Hsub1.
        destruct (decide (i = es_sub_id e)) as [->|Hne].
        -- rewrite lookup_alter_eq.
           by destruct (subscriptions d !! es_sub_id e).
        -- by rewrite lookup_alter_ne.
      * rewrite (Hout i Hl), Hsub1.
        apply elem_of_cons in Hi as [->|Hi]; [|done].
        by rewrite lookup_alter_eq.
    + intros i Hi. apply not_elem_of_cons in Hi as [Hne Hl].
      rewrite (Hout i Hl), Hsub1. by rewrite lookup_alter_ne.
    + rewrite Hev, <- He1. rewrite fmap_cons. simpl. unfold sweep_events at 2.
      by rewrite <- !app_assoc.
Qed.

Lemma select_expired_spec d cm cy now_ts e :
  e ∈ select_expired d cm cy now_ts <->
  exists r p u,
    subscriptions d !! es_sub_id e = Some r
    /\ lapsed cm cy now_ts r = true
    /\ plans d !! plan_id r = Some p /\ users d !! user_id r = Some u
    /\ e = {| es_sub_id := es_sub_id e; es_user_id := user_id r;
              es_group_id := group_id r; es_plan_id := plan_id r;
              es_plan_title := title p; es_username := username u |}.
Proof.
  unfold select_expired. rewrite list_elem_of_omap. split.
  - intros ([i r] & Hin%elem_of_map_to_list & He).
    unfold expired_row in He. simpl in He.
    destruct (lapsed cm cy now_ts r) eqn:Hl; [|done].
    destruct (plans d !! plan_id r) as [p|] eqn:Hp; [|done].
    destruct (users d !! user_id r) as [u|] eqn:Hu; [|done].
    simpl in He. injection He as <-. simpl. by exists r, p, u.
  - intros (r & p & u & Hr & Hl & Hp & Hu & He).
    exists (es_sub_id e, r). split; [by apply elem_of_map_to_list|].
    unfold expired_row. simpl. rewrite Hl, Hp, Hu. simpl. f_equal. by symmetry.
Qed.

Lemma lapsed_true cm cy now_ts r :
  lapsed cm cy now_ts r = true <->
  active r = 1 /\ end_ts r < now_ts
  /\ (current_period_month r <> cm \/ current_period_year r <> cy
      \/ part_paid r <> "full"%string).
Proof.
  unfold lapsed.
  rewrite !andb_true_iff, !orb_true_iff, !negb_true_iff, Z.eqb_eq, Z.ltb_lt,
    !Z.eqb_neq, String.eqb_neq.
  tauto.
Qed.

(** A generic way to carry a property of the table through the sweep. *)
Lemma sweep_preserves (P : gmap Z subscription -> Prop) w d :
  (forall i m, P m -> P (alter deactivate i m)) ->
  P (subscriptions d) -> P (subscriptions (remove_unpaid_users w d).1).
Proof.
  intros Halt. unfold remove_unpaid_users, get_current_period. cbv zeta.
  generalize (select_expired d (month (now_local w)) (year (now_local w)) (clock w)).
  intros l. generalize (@nil event). revert d.
  induction l as [|e l IH]; intros d evs Hd; simpl; [done|].
  apply IH. simpl. by apply Halt.
Qed.

(* ----------------------------------------------------------------- *)
(** ** The handlers and the table *)

Section HandlerFacts.

Variable ADMIN_IDS : list Z.

(** A review writes [subscriptions] through [activate_subscription] only. *)
Lemma review_subscriptions w d who data :
  let d' := (handle_payment_review ADMIN_IDS w d who data).1 in
  subscriptions d' = subscriptions d
  \/ exists u p pt,
       subscriptions d' = subscriptions (activate_subscription w d u p pt None false).1.1.
Proof.
  unfold handle_payment_review.
  destruct (negb (bool_decide (who ∈ ADMIN_IDS))); [by left|].
  destruct (split ":" data !! 1%nat ≫= py_int) as [payment_id|]; [|by left].
  destruct (select_pending d payment_id) as [t|]; [|by left].
  destruct (String.prefix "approve_payment:" data); [|by left].
  right. exists (pp_user_id t), (pp_plan_id t), (pp_payment_type t).
  destruct (activate_subscription w d _ _ _ None false) as [[db1 evs] [[] result]];
    done.
Qed.

Lemma payment_subscriptions w d uid payload g :
  let d' := (got_payment w d uid payload g).1 in
  subscriptions d' = subscriptions d
  \/ exists p pt,
       subscriptions d' = subscriptions (activate_subscription w d uid p pt g false).1.1.
Proof.
  unfold got_payment.
  destruct (parse_payload payload) as [[[[pid ptype] promo] mode]|]; [|by left].
  right. exists pid, ptype.
  destruct (activate_subscription w d uid pid ptype g false) as [[db1 evs] [[] result]];
    done.
Qed.

(** A property of the table that the activation and the three plain
    UPDATEs keep is kept by every operation. *)
Lemma step_preserves (P : gmap Z subscription -> Prop) :
  (forall w d u p pt res,
      activation w d u p pt res -> P (subscriptions d) -> P (subscriptions res.1.1)) ->
  (forall i m, P m -> P (alter deactivate i m)) ->
  (forall i l ts m, P m -> P (alter (set_link l ts) i m)) ->
  (forall i ts m, P m -> P (alter (set_notified ts) i m)) ->
  forall d d', step ADMIN_IDS d d' -> P (subscriptions d) -> P (subscriptions d').
Proof.
  intros Hact Hde Hlink Hnot d d' Hstep HP.
  destruct Hstep as [w u p pt g rn|w|w who data|w u payload g|i l ts|i ts|d' Hs _].
  - eapply Hact; [apply activate_subscription_cases|done].
  - by apply sweep_preserves.
  - destruct (review_subscriptions w d who data) as [->| (u & p & pt & ->)]; [done|].
    eapply Hact; [apply activate_subscription_cases|done].
  - destruct (payment_subscriptions w d u payload g) as [->| (p & pt & ->)]; [done|].
    eapply Hact; [apply activate_subscription_cases|done].
  - simpl. by apply Hlink.
  - simpl. by apply Hnot.
  - by rewrite Hs.
Qed.

Lemma step_one_active d d' :
  step ADMIN_IDS d d' ->
  one_active_per_pair (subscriptions d) -> one_active_per_pair (subscriptions d').
Proof.
  apply (step_preserves one_active_per_pair).
  - intros w d0 u p pt res. apply activation_one_active.
  - intros i m Hm. apply one_active_alter; [done|]. intros r _. simpl.
    repeat split. lia.
  - intros i l ts m Hm. apply one_active_alter; [done|]. by intros r _.
  - intros i ts m Hm. apply one_active_alter; [done|]. by intros r _.
Qed.

Lemma step_ends_with_period d d' :
  step ADMIN_IDS d d' ->
  ends_with_period (subscriptions d) -> ends_with_period (subscriptions d').
Proof.
  apply (step_preserves ends_with_period).
  - intros w d0 u p pt res. apply activation_ends_with_period.
  - intros i m Hm. apply ends_with_period_alter; [done|].
    intros r Hr. simpl. by eapply Hm.
  - intros i l ts m Hm. apply ends_with_period_alter; [done|].
    intros r Hr. simpl. by eapply Hm.
  - intros i ts m Hm. apply ends_with_period_alter; [done|].
    intros r Hr. simpl. by eapply Hm.
Qed.

Lemma reachable_invariants d :
  reachable ADMIN_IDS d ->
  one_active_per_pair (subscriptions d) /\ ends_with_period (subscriptions d).
Proof.
  induction 1 as [d H0|d d' _ [IH1 IH2] Hstep].
  - rewrite H0. split.
    + intros i j r1 r2 Hi. by rewrite lookup_empty in Hi.
    + intros i r Hi. by rewrite lookup_empty in Hi.
  - split; [by eapply step_one_active|by eapply step_ends_with_period].
Qed.

End HandlerFacts.

(* ================================================================= *)
(** ** Activation *)

(** After a successful activation the row of the pair is the selected one;
    it is paid in full for the current period, and its end of validity is
    the one computed now or, on the re-invite branch, the one it had. *)
Lemma activation_selected w d uid pid ptype res :
  activation w d uid pid ptype res -> res.2.1 = true ->
  exists i r,
    select_active_sub (subscriptions res.1.1) uid pid = Some (i, r)
    /\ current_period_month r = (get_current_period w).1
    /\ current_period_year r = (get_current_period w).2
    /\ part_paid r = "full"%string
    /\ (end_ts r = end_ts_at (now_local w)
        \/ exists ex, subscriptions d !! i = Some ex
             /\ current_period_month ex = (get_current_period w).1
             /\ current_period_year ex = (get_current_period w).2
             /\ end_ts r = end_ts ex).
Proof.
  intros [msg|evs link i ex Hsel Hp|evs link i ex Hsel Hp|evs link target Hsel] Hok;
    simpl in *; [done| | |].
  - apply paid_current_true in Hp as (Hm & Hy & Hf & Hlt).
    exists i, (refresh_link link ex). split.
    + apply select_active_sub_alter; [done|done|done|].
      simpl. by apply select_active_sub_Some in Hsel as (_ & _ & _ & ? & _).
    + repeat split; try done. right. exists ex.
      by apply select_active_sub_Some in Hsel as (? & _).
  - eexists i, _. split.
    + by apply select_active_sub_alter.
    + simpl. repeat split; by left.
  - eexists (next_rowid d), _. split.
    + by apply select_active_sub_insert.
    + simpl. repeat split; by left.
Qed.

(** C10. For a [plan_id] with no row in [plans], [activate_subscription]
    returns the failure "plan not found" and does nothing else: the
    database is the one it was given and no platform call is made (no
    unban, no invite link). *)
Theorem activate_unknown_plan w d uid pid ptype gid rn :
  plans d !! pid = None ->
  activate_subscription w d uid pid ptype gid rn
  = (d, [], (false, Some "Тариф не найден"%string)).
Proof. intros H. unfold activate_subscription. by rewrite H. Qed.

(** C1. In a database the program reaches from one with no subscription,
    a call to [activate_subscription] that returns success leaves the
    active row of the pair with an [end_ts] that is the end of validity
    computed from the current local month; read in local time it is
    23:59:59 on the 5th of the month immediately after the current local
    month, whatever the day of the activation (the year turns after
    December). *)
Theorem activation_end_ts ADMIN_IDS w d uid pid ptype gid rn :
  reachable ADMIN_IDS d ->
  (activate_subscription w d uid pid ptype gid rn).2.1 = true ->
  exists i r,
    select_active_sub
      (subscriptions (activate_subscription w d uid pid ptype gid rn).1.1)
      uid pid = Some (i, r)
    /\ end_ts r = end_ts_at (now_local w)
    /\ day (fromtimestamp (end_ts r)) = 5
    /\ hour (fromtimestamp (end_ts r)) = 23
    /\ minute (fromtimestamp (end_ts r)) = 59
    /\ second (fromtimestamp (end_ts r)) = 59
    /\ 1 <= month (fromtimestamp (end_ts r)) <= 12
    /\ year (fromtimestamp (end_ts r)) * 12 + month (fromtimestamp (end_ts r))
       = year (now_local w) * 12 + month (now_local w) + 1.
Proof.
  intros [_ Hinv]%reachable_invariants Hok.
  pose proof (activate_subscription_cases w d uid pid ptype gid rn) as Hact.
  destruct (activation_selected _ _ _ _ _ _ Hact Hok)
    as (i & r & Hsel & Hm & Hy & Hf & Hend).
  assert (He : end_ts r = end_ts_at (now_local w)).
  { destruct Hend as [He|(ex & Hex & Hm' & Hy' & He)]; [done|].
    rewrite He, (Hinv i ex Hex), Hm', Hy'. by rewrite end_ts_at_period. }
  exists i, r. split; [done|]. split; [done|].
  rewrite He. unfold now_local.
  pose proof (end_ts_at_local (clock w)) as Hloc. cbv zeta in Hloc.
  destruct Hloc as (H1 & H2 & H3 & H4 & H5 & H6).
  repeat split; try done; lia.
Qed.

(** When [activate_subscription] succeeds: the plan exists and a group is
    bound to it or handed in.  What [createChatInviteLink] answers plays
    no part. *)
Lemma activate_succeeds_iff w d uid pid ptype gid rn :
  (activate_subscription w d uid pid ptype gid rn).2.1 = true <->
  exists pl, plans d !! pid = Some pl
             /\ truthy (if truthy (plan_group_id pl)
                        then plan_group_id pl else gid) = true.
Proof.
  unfold activate_subscription.
  destruct (plans d !! pid) as [pl|]; [|split; [done|by intros (? & ? & _)]].
  unfold get_current_period, create_chat_invite_link_one_time. cbv zeta.
  destruct (truthy (if truthy (plan_group_id pl) then plan_group_id pl else gid))
    eqn:Ht; simpl.
  - split; [by exists pl|]. intros _.
    destruct (select_active_sub _ _ _) as [[i ex]|]; [|done].
    by destruct (paid_current _ _ _ _).
  - split; [done|]. intros (pl' & [= <-] & Ht'). congruence.
Qed.

(* ================================================================= *)
(** ** One active row per pair *)

(** C2. Every operation keeps at most one active row per (user, plan).
    [activate_subscription] rewrites the selected active row in place when
    there is one: the other rows are the same and no row is added.  A row
    is added only when the pair had no active row, and then it is the one
    new row, under a fresh id.  What a succeeding activation writes is
    spelled out column by column.  The selected row keeps its id, user,
    plan, group and [next_payment_date]; it gets the link returned and no
    notification stamp, and is afterwards paid in full for the current
    period: if it already was and had not expired, its start, end,
    [removed] and payment type stay (the re-invite), otherwise it starts
    now, ends at the end of validity computed now, is not removed and has
    the payment type of the call (the renewal).  With no active row, the
    new row is the one of the INSERT, under the next id, for the group of
    the plan or else the group handed in. *)
Theorem one_active_row_per_pair ADMIN_IDS :
  (forall d d',
      step ADMIN_IDS d d' ->
      one_active_per_pair (subscriptions d) ->
      one_active_per_pair (subscriptions d'))
  /\ (forall w d uid pid ptype gid rn i ex,
         select_active_sub (subscriptions d) uid pid = Some (i, ex) ->
         let d' := (activate_subscription w d uid pid ptype gid rn).1.1 in
         dom (subscriptions d') = dom (subscriptions d)
         /\ (forall j, j <> i -> subscriptions d' !! j = subscriptions d !! j)
         /\ exists ex', subscriptions d' !! i = Some ex'
                        /\ user_id ex' = uid /\ plan_id ex' = pid /\ active ex' = 1)
  /\ (forall w d uid pid ptype gid rn j,
         let d' := (activate_subscription w d uid pid ptype gid rn).1.1 in
         subscriptions d !! j = None -> is_Some (subscriptions d' !! j) ->
         select_active_sub (subscriptions d) uid pid = None
         /\ j = next_rowid d
         /\ exists r, subscriptions d' = <[j := r]> (subscriptions d)
                      /\ user_id r = uid /\ plan_id r = pid /\ active r = 1)
  /\ (forall w d uid pid ptype gid rn i ex,
         select_active_sub (subscriptions d) uid pid = Some (i, ex) ->
         (activate_subscription w d uid pid ptype gid rn).2.1 = true ->
         let res := activate_subscription w d uid pid ptype gid rn in
         subscriptions_seq res.1.1 = subscriptions_seq d
         /\ exists ex',
              subscriptions res.1.1 !! i = Some ex'
              /\ user_id ex' = user_id ex /\ plan_id ex' = plan_id ex
              /\ group_id ex' = group_id ex
              /\ next_payment_date ex' = next_payment_date ex
              /\ active ex' = 1
              /\ invite_link ex' = res.2.2
              /\ last_notification_ts ex' = None
              /\ current_period_month ex' = (get_current_period w).1
              /\ current_period_year ex' = (get_current_period w).2
              /\ part_paid ex' = "full"%string
              /\ (current_period_month ex = (get_current_period w).1
                  /\ current_period_year ex = (get_current_period w).2
                  /\ part_paid ex = "full"%string /\ clock w < end_ts ex ->
                  start_ts ex' = start_ts ex /\ end_ts ex' = end_ts ex
                  /\ removed ex' = removed ex
                  /\ payment_type ex' = payment_type ex)
              /\ (~ (current_period_month ex = (get_current_period w).1
                     /\ current_period_year ex = (get_current_period w).2
                     /\ part_paid ex = "full"%string /\ clock w < end_ts ex) ->
                  start_ts ex' = clock w
                  /\ end_ts ex' = end_ts_at (now_local w)
                  /\ removed ex' = 0 /\ payment_type ex' = ptype))
  /\ (forall w d uid pid ptype gid rn,
         select_active_sub (subscriptions d) uid pid = None ->
         (activate_subscription w d uid pid ptype gid rn).2.1 = true ->
         let res := activate_subscription w d uid pid ptype gid rn in
         exists pl r,
           plans d !! pid = Some pl
           /\ subscriptions d !! next_rowid d = None
           /\ subscriptions res.1.1 = <[next_rowid d := r]> (subscriptions d)
           /\ subscriptions_seq res.1.1 = next_rowid d
           /\ user_id r = uid /\ plan_id r = pid
           /\ active r = 1 /\ removed r = 0
           /\ start_ts r = clock w
           /\ end_ts r = end_ts_at (now_local w)
           /\ next_payment_date r = end_ts_at (now_local w)
           /\ current_period_month r = (get_current_period w).1
           /\ current_period_year r = (get_current_period w).2
           /\ part_paid r = "full"%string
           /\ payment_type r = ptype
           /\ invite_link r = res.2.2
           /\ last_notification_ts r = None
           /\ group_id r = (if truthy (plan_group_id pl)
                            then plan_group_id pl else gid)
           /\ truthy (group_id r) = true).
Proof.
  split; [|split; [|split; [|split]]].
  - intros d d'. apply step_one_active.
  - intros w d uid pid ptype gid rn i ex Hsel d'.
    pose proof (select_active_sub_Some _ _ _ _ _ Hsel) as (Hi & Hu & Hp & Ha & _).
    subst d'.
    destruct (activate_subscription_cases w d uid pid ptype gid rn)
      as [msg|evs link i' ex' Hsel' Hpc|evs link i' ex' Hsel' Hpc|evs link target Hsel'];
      simpl; [|rewrite Hsel in Hsel'; injection Hsel' as <- <-..|congruence].
    + repeat split; try done. by exists ex.
    + split; [apply dom_alter_L|]. split.
      * intros j Hj. by rewrite lookup_alter_ne.
      * exists (refresh_link link ex). by rewrite lookup_alter_eq, Hi.
    + split; [apply dom_alter_L|]. split.
      * intros j Hj. by rewrite lookup_alter_ne.
      * eexists. by rewrite lookup_alter_eq, Hi.
  - intros w d uid pid ptype gid rn j d' Hnone Hsome. subst d'.
    destruct (activate_subscription_cases w d uid pid ptype gid rn)
      as [msg|evs link i ex Hsel Hpc|evs link i ex Hsel Hpc|evs link target Hsel];
      simpl in *.
    + rewrite Hnone in Hsome. by destruct Hsome.
    + destruct (decide (j = i)) as [->|Hne].
      * rewrite lookup_alter_eq, Hnone in Hsome. by destruct Hsome.
      * rewrite lookup_alter_ne, Hnone in Hsome by done. by destruct Hsome.
    + destruct (decide (j = i)) as [->|Hne].
      * rewrite lookup_alter_eq, Hnone in Hsome. by destruct Hsome.
      * rewrite lookup_alter_ne, Hnone in Hsome by done. by destruct Hsome.
    + destruct (decide (j = next_rowid d)) as [->|Hne].
      * split; [done|]. split; [done|]. by eexists.
      * rewrite lookup_insert_ne, Hnone in Hsome by done. by destruct Hsome.
  - intros w d uid pid ptype gid rn i ex Hsel Hok res. subst res.
    pose proof (select_active_sub_Some _ _ _ _ _ Hsel) as (Hi & Hu & Hp & Ha & _).
    destruct (activate_subscription_cases w d uid pid ptype gid rn)
      as [msg|evs link i' ex' Hsel' Hpc|evs link i' ex' Hsel' Hpc|evs link target Hsel'];
      [done| | |congruence];
      rewrite Hsel in Hsel'; injection Hsel' as <- <-;
      cbn [fst snd subscriptions subscriptions_seq set_subscriptions].
    + split; [done|]. exists (refresh_link link ex).
      rewrite lookup_alter_eq, Hi. cbn.
      apply paid_current_true in Hpc as (Hm & Hy & Hf & Hlt).
      do 11 (split; [done|]). split; [done|].
      intros Hnot. exfalso. by apply Hnot.
    + split; [done|]. eexists. rewrite lookup_alter_eq, Hi. cbn.
      do 11 (split; [done|]). split; [|done].
      intros Hpaid.
      assert (paid_current (get_current_period w).1 (get_current_period w).2
                           (clock w) ex = true)
        by (apply paid_current_true; exact Hpaid).
      congruence.
  - intros w d uid pid ptype gid rn Hsel Hok res. subst res.
    pose proof Hok as Hok'.
    apply activate_succeeds_iff in Hok' as (pl & Hpl & Hg).
    exists pl. revert Hok. unfold activate_subscription.
    rewrite Hpl, Hsel. unfold get_current_period, create_chat_invite_link_one_time.
    cbv zeta. rewrite Hg. cbn [negb fst snd]. intros _.
    eexists. split; [done|]. split; [apply next_rowid_None|].
    cbn [insert_subscription subscriptions subscriptions_seq user_id plan_id
         active removed start_ts end_ts next_payment_date current_period_month
         current_period_year part_paid payment_type invite_link
         last_notification_ts group_id fst snd].
    by repeat split.
Qed.

(* ================================================================= *)
(** ** The re-invite *)



(* ================================================================= *)
(** ** The removal sweep *)

(** C4, as the code has it.  A row paid in full for the current period
    and not expired goes through [remove_unpaid_users] unchanged: it is not
    among the rows the sweep selects, and every ban the sweep attempts is
    the ban of the user and group of a selected row, another one.  A ban
    names a group and a user, not a row: the user [u] is banned from the
    group [c] exactly when a selected row is for that user and that
    group.  The rows the sweep selects are active, their [end_ts] has
    passed and they are not paid in full for the current period; no other
    row is written. *)
Theorem sweep_spares_paid_rows w d i r :
  subscriptions d !! i = Some r ->
  current_period_month r = (get_current_period w).1 ->
  current_period_year r = (get_current_period w).2 ->
  part_paid r = "full"%string ->
  clock w < end_ts r ->
  let res := remove_unpaid_users w d in
  let sel := select_expired d (get_current_period w).1 (get_current_period w).2
                            (clock w) in
  subscriptions res.1 !! i = Some r
  /\ (i ∉ (es_sub_id <$> sel))
  /\ (forall c u t, BanChatMember c u t ∈ res.2 ->
        exists e r', e ∈ sel /\ es_sub_id e <> i
                     /\ subscriptions d !! es_sub_id e = Some r'
                     /\ group_id r' = Some c /\ user_id r' = u)
  /\ (forall c u t, BanChatMember c u t ∈ res.2 <->
        t = clock w + 30 /\ c <> 0
        /\ exists e, e ∈ sel /\ es_user_id e = u /\ es_group_id e = Some c)
  /\ (forall e, e ∈ sel ->
        exists r', subscriptions d !! es_sub_id e = Some r'
                   /\ active r' = 1 /\ end_ts r' < clock w
                   /\ (current_period_month r' <> (get_current_period w).1
                       \/ current_period_year r' <> (get_current_period w).2
                       \/ part_paid r' <> "full"%string))
  /\ (forall j, j ∉ (es_sub_id <$> sel) ->
        subscriptions res.1 !! j = subscriptions d !! j)
  /\ (forall j, j ∈ (es_sub_id <$> sel) ->
        subscriptions res.1 !! j = deactivate <$> subscriptions d !! j).
Proof.
  intros Hi Hm Hy Hf Hlt res sel.
  assert (Hres : res = foldl (remove_one (clock w)) (d, []) sel) by done.
  destruct (sweep_loop (clock w) sel d []) as (_ & _ & _ & _ & Hin & Hout & Hev).
  rewrite <- Hres in Hin, Hout, Hev. simpl in Hev.
  assert (Hsel : forall e, e ∈ sel ->
            exists r', subscriptions d !! es_sub_id e = Some r'
                       /\ lapsed (get_current_period w).1 (get_current_period w).2
                                 (clock w) r' = true
                       /\ es_group_id e = group_id r' /\ es_user_id e = user_id r').
  { intros e (r' & p & u & Hr' & Hl & _ & _ & He)%select_expired_spec.
    exists r'. rewrite He. by repeat split. }
  assert (Hnot : i ∉ (es_sub_id <$> sel)).
  { intros (e & -> & He)%list_elem_of_fmap.
    destruct (Hsel e He) as (r' & Hr' & Hl & _).
    rewrite Hi in Hr'. injection Hr' as <-.
    apply lapsed_true in Hl as (_ & Hexp & _). lia. }
  split; [by rewrite (Hout i Hnot)|]. split; [done|].
  split; [|split; [|split; [|by split]]].
  2:{ intros c u t. rewrite Hev. split.
      - intros (evs & Hban & Hevs)%list_elem_of_join.
        apply list_elem_of_fmap in Hevs as (e & -> & He).
        unfold sweep_events in Hban. apply elem_of_app in Hban as [Hban|Hban].
        + destruct (truthy (es_group_id e)) eqn:Ht;
            [|by apply elem_of_nil in Hban].
          apply list_elem_of_singleton in Hban. injection Hban as -> -> ->.
          destruct (es_group_id e) as [g|] eqn:Hg; [|done].
          apply negb_true_iff, Z.eqb_neq in Ht.
          split; [done|]. split; [done|]. by exists e.
        + apply list_elem_of_singleton in Hban. discriminate Hban.
      - intros (-> & Hc & e & He & <- & Hg).
        apply list_elem_of_join. exists (sweep_events (clock w) e). split.
        + unfold sweep_events. rewrite Hg, truthy_Some by done. left.
        + apply list_elem_of_fmap. by exists e. }
  - intros c u t Hban. rewrite Hev in Hban.
    apply list_elem_of_join in Hban as (evs & Hban & Hevs).
    apply list_elem_of_fmap in Hevs as (e & -> & He).
    destruct (Hsel e He) as (r' & Hr' & _ & Hg & Hu).
    exists e, r'. split; [done|]. split.
    { intros Heq. apply Hnot. apply list_elem_of_fmap. by exists e. }
    split; [done|]. unfold sweep_events in Hban.
    apply elem_of_app in Hban as [Hban|Hban].
    + destruct (truthy (es_group_id e)) eqn:Ht; [|by apply elem_of_nil in Hban].
      apply list_elem_of_singleton in Hban. injection Hban as -> -> _.
      split; [|done]. rewrite <- Hg.
      by destruct (es_group_id e).
    + apply list_elem_of_singleton in Hban. discriminate Hban.
  - intros e He. destruct (Hsel e He) as (r' & Hr' & Hl & _).
    exists r'. split; [done|]. by apply lapsed_true.
Qed.

(* ================================================================= *)
(** ** The review of manual payments *)

Lemma activation_other_tables w d uid pid ptype res :
  activation w d uid pid ptype res ->
  plans res.1.1 = plans d /\ users res.1.1 = users d
  /\ manual_payments res.1.1 = manual_payments d.
Proof. by intros [| | |]. Qed.

(** A failed activation leaves the database as it was and calls nothing. *)
Lemma activate_failure_inert w d uid pid ptype gid rn :
  (activate_subscription w d uid pid ptype gid rn).2.1 = false ->
  (activate_subscription w d uid pid ptype gid rn).1 = (d, []).
Proof.
  unfold activate_subscription.
  destruct (plans d !! pid) as [pl|]; [|done].
  unfold get_current_period, create_chat_invite_link_one_time. cbv zeta.
  destruct (negb _); [done|].
  destruct (select_active_sub _ _ _) as [[i ex]|]; [|done].
  by destruct (paid_current _ _ _ _).
Qed.

Lemma select_pending_Some d i t :
  select_pending d i = Some t ->
  exists mp, manual_payments d !! i = Some mp
             /\ status mp = "pending"%string
             /\ pp_user_id t = mp_user_id mp /\ pp_plan_id t = mp_plan_id mp
             /\ pp_payment_type t = mp_payment_type mp
             /\ pp_plan_title t = plans d !! mp_plan_id mp ≫= title.
Proof.
  unfold select_pending. destruct (manual_payments d !! i) as [mp|]; [|done].
  simpl. destruct (String.eqb (status mp) "pending") eqn:E; [|done].
  apply String.eqb_eq in E. intros [= <-]. by exists mp.
Qed.

Lemma select_pending_None d i :
  select_pending d i = None <->
  forall mp, manual_payments d !! i = Some mp -> status mp <> "pending"%string.
Proof.
  unfold select_pending. destruct (manual_payments d !! i) as [mp|]; simpl.
  - destruct (String.eqb (status mp) "pending") eqn:E.
    + apply String.eqb_eq in E. split; [done|]. intros H. by destruct (H mp).
    + apply String.eqb_neq in E. split; [|done]. by intros _ ? [= <-].
  - split; [|done]. by intros _ ?.
Qed.

(** C8, as the code has it.
    - A reviewed ticket is final: whoever calls the review with whatever
      data, a ticket whose status is not ['pending'] keeps its row.
    - An administrator reviewing a ticket that is missing or not pending
      gets "not found or already processed", and nothing changes.
    - Rejecting a pending ticket sets its status to ['rejected'], leaves
      the subscriptions alone and sends the user the rejection.
    - Approving a pending ticket runs [activate_subscription] for the
      ticket's user, plan and payment type, with no group given.  When the
      activation succeeds, the ticket's status becomes ['approved'] and the
      user is sent the approval with the activation's result.  When it
      fails (the plan is missing or has no group), the database is
      unchanged, the ticket stays pending and only the administrator is
      told. *)
Theorem payment_review_outcomes ADMIN_IDS :
  (forall w d who data j mp,
      manual_payments d !! j = Some mp -> status mp <> "pending"%string ->
      manual_payments (handle_payment_review ADMIN_IDS w d who data).1 !! j = Some mp)
  /\ (forall w d who data i,
         who ∈ ADMIN_IDS ->
         split ":" data !! 1%nat ≫= py_int = Some i ->
         (forall mp, manual_payments d !! i = Some mp -> status mp <> "pending"%string) ->
         handle_payment_review ADMIN_IDS w d who data
         = (d, [AnswerCallbackQuery AnsNotFoundOrProcessed]))
  /\ (forall w d who data i mp,
         who ∈ ADMIN_IDS ->
         split ":" data !! 1%nat ≫= py_int = Some i ->
         manual_payments d !! i = Some mp -> status mp = "pending"%string ->
         String.prefix "approve_payment:" data = false ->
         let res := handle_payment_review ADMIN_IDS w d who data in
         manual_payments res.1 !! i = Some (review "rejected" who (clock w) mp)
         /\ (forall j, j <> i -> manual_payments res.1 !! j = manual_payments d !! j)
         /\ subscriptions res.1 = subscriptions d
         /\ SendMessage (mp_user_id mp)
              (MsgPaymentRejected (plans d !! mp_plan_id mp ≫= title)) ∈ res.2)
  /\ (forall w d who data i mp,
         who ∈ ADMIN_IDS ->
         split ":" data !! 1%nat ≫= py_int = Some i ->
         manual_payments d !! i = Some mp -> status mp = "pending"%string ->
         String.prefix "approve_payment:" data = true ->
         let res := handle_payment_review ADMIN_IDS w d who data in
         let act := activate_subscription w d (mp_user_id mp) (mp_plan_id mp)
                                          (mp_payment_type mp) None false in
         subscriptions res.1 = subscriptions act.1.1
         /\ (forall j, j <> i -> manual_payments res.1 !! j = manual_payments d !! j)
         /\ (act.2.1 = true ->
             manual_payments res.1 !! i = Some (review "approved" who (clock w) mp)
             /\ SendMessage (mp_user_id mp)
                  (MsgPaymentApproved (plans d !! mp_plan_id mp ≫= title) act.2.2)
                ∈ res.2)
         /\ (act.2.1 = false ->
             res = (d, [AnswerCallbackQuery (AnsError act.2.2)]))).
Proof.
  split; [|split; [|split]].
  - intros w d who data j mp Hj Hst. unfold handle_payment_review.
    destruct (negb (bool_decide (who ∈ ADMIN_IDS))); [done|].
    destruct (split ":" data !! 1%nat ≫= py_int) as [i|]; [|done].
    destruct (select_pending d i) as [t|] eqn:Hsel; [|done].
    assert (Hne : j <> i).
    { intros ->. apply select_pending_Some in Hsel as (mp' & Hmp' & Hp & _).
      congruence. }
    destruct (String.prefix "approve_payment:" data).
    + pose proof (activate_subscription_cases w d (pp_user_id t) (pp_plan_id t)
                    (pp_payment_type t) None false) as Hact.
      apply activation_other_tables in Hact as (_ & _ & Hmp).
      destruct (activate_subscription w d _ _ _ None false)
        as [[db1 evs] [[] result]]; simpl in *.
      * by rewrite lookup_alter_ne, Hmp.
      * by rewrite Hmp.
    + simpl. by rewrite lookup_alter_ne.
  - intros w d who data i Hadm Hparse Hno. unfold handle_payment_review.
    rewrite bool_decide_eq_true_2 by done. simpl. rewrite Hparse.
    by apply select_pending_None in Hno as ->.
  - intros w d who data i mp Hadm Hparse Hmp Hst Hrej res. subst res.
    unfold handle_payment_review.
    rewrite bool_decide_eq_true_2 by done. simpl. rewrite Hparse, Hrej.
    unfold select_pending. rewrite Hmp. simpl. rewrite Hst. simpl.
    split; [by rewrite lookup_alter_eq, Hmp|]. split.
    + intros j Hj. by rewrite lookup_alter_ne.
    + split; [done|]. left.
  - intros w d who data i mp Hadm Hparse Hmp Hst Happ res act. subst res.
    unfold handle_payment_review.
    rewrite bool_decide_eq_true_2 by done. simpl. rewrite Hparse, Happ.
    unfold select_pending. rewrite Hmp. simpl. rewrite Hst. simpl.
    fold act.
    pose proof (activate_subscription_cases w d (mp_user_id mp) (mp_plan_id mp)
                  (mp_payment_type mp) None false) as Hact.
    fold act in Hact. apply activation_other_tables in Hact as (_ & _ & Hmps).
    pose proof (activate_failure_inert w d (mp_user_id mp) (mp_plan_id mp)
                  (mp_payment_type mp) None false) as Hfail.
    fold act in Hfail.
    destruct act as [[db1 evs] [[] result]]; simpl in *.
    + split; [done|]. split.
      * intros j Hj. by rewrite lookup_alter_ne, Hmps.
      * split; [|done]. intros _.
        split; [by rewrite lookup_alter_eq, Hmps, Hmp|].
        apply elem_of_app. right. left.
    + specialize (Hfail eq_refl). injection Hfail as -> ->.
      split; [done|]. split; [done|]. split; [done|]. done.
Qed.

(* ================================================================= *)
(** ** The properties on a sample database *)

(** An administrator, a user, a plan bound to a group and a plan bound to
    none; a pending manual payment for each of the two plans. *)
Definition sample_admins : list Z := [99].

Definition plan_math : plan :=
  {| price_cents := Some 1000; title := Some "Math"%string;
     plan_group_id := Some (-1001) |}.

Definition plan_physics : plan :=
  {| price_cents := Some 1500; title := Some "Physics"%string;
     plan_group_id := None |}.

Definition ticket (pid : Z) : manual_payment :=
  {| mp_user_id := 7; mp_plan_id := pid; amount_cents := 1000;
     status := "pending"; admin_id := None; reviewed_ts := None;
     mp_payment_type := "full" |}.

Definition sample_db : db :=
  {| plans := {[ 1 := plan_math; 2 := plan_physics ]};
     users := {[ 7 := {| referred_by := None; cashback_cents := 0;
                         username := Some "@student"%string |} ]};
     subscriptions := ∅;
     subscriptions_seq := 0;
     manual_payments := {[ 1 := ticket 1; 2 := ticket 2 ]} |}.

(** 2025-03-03 12:00:00 local time; the platform issues a link. *)
Definition march_3 : world :=
  {| clock := 1740992400;
     invite_response := Response 200 true (Some "https://t.me/+first"%string) |}.

(** 2025-03-31 23:59:59 local time; the platform issues another link. *)
Definition march_31 : world :=
  {| clock := 1743454799;
     invite_response := Response 200 true (Some "https://t.me/+second"%string) |}.

(** 2025-03-31 23:59:59 local time; the request for a link fails. *)
Definition march_31_offline : world :=
  {| clock := 1743454799; invite_response := RequestRaised |}.

(** 2025-05-06 00:01:00 local time, when the sweep runs. *)
Definition may_6 : world :=
  {| clock := 1746478860; invite_response := RequestRaised |}.

(** The row the activation of 2025-03-03 writes for user 7 and plan 1. *)
Definition march_row : subscription :=
  {| user_id := 7; plan_id := 1; start_ts := 1740992400;
     end_ts := 1743886799; active := 1;
     invite_link := Some "https://t.me/+first"%string; removed := 0;
     group_id := Some (-1001); payment_type := "full";
     current_period_month := 3; current_period_year := 2025;
     part_paid := "full"; next_payment_date := 1743886799;
     last_notification_ts := None |}.

Definition march_db : db :=
  {| plans := plans sample_db; users := users sample_db;
     subscriptions := {[ 1 := march_row ]}; subscriptions_seq := 1;
     manual_payments := manual_payments sample_db |}.

(** Two rows on 2025-05-06: one paid for May (valid to June 5), one paid
    for April only (valid to May 5). *)
Definition may_row : subscription :=
  {| user_id := 7; plan_id := 1; start_ts := 1746165600;
     end_ts := 1749157199; active := 1; invite_link := None; removed := 0;
     group_id := Some (-1001); payment_type := "full";
     current_period_month := 5; current_period_year := 2025;
     part_paid := "full"; next_payment_date := 1749157199;
     last_notification_ts := None |}.

Definition april_row : subscription :=
  {| user_id := 7; plan_id := 2; start_ts := 1744264800;
     end_ts := 1746478799; active := 1; invite_link := None; removed := 0;
     group_id := Some (-1002); payment_type := "full";
     current_period_month := 4; current_period_year := 2025;
     part_paid := "full"; next_payment_date := 1746478799;
     last_notification_ts := None |}.

Definition may_db : db :=
  {| plans := plans sample_db; users := users sample_db;
     subscriptions := {[ 1 := may_row; 2 := april_row ]};
     subscriptions_seq := 2;
     manual_payments := manual_payments sample_db |}.

Example first_activation :
  activate_subscription march_3 sample_db 7 1 "full" None false
  = (march_db,
     [UnbanChatMember (-1001) 7; CreateChatInviteLink (-1001) 1741597200 1],
     (true, Some "https://t.me/+first"%string)).
Proof. vm_compute. reflexivity. Qed.

Example sweep_on_may_6 :
  remove_unpaid_users may_6 may_db
  = (set_subscriptions {[ 1 := may_row; 2 := deactivate april_row ]} may_db,
     [BanChatMember (-1002) 7 1746478890;
      SendMessage 7 (MsgAccessSuspended (Some "Physics"%string))]).
Proof. vm_compute. reflexivity. Qed.

(** Two plans may be bound to one group.  Here the row paid for May and
    the row paid for April only are for the same user and the same group:
    the paid row goes through the sweep untouched, and the ban for the
    lapsed row names that group and user. *)
Example sweep_in_shared_group :
  let shared := {| plans := plans may_db; users := users may_db;
                   subscriptions :=
                     {[ 1 := may_row;
                        2 := {| user_id := 7; plan_id := 2;
                                start_ts := 1744264800; end_ts := 1746478799;
                                active := 1; invite_link := None; removed := 0;
                                group_id := Some (-1001);
                                payment_type := "full";
                                current_period_month := 4;
                                current_period_year := 2025;
                                part_paid := "full";
                                next_payment_date := 1746478799;
                                last_notification_ts := None |} ]};
                   subscriptions_seq := 2;
                   manual_payments := manual_payments may_db |} in
  subscriptions (remove_unpaid_users may_6 shared).1 !! 1 = Some may_row
  /\ (remove_unpaid_users may_6 shared).2
     = [BanChatMember (-1001) 7 1746478890;
        SendMessage 7 (MsgAccessSuspended (Some "Physics"%string))].
Proof. vm_compute. by split. Qed.

(** Two plans bound to one group, as when both take the default group. *)
Definition plan_physics_shared : plan :=
  {| price_cents := Some 1500; title := Some "Physics"%string;
     plan_group_id := Some (-1001) |}.

Definition shared_db : db :=
  {| plans := {[ 1 := plan_math; 2 := plan_physics_shared ]};
     users := users sample_db;
     subscriptions := ∅;
     subscriptions_seq := 0;
     manual_payments := ∅ |}.

(** 2025-04-10 09:00:00 local time. *)
Definition april_10 : world :=
  {| clock := 1744264800;
     invite_response := Response 200 true (Some "https://t.me/+physics"%string) |}.

(** 2025-05-02 09:00:00 local time. *)
Definition may_2 : world :=
  {| clock := 1746165600;
     invite_response := Response 200 true (Some "https://t.me/+math"%string) |}.

(** User 7 pays for Physics in April and for Math in May. *)
Definition physics_april_row : subscription :=
  {| user_id := 7; plan_id := 2; start_ts := 1744264800;
     end_ts := 1746478799; active := 1;
     invite_link := Some "https://t.me/+physics"%string; removed := 0;
     group_id := Some (-1001); payment_type := "full";
     current_period_month := 4; current_period_year := 2025;
     part_paid := "full"; next_payment_date := 1746478799;
     last_notification_ts := None |}.

Definition math_may_row : subscription :=
  {| user_id := 7; plan_id := 1; start_ts := 1746165600;
     end_ts := 1749157199; active := 1;
     invite_link := Some "https://t.me/+math"%string; removed := 0;
     group_id := Some (-1001); payment_type := "full";
     current_period_month := 5; current_period_year := 2025;
     part_paid := "full"; next_payment_date := 1749157199;
     last_notification_ts := None |}.

Definition shared_april : db :=
  {| plans := plans shared_db; users := users shared_db;
     subscriptions := {[ 1 := physics_april_row ]}; subscriptions_seq := 1;
     manual_payments := ∅ |}.

Definition shared_may : db :=
  {| plans := plans shared_db; users := users shared_db;
     subscriptions := {[ 1 := physics_april_row; 2 := math_may_row ]};
     subscriptions_seq := 2;
     manual_payments := ∅ |}.

Example physics_in_april :
  (activate_subscription april_10 shared_db 7 2 "full" None false).1.1
  = shared_april.
Proof. vm_compute. reflexivity. Qed.

Example math_in_may :
  (activate_subscription may_2 shared_april 7 1 "full" None false).1.1
  = shared_may.
Proof. vm_compute. reflexivity. Qed.

Lemma shared_may_reachable : reachable sample_admins shared_may.
Proof.
  apply (reach_step _ shared_april).
  - apply (reach_step _ shared_db); [by apply reach_init|].
    rewrite <- physics_in_april. apply op_activate.
  - rewrite <- math_in_may. apply op_activate.
Qed.

Lemma march_db_reachable : reachable sample_admins march_db.
Proof.
  apply (reach_step _ sample_db).
  - by apply reach_init.
  - pose proof (op_activate sample_admins sample_db march_3 7 1 "full" None false)
      as Hstep.
    by rewrite first_activation in Hstep.
Qed.

Lemma activate_unknown_plan_witness :
  activate_subscription march_3 sample_db 7 5 "full" None false
  = (sample_db, [], (false, Some "Тариф не найден"%string)).
Proof. apply (activate_unknown_plan march_3 sample_db 7 5); reflexivity. Defined.

Lemma activation_end_ts_witness :
  exists i r,
    select_active_sub
      (subscriptions
         (activate_subscription march_31 march_db 7 1 "full" None false).1.1)
      7 1 = Some (i, r)
    /\ end_ts r = end_ts_at (now_local march_31)
    /\ day (fromtimestamp (end_ts r)) = 5
    /\ hour (fromtimestamp (end_ts r)) = 23
    /\ minute (fromtimestamp (end_ts r)) = 59
    /\ second (fromtimestamp (end_ts r)) = 59
    /\ 1 <= month (fromtimestamp (end_ts r)) <= 12
    /\ year (fromtimestamp (end_ts r)) * 12 + month (fromtimestamp (end_ts r))
       = year (now_local march_31) * 12 + month (now_local march_31) + 1.
Proof.
  apply (activation_end_ts sample_admins march_31 march_db 7 1 "full" None false);
    [exact march_db_reachable | reflexivity].
Defined.

Lemma one_active_row_per_pair_witness :
  one_active_per_pair
    (subscriptions (activate_subscription march_31 march_db 7 1 "full" None false).1.1)
  /\ (let res := activate_subscription may_6 march_db 7 1 "card" None false in
      subscriptions_seq res.1.1 = subscriptions_seq march_db
      /\ exists ex',
           subscriptions res.1.1 !! 1 = Some ex'
           /\ user_id ex' = user_id march_row /\ plan_id ex' = plan_id march_row
           /\ group_id ex' = group_id march_row
           /\ next_payment_date ex' = next_payment_date march_row
           /\ active ex' = 1
           /\ invite_link ex' = res.2.2
           /\ last_notification_ts ex' = None
           /\ current_period_month ex' = (get_current_period may_6).1
           /\ current_period_year ex' = (get_current_period may_6).2
           /\ part_paid ex' = "full"%string
           /\ (current_period_month march_row = (get_current_period may_6).1
               /\ current_period_year march_row = (get_current_period may_6).2
               /\ part_paid march_row = "full"%string
               /\ clock may_6 < end_ts march_row ->
               start_ts ex' = start_ts march_row
               /\ end_ts ex' = end_ts march_row
               /\ removed ex' = removed march_row
               /\ payment_type ex' = payment_type march_row)
           /\ (~ (current_period_month march_row = (get_current_period may_6).1
                  /\ current_period_year march_row = (get_current_period may_6).2
                  /\ part_paid march_row = "full"%string
                  /\ clock may_6 < end_ts march_row) ->
               start_ts ex' = clock may_6
               /\ end_ts ex' = end_ts_at (now_local may_6)
               /\ removed ex' = 0 /\ payment_type ex' = "card"%string)).
Proof.
  split.
  - apply (proj1 (one_active_row_per_pair sample_admins) march_db).
    + apply op_activate.
    + intros i j r1 r2 Hi Hj _ _ _ _. simpl in Hi, Hj.
      apply lookup_singleton_Some in Hi as [<- _].
      by apply lookup_singleton_Some in Hj as [<- _].
  - apply (proj1 (proj2 (proj2 (proj2 (one_active_row_per_pair sample_admins))))
             may_6 march_db 7 1 "card" None false 1 march_row); reflexivity.
Defined.

(** The renewal of the row paid for March, on 2025-05-06, with the request
    for a link failing: the row keeps its id and is rewritten for May. *)
Example renewal_on_may_6 :
  activate_subscription may_6 march_db 7 1 "card" None false
  = (set_subscriptions
       {[ 1 := {| user_id := 7; plan_id := 1; start_ts := 1746478860;
                  end_ts := 1749157199; active := 1; invite_link := None;
                  removed := 0; group_id := Some (-1001);
                  payment_type := "card";
                  current_period_month := 5; current_period_year := 2025;
                  part_paid := "full"; next_payment_date := 1743886799;
                  last_notification_ts := None |} ]} march_db,
     [UnbanChatMember (-1001) 7; CreateChatInviteLink (-1001) 1747083660 1],
     (true, None)).
Proof. vm_compute. reflexivity. Qed.


Lemma sweep_spares_paid_rows_witness :
  let res := remove_unpaid_users may_6 may_db in
  let sel := select_expired may_db (get_current_period may_6).1
                            (get_current_period may_6).2 (clock may_6) in
  subscriptions res.1 !! 1 = Some may_row
  /\ (1 ∉ (es_sub_id <$> sel))
  /\ (forall c u t, BanChatMember c u t ∈ res.2 ->
        exists e r', e ∈ sel /\ es_sub_id e <> 1
                     /\ subscriptions may_db !! es_sub_id e = Some r'
                     /\ group_id r' = Some c /\ user_id r' = u)
  /\ (forall c u t, BanChatMember c u t ∈ res.2 <->
        t = clock may_6 + 30 /\ c <> 0
        /\ exists e, e ∈ sel /\ es_user_id e = u /\ es_group_id e = Some c)
  /\ (forall e, e ∈ sel ->
        exists r', subscriptions may_db !! es_sub_id e = Some r'
                   /\ active r' = 1 /\ end_ts r' < clock may_6
                   /\ (current_period_month r' <> (get_current_period may_6).1
                       \/ current_period_year r' <> (get_current_period may_6).2
                       \/ part_paid r' <> "full"%string))
  /\ (forall j, j ∉ (es_sub_id <$> sel) ->
        subscriptions res.1 !! j = subscriptions may_db !! j)
  /\ (forall j, j ∈ (es_sub_id <$> sel) ->
        subscriptions res.1 !! j = deactivate <$> subscriptions may_db !! j).
Proof.
  apply (sweep_spares_paid_rows may_6 may_db 1 may_row); reflexivity.
Defined.

Lemma payment_review_outcomes_witness :
  let res := handle_payment_review sample_admins march_3 sample_db 99
                                   "approve_payment:1" in
  let act := activate_subscription march_3 sample_db 7 1 "full" None false in
  subscriptions res.1 = subscriptions act.1.1
  /\ (forall j, j <> 1 -> manual_payments res.1 !! j = manual_payments sample_db !! j)
  /\ (act.2.1 = true ->
      manual_payments res.1 !! 1 = Some (review "approved" 99 (clock march_3) (ticket 1))
      /\ SendMessage 7 (MsgPaymentApproved (Some "Math"%string) act.2.2) ∈ res.2)
  /\ (act.2.1 = false ->
      res = (sample_db, [AnswerCallbackQuery (AnsError act.2.2)])).
Proof.
  apply (proj2 (proj2 (proj2 (payment_review_outcomes sample_admins)))
           march_3 sample_db 99 "approve_payment:1" 1 (ticket 1));
    [by left | reflexivity ..].
Defined.

(** C4 as the specification words it: no platform ban is attempted for a
    row paid for the current period.  Math and Physics are bound to the
    same group.  On 2025-05-06 the row of user 7 for Math is paid in full
    for May and valid to June 5, the row for Physics was paid for April
    only.  The sweep takes the Physics row and bans user 7 from the group,
    the group of the paid Math row and its user; the Math row stays as it
    is, active. *)
Lemma sweep_bans_a_paid_member :
  reachable sample_admins shared_may
  /\ subscriptions shared_may !! 2 = Some math_may_row
  /\ current_period_month math_may_row = (get_current_period may_6).1
  /\ current_period_year math_may_row = (get_current_period may_6).2
  /\ part_paid math_may_row = "full"%string
  /\ clock may_6 < end_ts math_may_row
  /\ group_id math_may_row = Some (-1001) /\ user_id math_may_row = 7
  /\ BanChatMember (-1001) 7 (clock may_6 + 30)
     ∈ (remove_unpaid_users may_6 shared_may).2
  /\ (remove_unpaid_users may_6 shared_may).2
     = [BanChatMember (-1001) 7 1746478890;
        SendMessage 7 (MsgAccessSuspended (Some "Physics"%string))]
  /\ subscriptions (remove_unpaid_users may_6 shared_may).1 !! 2
     = Some math_may_row.
Proof.
  split; [exact shared_may_reachable|].
  assert (Hev : (remove_unpaid_users may_6 shared_may).2
                = [BanChatMember (-1001) 7 1746478890;
                   SendMessage 7 (MsgAccessSuspended (Some "Physics"%string))])
    by (vm_compute; reflexivity).
  do 7 (split; [reflexivity|]). rewrite Hev.
  split; [left|]. split; [reflexivity|]. vm_compute. reflexivity.
Qed.

(** C8 as the specification words it: approving a pending ticket sets its
    status to ['approved'] and notifies the user.  The ticket 2 is pending
    and its plan is bound to no group; the administrator approves it, the
    activation fails for want of a group, the ticket is still pending and
    the one platform call is the answer to the administrator. *)
Lemma approval_leaves_ticket_pending :
  let res := handle_payment_review sample_admins march_3 sample_db 99
                                   "approve_payment:2" in
  status <$> manual_payments sample_db !! 2 = Some "pending"%string
  /\ status <$> manual_payments res.1 !! 2 = Some "pending"%string
  /\ res.1 = sample_db
  /\ res.2 = [AnswerCallbackQuery
                (AnsError (Some "Не указана группа для подписки"%string))].
Proof. vm_compute. by repeat split. Qed.

(** C7 on the code.  The request for an invite link fails while user 7
    pays for plan 1: [activate_subscription] still returns success, with
    no link, the row is written with no link, and [got_payment] sends the
    user the message of a new subscription, not an activation error. *)
Theorem invite_failure_reported_as_success :
  activate_subscription march_31_offline sample_db 7 1 "full" None false
  = (insert_subscription
       (new_row march_31_offline 7 1 "full" (Some (-1001)) None) sample_db,
     [UnbanChatMember (-1001) 7; CreateChatInviteLink (-1001) 1744059599 1],
     (true, None))
  /\ (got_payment march_31_offline sample_db 7
        "plan:1:user:7:type:full:month:3:year:2025:promo:0:mode:new_subscription:ts:1743454799"
        None).2
     = [UnbanChatMember (-1001) 7; CreateChatInviteLink (-1001) 1744059599 1;
        SendMessage 7 (MsgSubscriptionCreated (Some "Math"%string) None)].
Proof. split; vm_compute; reflexivity. Qed.

(* ================================================================= *)
(** * More of the program *)

(** ** Numbers as text, both ways *)

Lemma digits_of_uint d : all_chars is_digit (NilEmpty.string_of_uint d) = true.
Proof. induction d; simpl; by rewrite ?IHd. Qed.

Lemma string_of_uint_nonempty d :
  d <> Nil -> NilEmpty.string_of_uint d <> EmptyString.
Proof. by destruct d. Qed.

Lemma drop_underscores_numeral s :
  s <> EmptyString -> all_chars is_digit s = true ->
  drop_underscores false s = Some s.
Proof.
  destruct s as [|c r]; [done|]. intros _ [Hc Hr]%andb_true_iff. simpl.
  destruct (digit_plain _ Hc) as (_ & _ & _ & -> & _).
  by rewrite (drop_underscores_digits _ Hr).
Qed.

(** The text [str] gives: a numeral, after a minus sign for a negative
    number. *)
Lemma py_str_shape n :
  exists s d, s <> EmptyString /\ all_chars is_digit s = true
              /\ py_str n = (if n <? 0 then String "-" s else s)
              /\ NilEmpty.uint_of_string s = Some d
              /\ Z.of_uint d = Z.abs n.
Proof.
  unfold py_str. destruct n as [|p|p]; simpl.
  - exists "0"%string, (D0 Nil). by repeat split.
  - exists (NilEmpty.string_of_uint (Pos.to_uint p)), (Pos.to_uint p).
    pose proof (DecimalPos.Unsigned.to_uint_nonnil p) as Hnn.
    split; [by apply string_of_uint_nonempty|].
    split; [apply digits_of_uint|].
    split; [unfold NilZero.string_of_uint; by destruct (Pos.to_uint p)|].
    split; [apply NilEmpty.usu|].
    unfold Z.of_uint. by rewrite DecimalPos.Unsigned.of_to.
  - exists (NilEmpty.string_of_uint (Pos.to_uint p)), (Pos.to_uint p).
    pose proof (DecimalPos.Unsigned.to_uint_nonnil p) as Hnn.
    split; [by apply string_of_uint_nonempty|].
    split; [apply digits_of_uint|].
    split; [unfold NilZero.string_of_uint; by destruct (Pos.to_uint p)|].
    split; [apply NilEmpty.usu|].
    unfold Z.of_uint. by rewrite DecimalPos.Unsigned.of_to.
Qed.

(** [int(str(n)) == n] *)
Lemma py_int_py_str n : py_int (py_str n) = Some n.
Proof.
  destruct (py_str_shape n) as (s & d & Hne & Hs & Hstr & Hparse & Hval).
  rewrite Hstr. destruct (n <? 0) eqn:Hneg.
  - apply Z.ltb_lt in Hneg. unfold py_int.
    rewrite strip_with_no_blank.
    2:{ simpl. eapply all_chars_impl; [|exact Hs].
        intros c Hc. by destruct (digit_plain _ Hc) as (_ & -> & _). }
    cbv beta iota zeta.
    rewrite (drop_underscores_numeral s Hne Hs). simpl.
    rewrite Hparse. simpl. f_equal. lia.
  - apply Z.ltb_ge in Hneg. rewrite (py_int_digits s Hne Hs).
    unfold digits_value. rewrite Hparse. f_equal. lia.
Qed.

Lemma digits_without c s :
  is_digit c = false -> all_chars is_digit s = true -> contains_char c s = false.
Proof.
  intros Hc. induction s as [|a r IH]; simpl; [done|].
  intros [Ha Hr]%andb_true_iff. rewrite (IH Hr), orb_false_r.
  apply Ascii.eqb_neq. intros ->. congruence.
Qed.

(** [str(n)] holds no dot and no colon. *)
Lemma py_str_plain n c :
  is_digit c = false -> c <> "-"%char -> contains_char c (py_str n) = false.
Proof.
  intros Hc Hm. destruct (py_str_shape n) as (s & d & _ & Hs & -> & _).
  destruct (n <? 0); [|by apply digits_without].
  cbn [contains_char]. rewrite (digits_without c s Hc Hs), orb_false_r.
  apply Ascii.eqb_neq. congruence.
Qed.

(** The check run over the hundred values of a fraction of cents: the
    zero-padded format writes two digits, and [int] reads them back. *)
Definition fraction_ok (r : Z) : bool :=
  match fmt_0d 2 r with
  | String a (String b EmptyString) =>
      is_digit a && is_digit b
      && bool_decide (py_int (String a (String b EmptyString)) = Some r)
  | _ => false
  end.

Lemma fraction_ok_all : all_below 100 fraction_ok = true.
Proof. vm_compute. reflexivity. Qed.

Lemma fmt_two_digits r :
  0 <= r < 100 ->
  exists a b, fmt_0d 2 r = String a (String b EmptyString)
              /\ is_digit a = true /\ is_digit b = true
              /\ py_int (String a (String b EmptyString)) = Some r.
Proof.
  intros Hr. pose proof (all_below_spec _ _ fraction_ok_all r Hr) as H.
  unfold fraction_ok in H.
  destruct (fmt_0d 2 r) as [|a [|b [|]]]; try done.
  apply andb_true_iff in H as [[Ha Hb]%andb_true_iff Hp%bool_decide_eq_true].
  by exists a, b.
Qed.

Lemma rstrip_keeps blank s c t :
  blank c = false ->
  rstrip blank (s +:+ String c t) = s +:+ String c (rstrip blank t).
Proof.
  intros Hc. induction s as [|a r IH].
  - change (rstrip blank (String c t) = String c (rstrip blank t)).
    cbn [rstrip]. destruct (rstrip blank t); [by rewrite Hc|reflexivity].
  - change (rstrip blank (String a (r +:+ String c t))
            = String a (r +:+ String c (rstrip blank t))).
    cbn [rstrip]. rewrite IH. destruct r; reflexivity.
Qed.

Lemma split_nonempty sep s : split sep s <> [].
Proof.
  destruct s as [|c r]; [done|]. cbn [split].
  destruct (Ascii.eqb c sep); [done|]. by destruct (split sep r).
Qed.

Lemma split_cons sep c r :
  Ascii.eqb c sep = false ->
  exists h t, split sep r = h :: t /\ split sep (String c r) = String c h :: t.
Proof.
  intros Hc. cbn [split]. rewrite Hc.
  pose proof (split_nonempty sep r) as Hne.
  destruct (split sep r) as [|h t]; [done|].
  exists h, t. split; reflexivity.
Qed.

Lemma slice_two a b r :
  slice_to 2 (String a (String b r)) = String a (String b EmptyString).
Proof. unfold slice_to. simpl. by destruct r. Qed.

(** X1. [cents_from_str] reads back the text [price_str_from_cents]
    writes, for every amount and whatever the currency. *)
Theorem cents_of_price_text (CURRENCY : string) (c : Z) :
  cents_from_str (price_str_from_cents CURRENCY (Some c)) = Some c.
Proof.
  unfold price_str_from_cents.
  destruct (fmt_two_digits (c `mod` 100)) as (a & b & Hfmt & Ha & Hb & Hint);
    [apply Z.mod_pos_bound; lia|].
  rewrite Hfmt. set (W := py_str (c `div` 100)).
  change (W +:+ "." +:+ String a (String b EmptyString) +:+ " " +:+ CURRENCY)
    with (W +:+ String "." (String a (String b (String " " CURRENCY)))).
  assert (Hrs : strip (W +:+ String "." (String a (String b (String " " CURRENCY))))
                = W +:+ String "." (String a (String b (rstrip is_space (String " " CURRENCY))))).
  { unfold strip, strip_with.
    change (W +:+ String "." (String a (String b (String " " CURRENCY))))
      with (W +:+ String "." (String a (EmptyString +:+ String b (String " " CURRENCY)))).
    assert (Hb' : is_space b = false) by by destruct (digit_plain _ Hb) as (-> & _).
    replace (W +:+ String "." (String a (EmptyString +:+ String b (String " " CURRENCY))))
      with ((W +:+ String "." (String a EmptyString)) +:+ String b (String " " CURRENCY))
      by by rewrite append_assoc.
    rewrite (rstrip_keeps _ _ _ _ Hb'), append_assoc.
    change (String "." (String a EmptyString) +:+ String b (rstrip is_space (String " " CURRENCY)))
      with (String "." (String a (String b (rstrip is_space (String " " CURRENCY))))).
    destruct (py_str_shape (c `div` 100)) as (s & d0 & Hne & Hs & HW & _).
    fold W in HW. rewrite HW.
    destruct (c `div` 100 <? 0); [done|].
    destruct s as [|d r]; [done|]. simpl in Hs.
    apply andb_true_iff in Hs as [Hd _].
    destruct (digit_plain _ Hd) as (Hsp & _).
    change (lstrip is_space (String d (r +:+ String "." (String a (String b (rstrip is_space (String " " CURRENCY))))))
            = String d (r +:+ String "." (String a (String b (rstrip is_space (String " " CURRENCY)))))).
    simpl. by rewrite Hsp. }
  unfold cents_from_str. rewrite Hrs.
  set (T := rstrip is_space (String " " CURRENCY)).
  rewrite contains_char_app.
  rewrite split_at_first by (apply py_str_plain; [done|congruence]).
  destruct (split_cons "." a (String b T)) as (h1 & t1 & E1 & ->);
    [by destruct (digit_plain _ Ha) as (_ & _ & -> & _)|].
  destruct (split_cons "." b T) as (h2 & t2 & E2 & E2');
    [by destruct (digit_plain _ Hb) as (_ & _ & -> & _)|].
  rewrite E2' in E1. injection E1 as <- <-.
  simpl lookup. simpl mbind. unfold W. rewrite py_int_py_str. simpl.
  rewrite slice_two.
  change (ljust 2 "0" (String a (String b EmptyString)))
    with (String a (String b EmptyString)).
  rewrite Hint. simpl. f_equal.
  pose proof (Z.div_mod c 100 ltac:(lia)). lia.
Qed.

(** One digit of a fraction stands for tenths: [int] reads it with the
    zero [ljust] appends. *)
Lemma one_digit f :
  is_digit f = true ->
  py_int (ljust 2 "0" (slice_to 2 (String f EmptyString)))
  = Some (10 * digits_value (String f EmptyString)).
Proof.
  intros H%is_digit_cases. simpl in H.
  repeat (destruct H as [<-|H]; [reflexivity|]). done.
Qed.

(** X2. What [cents_from_str] makes of a plain decimal numeral, [W] being
    a non-empty string of digits: no fraction is whole units; a dot with
    nothing after it too; one digit after the dot is tenths; and of a
    longer fraction only the first two digits count (the rest is cut off,
    not rounded). *)
Theorem cents_from_numeral (W : string) :
  W <> EmptyString -> all_chars is_digit W = true ->
  cents_from_str W = Some (digits_value W * 100)
  /\ cents_from_str (W +:+ ".") = Some (digits_value W * 100)
  /\ (forall f, is_digit f = true ->
        cents_from_str (W +:+ String "." (String f EmptyString))
        = Some (digits_value W * 100 + 10 * digits_value (String f EmptyString)))
  /\ (forall f1 f2 rest,
        is_digit f1 = true -> is_digit f2 = true ->
        all_chars is_digit rest = true ->
        cents_from_str (W +:+ String "." (String f1 (String f2 rest)))
        = Some (digits_value W * 100
                + digits_value (String f1 (String f2 EmptyString)))).
Proof.
  intros Hne HW.
  assert (Hnb : forall t, all_chars is_digit t = true ->
                  all_chars (fun c => negb (is_space c)) t = true).
  { intros t. apply all_chars_impl. intros c Hc.
    by destruct (digit_plain _ Hc) as (-> & _). }
  assert (Hdot : forall F, all_chars is_digit F = true ->
            cents_from_str (W +:+ String "." F)
            = (f ← py_int (ljust 2 "0" (slice_to 2 F));
               Some (digits_value W * 100 + f))).
  { intros F HF. unfold cents_from_str, strip.
    rewrite strip_with_no_blank.
    2:{ rewrite all_chars_app. apply andb_true_iff. split; [by apply Hnb|].
        simpl. by apply Hnb. }
    rewrite contains_char_app.
    rewrite split_at_first by by apply digits_no_dot.
    rewrite split_no_sep by by apply digits_no_dot.
    simpl lookup. simpl mbind. rewrite (py_int_digits W Hne HW). done. }
  split; [|split; [|split]].
  - unfold cents_from_str, strip. rewrite strip_with_no_blank by by apply Hnb.
    rewrite (digits_no_dot W HW). rewrite (py_int_digits W Hne HW). done.
  - rewrite (Hdot EmptyString eq_refl).
    change (py_int (ljust 2 "0" (slice_to 2 EmptyString))) with (Some 0).
    cbn [mbind option_bind]. by rewrite Z.add_0_r.
  - intros f Hf. rewrite Hdot by (simpl; by rewrite Hf).
    by rewrite (one_digit f Hf).
  - intros f1 f2 rest H1 H2 Hrest.
    rewrite Hdot by (simpl; by rewrite H1, H2, Hrest).
    rewrite slice_two.
    destruct (two_digits f1 f2 H1 H2) as (Hint & _ & _).
    rewrite slice_two in Hint. by rewrite Hint.
Qed.

Lemma cents_from_numeral_witness :
  cents_from_str "12" = Some (digits_value "12" * 100)
  /\ cents_from_str ("12" +:+ ".") = Some (digits_value "12" * 100)
  /\ (forall f, is_digit f = true ->
        cents_from_str ("12" +:+ String "." (String f EmptyString))
        = Some (digits_value "12" * 100 + 10 * digits_value (String f EmptyString)))
  /\ (forall f1 f2 rest,
        is_digit f1 = true -> is_digit f2 = true ->
        all_chars is_digit rest = true ->
        cents_from_str ("12" +:+ String "." (String f1 (String f2 rest)))
        = Some (digits_value "12" * 100
                + digits_value (String f1 (String f2 EmptyString)))).
Proof. apply (cents_from_numeral "12"); [discriminate | reflexivity]. Defined.

(* ----------------------------------------------------------------- *)
(** ** The invoice payload *)

Lemma split_segment sep s t :
  contains_char sep s = false ->
  split sep (s +:+ String sep t) = s :: split sep t.
Proof. apply split_at_first. Qed.

Lemma py_str_nonzero n : n <> 0 -> String.eqb (py_str n) "0" = false.
Proof.
  intros Hn. apply String.eqb_neq. intros H.
  pose proof (py_int_py_str n) as Hi. rewrite H in Hi.
  vm_compute in Hi. congruence.
Qed.

Lemma parse_invoice_payload pid uid ptype cm cy promo mode now_ts :
  contains_char ":" ptype = false ->
  contains_char ":" mode = false ->
  parse_payload (invoice_payload pid uid ptype cm cy promo mode now_ts)
  = Some (pid, ptype, (if truthy promo then promo else None), mode).
Proof.
  intros Hpt Hmode. unfold parse_payload, invoice_payload.
  assert (Hnum : forall n, contains_char ":" (py_str n) = false)
    by (intros n; by apply py_str_plain).
  set (pr := if truthy promo then opt_Z promo else 0).
  assert (Hsplit :
    split ":" ("plan:" +:+ py_str pid +:+ ":user:" +:+ py_str uid
               +:+ ":type:" +:+ ptype
               +:+ ":month:" +:+ py_str cm +:+ ":year:" +:+ py_str cy
               +:+ ":promo:" +:+ py_str pr
               +:+ ":mode:" +:+ mode +:+ ":" +:+ py_str now_ts)
    = ["plan"; py_str pid; "user"; py_str uid; "type"; ptype; "month";
       py_str cm; "year"; py_str cy; "promo"; py_str pr; "mode"; mode;
       py_str now_ts]%string).
  { change ("plan:" +:+ py_str pid +:+ ":user:" +:+ py_str uid
               +:+ ":type:" +:+ ptype
               +:+ ":month:" +:+ py_str cm +:+ ":year:" +:+ py_str cy
               +:+ ":promo:" +:+ py_str pr
               +:+ ":mode:" +:+ mode +:+ ":" +:+ py_str now_ts)
      with ("plan" +:+ String ":" (py_str pid +:+ String ":" ("user" +:+ String ":"
            (py_str uid +:+ String ":" ("type" +:+ String ":" (ptype +:+ String ":"
            ("month" +:+ String ":" (py_str cm +:+ String ":" ("year" +:+ String ":"
            (py_str cy +:+ String ":" ("promo" +:+ String ":" (py_str pr +:+ String ":"
            ("mode" +:+ String ":" (mode +:+ String ":" (py_str now_ts))))))))))))))).
    rewrite !split_segment by done. by rewrite split_no_sep. }
  rewrite Hsplit. simpl lookup. simpl mbind.
  rewrite !py_int_py_str. cbn [mbind option_bind fmap option_fmap option_map].
  unfold pr. destruct (truthy promo) eqn:Ht.
  - destruct promo as [k|]; [|done]. simpl in Ht.
    apply negb_true_iff, Z.eqb_neq in Ht.
    change (opt_Z (Some k)) with k. by rewrite (py_str_nonzero k Ht).
  - reflexivity.
Qed.

(** X3. The payload [process_card_payment] builds is read back by
    [got_payment]: the plan, the payment type, the promo (none for no
    promo or promo 0) and the mode come out as they went in, provided the
    payment type and the mode hold no colon; the user, the month, the year
    and the time written in the payload are not read. *)
Theorem payload_round_trip pid uid ptype cm cy promo mode now_ts :
  contains_char ":" ptype = false ->
  contains_char ":" mode = false ->
  parse_payload (invoice_payload pid uid ptype cm cy promo mode now_ts)
  = Some (pid, ptype, (if truthy promo then promo else None), mode)
  /\ (forall uid' cm' cy' now_ts',
        parse_payload (invoice_payload pid uid' ptype cm' cy' promo mode now_ts')
        = parse_payload (invoice_payload pid uid ptype cm cy promo mode now_ts)).
Proof.
  intros Hpt Hmode. split; [by apply parse_invoice_payload|].
  intros uid' cm' cy' now_ts'. by rewrite !parse_invoice_payload.
Qed.

Lemma payload_round_trip_witness :
  parse_payload (invoice_payload 1 7 "full" 3 2025 (Some 4) "renewal" 1743454799)
  = Some (1, "full"%string, Some 4, "renewal"%string).
Proof.
  apply (proj1 (payload_round_trip 1 7 "full" 3 2025 (Some 4) "renewal"
                                   1743454799 eq_refl eq_refl)).
Defined.

(* ================================================================= *)
(** ** The calendar, day by day *)

Lemma days_from_civil_shift y m d e :
  days_from_civil (y + e * 400) m d = days_from_civil y m d + e * 146097.
Proof.
  unfold days_from_civil. cbv zeta.
  assert (H : forall z, (z + e * 400) `div` 400 = z `div` 400 + e)
    by (intros z; by rewrite Z.div_add by lia).
  destruct (m <=? 2).
  - replace (y + e * 400 - 1) with (y - 1 + e * 400) by lia. rewrite H.
    replace (y - 1 + e * 400 - ((y - 1) `div` 400 + e) * 400)
      with (y - 1 - (y - 1) `div` 400 * 400) by lia.
    lia.
  - rewrite H.
    replace (y + e * 400 - (y `div` 400 + e) * 400)
      with (y - y `div` 400 * 400) by lia.
    lia.
Qed.

(** The check run over the days of one era: the day of the month is
    between 1 and 31, the date gives the day number back, and the 5th of
    the next month is 5 to 35 days later, by the length of the month. *)
Definition civil_day_ok (doe : Z) : bool :=
  let '(y, m, d) := civil_from_era_doe 0 doe in
  let '(nm, ny) := if m =? 12 then (1, y + 1) else (m + 1, y) in
  let ahead := days_from_civil ny nm 5 - (doe - 719468) in
  (1 <=? d) && (d <=? 31)
  && (days_from_civil y m d =? doe - 719468)
  && (5 <=? ahead) && (33 - d <=? ahead) && (ahead <=? 36 - d).

Lemma civil_day_ok_era : all_below 146097 civil_day_ok = true.
Proof. vm_cast_no_check (eq_refl true). Qed.

(** Every day number is the day number of its date, and the 5th of the
    month after it comes 5 to 35 days later. *)
Lemma civil_from_days_facts D :
  let now := civil_from_days D in
  let y := now.1.1 in let m := now.1.2 in let d := now.2 in
  let nm := if m =? 12 then 1 else m + 1 in
  let ny := if m =? 12 then y + 1 else y in
  1 <= d <= 31
  /\ days_from_civil y m d = D
  /\ 5 <= days_from_civil ny nm 5 - D
  /\ 33 - d <= days_from_civil ny nm 5 - D <= 36 - d.
Proof.
  unfold civil_from_days. cbv zeta.
  set (t := D + 719468). set (era := t `div` 146097).
  set (doe := t - era * 146097).
  assert (Hdoe : 0 <= doe < 146097).
  { unfold doe, era. pose proof (Z.mod_pos_bound t 146097 ltac:(lia)) as Hm.
    rewrite Z.mod_eq in Hm by lia. lia. }
  rewrite civil_from_era_doe_shift.
  pose proof (all_below_spec _ _ civil_day_ok_era doe Hdoe) as Hok.
  unfold civil_day_ok in Hok.
  destruct (civil_from_era_doe 0 doe) as [[y0 m] d]. cbn [fst snd].
  assert (HD : D = doe - 719468 + era * 146097) by (unfold doe, t; lia).
  destruct (m =? 12).
  - repeat (apply andb_true_iff in Hok as [Hok ?]).
    replace (y0 + era * 400 + 1) with (y0 + 1 + era * 400) by lia.
    rewrite !days_from_civil_shift. lia.
  - repeat (apply andb_true_iff in Hok as [Hok ?]).
    rewrite !days_from_civil_shift. lia.
Qed.

Lemma fromtimestamp_fields ts :
  let loc := ts + LOCAL_TZ in
  let c := civil_from_days (loc `div` 86400) in
  year (fromtimestamp ts) = c.1.1 /\ month (fromtimestamp ts) = c.1.2
  /\ day (fromtimestamp ts) = c.2.
Proof.
  unfold fromtimestamp. cbv zeta.
  by destruct (civil_from_days _) as [[y m] d].
Qed.

(** The local date of a moment is the date of its day, and the end of
    validity computed at that moment is [ahead] whole days later, at the
    last second of the day. *)
Lemma end_ts_at_days ts :
  let now := fromtimestamp ts in
  exists D E,
    (ts + LOCAL_TZ) `div` 86400 = D
    /\ days_from_civil (year now) (month now) (day now) = D
    /\ end_ts_at now = E * 86400 + 86399 - LOCAL_TZ
    /\ 1 <= day now <= 31
    /\ 5 <= E - D /\ 33 - day now <= E - D <= 36 - day now.
Proof.
  intros now. destruct (fromtimestamp_fields ts) as (Hy & Hm & Hd).
  fold now in Hy, Hm, Hd.
  pose proof (civil_from_days_facts ((ts + LOCAL_TZ) `div` 86400)) as H.
  cbv zeta in H. rewrite <- Hy, <- Hm, <- Hd in H.
  destruct H as (Hday & Hback & H5 & Hlen).
  exists ((ts + LOCAL_TZ) `div` 86400).
  exists (days_from_civil (if month now =? 12 then year now + 1 else year now)
                          (if month now =? 12 then 1 else month now + 1) 5).
  repeat split; try done; try lia.
  unfold end_ts_at, next_month_of, timestamp.
  destruct (month now =? 12); cbn [year month day hour minute second]; lia.
Qed.

(** The end of validity computed at a moment is between 5 and 36 days
    ahead of it, and at least [33 - day] days. *)
Lemma end_ts_at_window ts :
  let now := fromtimestamp ts in
  5 * 86400 <= end_ts_at now - ts < 36 * 86400
  /\ (33 - day now) * 86400 <= end_ts_at now - ts.
Proof.
  intros now.
  destruct (end_ts_at_days ts) as (D & E & HD & _ & HE & Hday & H5 & Hlen).
  fold now in HE, Hday, Hlen. rewrite HE.
  pose proof (Z.div_mod (ts + LOCAL_TZ) 86400 ltac:(lia)) as Hdm.
  pose proof (Z.mod_pos_bound (ts + LOCAL_TZ) 86400 ltac:(lia)) as Hrem.
  rewrite HD in Hdm. lia.
Qed.

(** X4. The end of validity an activation computes is always ahead of the
    moment of the activation: at least 5 days (an activation at the last
    second of the 31st), less than 36 days, and at least [33 - day] days
    for an activation on the given day of the month; it is the last second
    of a local day. *)
Theorem end_ts_at_ahead ts :
  let now := fromtimestamp ts in
  5 * 86400 <= end_ts_at now - ts < 36 * 86400
  /\ (33 - day now) * 86400 <= end_ts_at now - ts
  /\ (end_ts_at now + LOCAL_TZ) mod 86400 = 86399.
Proof.
  intros now. destruct (end_ts_at_window ts) as [Hwin Hday].
  split; [done|]. split; [done|].
  destruct (end_ts_at_days ts) as (D & E & _ & _ & HE & _).
  fold now in HE. rewrite HE.
  replace (E * 86400 + 86399 - LOCAL_TZ + LOCAL_TZ) with (86399 + E * 86400)
    by lia.
  by rewrite Z.mod_add.
Qed.

Example paid_on_the_31st :
  end_ts_at (fromtimestamp 1743454799) - 1743454799 = 5 * 86400.
Proof. reflexivity. Qed.
Lemma latest_end_spec l :
  match latest_end l with
  | None => l = []
  | Some x => x ∈ l
  end.
Proof.
  induction l as [|x l IH]; simpl; [done|].
  destruct (latest_end l) as [y|].
  - destruct (end_ts y.2 <? end_ts x.2); [left|by right].
  - left.
Qed.

(** With one active row per pair, the row the status check picks is the
    row the activation picks. *)
Lemma latest_end_is_selected m uid pid :
  one_active_per_pair m ->
  latest_end (filter (is_active_sub uid pid) (map_to_list m))
  = select_active_sub m uid pid.
Proof.
  intros Hinv.
  pose proof (latest_end_spec (filter (is_active_sub uid pid) (map_to_list m))) as H.
  destruct (latest_end _) as [[i r]|].
  - apply list_elem_of_filter in H as [(Hu & Hp & Ha) Hin].
    apply elem_of_map_to_list in Hin. simpl in *. symmetry.
    apply select_active_sub_intro; try done.
    intros j r' Hj Hu' Hp' Ha'.
    assert (j = i) by (eapply Hinv; eauto; congruence). lia.
  - unfold select_active_sub. by rewrite H.
Qed.

(* ----------------------------------------------------------------- *)
(** ** What every stored row satisfies *)

(** A row as the program writes it: paid in full, either active or removed
    (never both, never neither), for a month between 1 and 12, valid from
    its start for at least 5 days and less than 36. *)
Definition row_wf (r : subscription) : Prop :=
  part_paid r = "full"%string
  /\ ((active r = 1 /\ removed r = 0) \/ (active r = 0 /\ removed r = 1))
  /\ 1 <= current_period_month r <= 12
  /\ 5 * 86400 <= end_ts r - start_ts r < 36 * 86400.

Definition rows_wf (m : gmap Z subscription) : Prop :=
  forall i r, m !! i = Some r -> row_wf r.

Lemma rows_wf_alter f i m :
  rows_wf m -> (forall r, m !! i = Some r -> row_wf r -> row_wf (f r)) ->
  rows_wf (alter f i m).
Proof.
  intros Hinv Hf k r Hk. destruct (decide (k = i)) as [->|Hne].
  - rewrite lookup_alter_eq in Hk.
    destruct (m !! i) as [r0|] eqn:E; [|done]. injection Hk as <-.
    apply Hf; [done|]. by eapply Hinv.
  - rewrite lookup_alter_ne in Hk by done. by eapply Hinv.
Qed.

Lemma now_row_wf w :
  1 <= (get_current_period w).1 <= 12
  /\ 5 * 86400 <= end_ts_at (now_local w) - clock w < 36 * 86400.
Proof.
  split; [apply fromtimestamp_month_range|].
  by destruct (end_ts_at_window (clock w)) as [? _].
Qed.

Lemma activation_rows_wf w d uid pid ptype res :
  activation w d uid pid ptype res ->
  rows_wf (subscriptions d) -> rows_wf (subscriptions res.1.1).
Proof.
  destruct (now_row_wf w) as [Hm He].
  intros [msg|evs link i ex Hsel Hp|evs link i ex Hsel Hp|evs link target Hsel] Hinv;
    simpl; try done.
  - apply rows_wf_alter; [done|]. by intros r _ ?.
  - apply rows_wf_alter; [done|]. intros r _ _.
    split; [done|]. split; [by left|]. by split.
  - intros k r Hk. destruct (decide (k = next_rowid d)) as [->|Hne].
    + rewrite lookup_insert_eq in Hk. injection Hk as <-.
      split; [done|]. split; [by left|]. by split.
    + rewrite lookup_insert_ne in Hk by done. by eapply Hinv.
Qed.

Section StoredRows.

Variable ADMIN_IDS : list Z.

Lemma reachable_rows_wf d :
  reachable ADMIN_IDS d -> rows_wf (subscriptions d).
Proof.
  induction 1 as [d H0|d d' _ IH Hstep].
  - rewrite H0. intros i r Hi. by rewrite lookup_empty in Hi.
  - revert IH. apply (step_preserves ADMIN_IDS rows_wf); try done.
    + intros w d0 u p pt res. apply activation_rows_wf.
    + intros i m Hm. apply rows_wf_alter; [done|].
      intros r _ (Hf & _ & Hmon & Hlen). split; [done|]. split; [by right|]. done.
    + intros i l ts m Hm. apply rows_wf_alter; [done|]. by intros r _ ?.
    + intros i ts m Hm. apply rows_wf_alter; [done|]. by intros r _ ?.
Qed.

(** X5. Every row of [subscriptions] the program can reach is paid in
    full, is either active and not removed or removed and not active, is
    for a month between 1 and 12 and ends on the 5th after that month,
    and is valid for at least 5 days and less than 36 from its start. *)
Theorem stored_rows_are_well_formed d i r :
  reachable ADMIN_IDS d ->
  subscriptions d !! i = Some r ->
  row_wf r
  /\ end_ts r = period_end (current_period_month r) (current_period_year r).
Proof.
  intros Hreach Hi. split.
  - by eapply reachable_rows_wf.
  - by eapply (proj2 (reachable_invariants ADMIN_IDS d Hreach)).
Qed.

(** X6. The split payment is never on offer: in every database the
    program can reach, [can_user_pay_partial] answers no, for no row is
    ever written with [part_paid = 'first']. *)
Theorem partial_payment_never_offered w d uid pid :
  reachable ADMIN_IDS d -> can_user_pay_partial w d uid pid = false.
Proof.
  intros Hwf%reachable_rows_wf. unfold can_user_pay_partial.
  destruct (get_current_period w) as [m y].
  destruct (filter _ _) as [|[i r] l] eqn:E; [done|].
  assert (Hin : (i, r) ∈ (i, r) :: l) by left.
  rewrite <- E in Hin.
  apply list_elem_of_filter in Hin as [(_ & _ & _ & _ & Hfirst) Hin].
  apply elem_of_map_to_list in Hin. simpl in Hfirst.
  destruct (Hwf i r Hin) as (Hfull & _). congruence.
Qed.

(** X7. Right after a successful activation the status check of the pair
    reports the row the activation wrote as paid: status ['paid'], no
    renewal needed, valid to the end of validity computed at that
    moment. *)
Theorem activation_makes_paid w d uid pid ptype gid rn :
  reachable ADMIN_IDS d ->
  (activate_subscription w d uid pid ptype gid rn).2.1 = true ->
  exists i r c,
    select_active_sub
      (subscriptions (activate_subscription w d uid pid ptype gid rn).1.1)
      uid pid = Some (i, r)
    /\ check_existing_subscription
         w (activate_subscription w d uid pid ptype gid rn).1.1 uid pid = Some c
    /\ sc_id c = i
    /\ sc_status c = "paid"%string /\ sc_paid c = true
    /\ sc_needs_renewal c = false
    /\ sc_end_ts c = end_ts_at (now_local w).
Proof.
  intros Hreach Hok.
  pose proof (reachable_invariants ADMIN_IDS d Hreach) as [Hone Hper].
  pose proof (activate_subscription_cases w d uid pid ptype gid rn) as Hact.
  pose proof (activation_one_active _ _ _ _ _ _ Hact Hone) as Hone'.
  destruct (activation_selected _ _ _ _ _ _ Hact Hok)
    as (i & r & Hsel & Hm & Hy & Hf & Hend).
  assert (He : end_ts r = end_ts_at (now_local w)).
  { destruct Hend as [He|(ex & Hex & Hm' & Hy' & He)]; [done|].
    rewrite He, (Hper i ex Hex), Hm', Hy'. by rewrite end_ts_at_period. }
  assert (Hplan : is_Some (plans (activate_subscription w d uid pid ptype gid rn).1.1 !! pid)).
  { destruct (activation_other_tables _ _ _ _ _ _ Hact) as (-> & _).
    apply activate_succeeds_iff in Hok as (pl & -> & _). by eexists. }
  destruct Hplan as [pl Hpl].
  assert (Hpaid : paid_current (get_current_period w).1 (get_current_period w).2
                               (clock w) r = true).
  { apply paid_current_true. repeat split; try done. rewrite He.
    destruct (end_ts_at_window (clock w)) as [? _]. unfold now_local. lia. }
  exists i, r. unfold check_existing_subscription.
  destruct (get_current_period w) as [cm cy] eqn:Eper. simpl in Hpaid.
  rewrite Hpl. simpl. rewrite (latest_end_is_selected _ _ _ Hone'), Hsel. simpl.
  rewrite Hpaid. simpl.
  eexists. split; [done|]. split; [reflexivity|]. simpl.
  repeat split; try done.
  apply paid_current_true in Hpaid as (_ & _ & _ & Hlt).
  apply Z.leb_gt. lia.
Qed.

(** X8. The status check tells what an activation of the pair will do.
    When it finds a row, the activation rewrites that row and no other:
    if the status is paid, only the link is refreshed, so paying again
    within a paid period extends nothing; otherwise the row is renewed for
    the current period.  When it finds none, though the plan exists, the
    activation inserts a new row under the next id. *)
Theorem status_predicts_activation w d uid pid ptype gid rn :
  reachable ADMIN_IDS d ->
  (activate_subscription w d uid pid ptype gid rn).2.1 = true ->
  let res := activate_subscription w d uid pid ptype gid rn in
  match check_existing_subscription w d uid pid with
  | Some c =>
      is_Some (subscriptions d !! sc_id c)
      /\ subscriptions res.1.1
         = alter (if sc_paid c then refresh_link res.2.2
                  else renew_row (get_current_period w).1 (get_current_period w).2
                                 "full" (clock w) (end_ts_at (now_local w))
                                 res.2.2 ptype)
                 (sc_id c) (subscriptions d)
  | None =>
      subscriptions d !! next_rowid d = None
      /\ exists target,
          subscriptions res.1.1
          = <[next_rowid d := new_row w uid pid ptype target res.2.2]>
              (subscriptions d)
  end.
Proof.
  intros Hreach Hok.
  pose proof (reachable_invariants ADMIN_IDS d Hreach) as [Hone _].
  pose proof (activate_subscription_cases w d uid pid ptype gid rn) as Hact.
  pose proof Hok as Hok'.
  apply activate_succeeds_iff in Hok' as (pl & Hpl & _).
  unfold check_existing_subscription.
  destruct (get_current_period w) as [cm cy] eqn:Eper.
  rewrite Hpl. cbn [mbind option_bind].
  rewrite (latest_end_is_selected _ _ _ Hone).
  cbv zeta.
  destruct Hact as [msg|evs link i ex Hsel Hp|evs link i ex Hsel Hp|evs link target Hsel];
    [done| | |]; rewrite Hsel; cbn [mbind option_bind fst snd sc_id sc_paid];
    rewrite ?Eper in *; cbn [fst snd] in *.
  - rewrite Hp. split; [|done].
    apply select_active_sub_Some in Hsel as (-> & _). by eexists.
  - rewrite Hp. split; [|done].
    apply select_active_sub_Some in Hsel as (-> & _). by eexists.
  - split; [apply next_rowid_None|]. by exists target.
Qed.

End StoredRows.

(* ================================================================= *)
(** ** The sweep as a map over the table *)

(** What the sweep does to one row: a lapsed row whose plan and user
    exist (the two inner joins) is deactivated, any other row stays. *)
Definition swept (d : db) (cm cy now_ts : Z) (r : subscription) : subscription :=
  if lapsed cm cy now_ts r
     && bool_decide (is_Some (plans d !! plan_id r))
     && bool_decide (is_Some (users d !! user_id r))
  then deactivate r else r.

Lemma sweep_selected d cm cy now_ts i :
  i ∈ (es_sub_id <$> select_expired d cm cy now_ts) <->
  exists r, subscriptions d !! i = Some r
            /\ lapsed cm cy now_ts r = true
            /\ is_Some (plans d !! plan_id r)
            /\ is_Some (users d !! user_id r).
Proof.
  rewrite list_elem_of_fmap. split.
  - intros (e & -> & He). apply select_expired_spec in He
      as (r & p & u & Hr & Hl & Hp & Hu & _).
    exists r. by rewrite Hp, Hu.
  - intros (r & Hr & Hl & [p Hp] & [u Hu]).
    exists {| es_sub_id := i; es_user_id := user_id r;
              es_group_id := group_id r; es_plan_id := plan_id r;
              es_plan_title := title p; es_username := username u |}.
    split; [done|]. apply select_expired_spec. by exists r, p, u.
Qed.

Lemma sweep_table w d :
  let res := remove_unpaid_users w d in
  plans res.1 = plans d /\ users res.1 = users d
  /\ manual_payments res.1 = manual_payments d
  /\ subscriptions_seq res.1 = subscriptions_seq d
  /\ subscriptions res.1
     = swept d (get_current_period w).1 (get_current_period w).2 (clock w)
         <$> subscriptions d
  /\ res.2 = mjoin (sweep_events (clock w)
                      <$> select_expired d (get_current_period w).1
                            (get_current_period w).2 (clock w)).
Proof.
  unfold remove_unpaid_users, get_current_period. cbv zeta. cbn [fst snd].
  set (cm := month (now_local w)). set (cy := year (now_local w)).
  destruct (sweep_loop (clock w) (select_expired d cm cy (clock w)) d [])
    as (Hp & Hu & Hm & Hs & Hin & Hout & Hev).
  repeat split; try done.
  apply map_eq. intros i. rewrite lookup_fmap.
  destruct (decide (i ∈ (es_sub_id <$> select_expired d cm cy (clock w))))
    as [Hi|Hi].
  - rewrite (Hin i Hi). apply sweep_selected in Hi as (r & -> & Hl & Hpl & Hus).
    simpl. unfold swept. by rewrite Hl, !bool_decide_true.
  - rewrite (Hout i Hi). destruct (subscriptions d !! i) as [r|] eqn:Hr; [|done].
    simpl. f_equal. unfold swept.
    destruct (lapsed cm cy (clock w) r) eqn:Hl; [|done].
    destruct (decide (is_Some (plans d !! plan_id r))) as [Hpl|Hpl];
      [|by rewrite (bool_decide_false _ Hpl)].
    destruct (decide (is_Some (users d !! user_id r))) as [Hus|Hus];
      [|by rewrite (bool_decide_false _ Hus), andb_false_r].
    exfalso. apply Hi, sweep_selected. by exists r.
Qed.

Lemma omap_nil {A B} (f : A -> option B) l :
  (forall x, x ∈ l -> f x = None) -> omap f l = [].
Proof.
  induction l as [|x l IH]; intros H; [done|]. simpl.
  rewrite (H x) by left. apply IH. intros y Hy. apply H. by right.
Qed.

(** X9. The sweep is idempotent: run again at the same moment it selects
    nothing, changes nothing and calls nothing, for the rows it took are
    no longer active. *)
Theorem sweep_twice w d :
  remove_unpaid_users w (remove_unpaid_users w d).1
  = ((remove_unpaid_users w d).1, []).
Proof.
  destruct (sweep_table w d) as (Hp & Hu & _ & _ & Hs & _).
  cbv zeta in *.
  set (d1 := (remove_unpaid_users w d).1) in *.
  unfold remove_unpaid_users at 1.
  destruct (get_current_period w) as [cm cy]. cbn [fst snd] in Hs. cbv zeta.
  replace (select_expired d1 cm cy (clock w)) with (@nil expired_sub); [done|].
  symmetry. apply omap_nil. intros [i r'] Hin%elem_of_map_to_list.
  unfold expired_row. cbn [fst snd].
  destruct (lapsed cm cy (clock w) r') eqn:Hl; [|done].
  rewrite Hs, lookup_fmap in Hin.
  destruct (subscriptions d !! i) as [r|]; [|done]. simpl in Hin.
  injection Hin as <-. unfold swept in *. fold d1. rewrite Hp, Hu.
  destruct (lapsed cm cy (clock w) r
            && bool_decide (is_Some (plans d !! plan_id r))
            && bool_decide (is_Some (users d !! user_id r))) eqn:Hb.
  - apply lapsed_true in Hl as (Ha & _). simpl in Ha. lia.
  - rewrite Hl in Hb. simpl in Hb. apply andb_false_iff in Hb as [Hb|Hb];
      apply bool_decide_eq_false, eq_None_not_Some in Hb; rewrite Hb; [done|].
    by destruct (plans d !! plan_id r).
Qed.

(* ----------------------------------------------------------------- *)
(** ** Periods and the clock *)

Lemma days_from_civil_day y m d k :
  days_from_civil y m (d + k) = days_from_civil y m d + k.
Proof. unfold days_from_civil. cbv zeta. lia. Qed.

Lemma period_end_days pm py :
  period_end pm py
  = days_from_civil
      (next_month_of {| year := py; month := pm; day := 1;
                        hour := 0; minute := 0; second := 0 |}).2
      (next_month_of {| year := py; month := pm; day := 1;
                        hour := 0; minute := 0; second := 0 |}).1 5 * 86400
    + 86399 - LOCAL_TZ.
Proof.
  unfold period_end, end_ts_at.
  destruct (next_month_of _) as [nm ny]. unfold timestamp. simpl. lia.
Qed.

(** A row paid for the current period ends at least five days from now,
    and at least [33 - day] days. *)
Lemma current_period_ahead ts :
  5 * 86400 <= period_end (month (fromtimestamp ts)) (year (fromtimestamp ts)) - ts
  /\ (33 - day (fromtimestamp ts)) * 86400
     <= period_end (month (fromtimestamp ts)) (year (fromtimestamp ts)) - ts.
Proof.
  rewrite <- end_ts_at_period.
  destruct (end_ts_at_window ts) as [[? _] ?]. by split.
Qed.

(** A row paid for the month before the current one has ended once the
    local day is the 6th or later. *)
Lemma previous_period_over ts pm py :
  next_month_of {| year := py; month := pm; day := 1;
                   hour := 0; minute := 0; second := 0 |}
  = (month (fromtimestamp ts), year (fromtimestamp ts)) ->
  6 <= day (fromtimestamp ts) ->
  period_end pm py < ts.
Proof.
  intros Hnext Hday. rewrite period_end_days, Hnext. cbn [fst snd].
  destruct (end_ts_at_days ts) as (D & E & HD & Hciv & _).
  cbv zeta in Hciv.
  replace (day (fromtimestamp ts)) with (5 + (day (fromtimestamp ts) - 5))
    in Hciv by lia.
  rewrite days_from_civil_day in Hciv.
  pose proof (Z.mul_div_le (ts + LOCAL_TZ) 86400 ltac:(lia)) as Hle.
  rewrite HD in Hle. nia.
Qed.

Section Schedule.

Variable ADMIN_IDS : list Z.

(** On the databases the program reaches, a row the WHERE clause of the
    sweep takes is just an active row whose end of validity has passed:
    its test of the period adds nothing. *)
Lemma lapsed_reachable w d i r :
  reachable ADMIN_IDS d -> subscriptions d !! i = Some r ->
  lapsed (get_current_period w).1 (get_current_period w).2 (clock w) r
  = (active r =? 1) && (end_ts r <? clock w).
Proof.
  intros Hreach Hi.
  destruct (reachable_invariants ADMIN_IDS d Hreach) as [_ Hper].
  pose proof (reachable_rows_wf ADMIN_IDS d Hreach i r Hi) as (Hfull & _).
  specialize (Hper i r Hi).
  unfold lapsed, get_current_period. cbn [fst snd].
  rewrite Hfull. change (String.eqb "full" "full") with true.
  pose proof (current_period_ahead (clock w)) as [H5 _].
  fold (now_local w) in H5.
  generalize dependent (month (now_local w)).
  generalize dependent (year (now_local w)). intros cy cm H5.
  destruct (active r =? 1); [|done].
  destruct (end_ts r <? clock w) eqn:Hlt; [|done].
  apply Z.ltb_lt in Hlt.
  destruct (current_period_month r =? cm) eqn:Hm; [|done].
  destruct (current_period_year r =? cy) eqn:Hy; [|done].
  apply Z.eqb_eq in Hm, Hy. exfalso. rewrite Hm, Hy in Hper. lia.
Qed.

(** X10. On the databases the program reaches, the sweep is an expiry
    sweep: it deactivates exactly the active rows whose end of validity
    has passed and whose plan and user rows exist, and leaves every other
    row as it is.  After it, no row with a plan and a user is both active
    and expired. *)
Theorem sweep_removes_the_expired w d i r :
  reachable ADMIN_IDS d ->
  subscriptions d !! i = Some r ->
  (active r = 1 /\ end_ts r < clock w
   /\ is_Some (plans d !! plan_id r) /\ is_Some (users d !! user_id r) ->
   subscriptions (remove_unpaid_users w d).1 !! i = Some (deactivate r))
  /\ (~ (active r = 1 /\ end_ts r < clock w
         /\ is_Some (plans d !! plan_id r) /\ is_Some (users d !! user_id r)) ->
      subscriptions (remove_unpaid_users w d).1 !! i = Some r)
  /\ (forall r', subscriptions (remove_unpaid_users w d).1 !! i = Some r' ->
        active r' = 1 ->
        is_Some (plans d !! plan_id r') -> is_Some (users d !! user_id r') ->
        clock w <= end_ts r').
Proof.
  intros Hreach Hi.
  destruct (sweep_table w d) as (_ & _ & _ & _ & Hs & _). cbv zeta in Hs.
  rewrite Hs, lookup_fmap, Hi. cbn [fmap option_fmap option_map]. unfold swept.
  rewrite (lapsed_reachable w d i r Hreach Hi).
  destruct (decide (active r = 1)) as [Ha|Ha];
    [rewrite (proj2 (Z.eqb_eq _ _) Ha)|rewrite (proj2 (Z.eqb_neq _ _) Ha)];
    simpl.
  2:{ split; [by intros (? & _)|]. split; [done|].
      intros r' [= <-] Ha'. done. }
  destruct (decide (end_ts r < clock w)) as [Hlt|Hlt];
    [rewrite (proj2 (Z.ltb_lt _ _) Hlt)
    |rewrite (proj2 (Z.ltb_ge (end_ts r) (clock w)) ltac:(lia))];
    simpl.
  2:{ split; [by intros (_ & ? & _)|]. split; [done|].
      intros r' [= <-] _ _ _. lia. }
  destruct (decide (is_Some (plans d !! plan_id r))) as [Hp|Hp];
    [rewrite (bool_decide_true _ Hp)|rewrite (bool_decide_false _ Hp)]; simpl.
  2:{ split; [by intros (_ & _ & ? & _)|]. split; [done|].
      by intros r' [= <-] _ ? _. }
  destruct (decide (is_Some (users d !! user_id r))) as [Hu|Hu];
    [rewrite (bool_decide_true _ Hu)|rewrite (bool_decide_false _ Hu)]; simpl.
  2:{ split; [by intros (_ & _ & _ & ?)|]. split; [done|].
      by intros r' [= <-] _ _ ?. }
  split; [done|]. split; [intros H; by destruct H|].
  intros r' [= <-] Ha'. simpl in Ha'. lia.
Qed.

End Schedule.

(* ----------------------------------------------------------------- *)
(** ** The reminders *)

Lemma select_deadline_spec d cm cy now_ts u :
  u ∈ select_deadline d cm cy now_ts ->
  exists r, subscriptions d !! dl_sub_id u = Some r
            /\ deadline_due cm cy now_ts r = true.
Proof.
  unfold select_deadline. rewrite merge_sort_Permutation, list_elem_of_omap.
  intros ([i r] & Hin%elem_of_map_to_list & Hu).
  unfold deadline_select_row in Hu. cbn [fst snd] in Hu.
  destruct (deadline_due cm cy now_ts r) eqn:Hd; [|done].
  destruct (users d !! user_id r); [|done].
  destruct (plans d !! plan_id r); [|done].
  injection Hu as <-. by exists r.
Qed.

Lemma select_unpaid_spec d cm cy since i :
  i ∈ (up_sub_id <$> select_unpaid d cm cy since) <->
  exists r, subscriptions d !! i = Some r
            /\ unpaid_due cm cy since r = true
            /\ is_Some (users d !! user_id r)
            /\ is_Some (plans d !! plan_id r).
Proof.
  unfold select_unpaid. rewrite merge_sort_Permutation, list_elem_of_fmap.
  setoid_rewrite list_elem_of_omap. split.
  - intros (u & -> & [j r] & Hin%elem_of_map_to_list & Hu).
    unfold unpaid_select_row in Hu. cbn [fst snd] in Hu.
    destruct (unpaid_due cm cy since r) eqn:Hd; [|done].
    destruct (users d !! user_id r) as [us|] eqn:Hus; [|done].
    destruct (plans d !! plan_id r) as [pl|] eqn:Hpl; [|done].
    injection Hu as <-. exists r. by rewrite Hus, Hpl.
  - intros (r & Hr & Hd & [us Hus] & [pl Hpl]).
    eexists. split; [|exists (i, r); split; [by apply elem_of_map_to_list|]].
    2:{ unfold unpaid_select_row. cbn [fst snd]. rewrite Hd, Hus, Hpl.
        reflexivity. }
    done.
Qed.

(** The loop of [send_payment_notifications]: a message for every row
    selected, the stamp on the rows whose message was delivered. *)
Lemma notify_loop delivered now now_ts l d msgs n :
  let res := foldl (notify_one delivered now now_ts) (d, msgs, n) l in
  plans res.1.1 = plans d /\ users res.1.1 = users d
  /\ manual_payments res.1.1 = manual_payments d
  /\ subscriptions_seq res.1.1 = subscriptions_seq d
  /\ (forall i, subscriptions res.1.1 !! i
                = (if bool_decide (i ∈ (up_sub_id <$> l)) && delivered i
                   then set_notified now_ts else id) <$> subscriptions d !! i)
  /\ res.1.2
     = msgs ++ ((fun u => (up_user_id u,
                           PaymentReminder now (up_plan_title u)
                             (up_price_cents u) (up_plan_id u))) <$> l)
  /\ res.2
     = n + Z.of_nat (length (filter (fun u => delivered (up_sub_id u) = true) l)).
Proof.
  revert d msgs n. induction l as [|u l IH]; intros d msgs n.
  - simpl. repeat split; try done.
    + intros i. by destruct (subscriptions d !! i).
    + by rewrite app_nil_r.
    + lia.
  - cbn [foldl].
    destruct (notify_one delivered now now_ts (d, msgs, n) u)
      as [[d1 m1] n1] eqn:E1.
    unfold notify_one in E1. cbn [fst snd] in E1.
    destruct (IH d1 m1 n1) as (Hp & Hu & Hm & Hs & Hsub & Hmsg & Hn).
    cbv zeta. rewrite Hp, Hu, Hm, Hs, Hmsg, Hn. clear Hp Hu Hm Hs Hmsg Hn IH.
    destruct (delivered (up_sub_id u)) eqn:Hdel; injection E1 as <- <- <-.
    + repeat split; try done.
      * intros i. rewrite Hsub. cbn [subscriptions set_subscriptions].
        rewrite fmap_cons.
        destruct (decide (i = up_sub_id u)) as [->|Hne].
        -- rewrite lookup_alter_eq, Hdel.
           rewrite (bool_decide_true (up_sub_id u ∈ up_sub_id u :: _))
             by left.
           destruct (subscriptions d !! up_sub_id u) as [r|]; [|done].
           cbn. by destruct (bool_decide _).
        -- rewrite lookup_alter_ne by done.
           f_equal.
           destruct (decide (i ∈ (up_sub_id <$> l))) as [Hi|Hi].
           ++ rewrite !bool_decide_true; [done| by right |done].
           ++ rewrite !bool_decide_false; [done| |done].
              intros [?|?]%elem_of_cons; done.
      * rewrite fmap_cons. by rewrite <- app_assoc.
      * rewrite filter_cons_True by done. cbn [length]. lia.
    + repeat split; try done.
      * intros i. rewrite Hsub, fmap_cons. f_equal.
        destruct (decide (i = up_sub_id u)) as [->|Hne].
        -- rewrite Hdel, !andb_false_r. done.
        -- destruct (decide (i ∈ (up_sub_id <$> l))) as [Hi|Hi].
           ++ rewrite !bool_decide_true; [done| by right |done].
           ++ rewrite !bool_decide_false; [done| |done].
              intros [?|?]%elem_of_cons; done.
      * rewrite fmap_cons. by rewrite <- app_assoc.
      * rewrite filter_cons_False; [done|]. by rewrite Hdel.
Qed.

Lemma send_payment_notifications_spec delivered w d :
  let res := send_payment_notifications delivered w d in
  let sel := select_unpaid d (get_current_period w).1 (get_current_period w).2
                           (clock w - 20 * 3600) in
  plans res.1.1 = plans d /\ users res.1.1 = users d
  /\ manual_payments res.1.1 = manual_payments d
  /\ subscriptions_seq res.1.1 = subscriptions_seq d
  /\ (forall i, subscriptions res.1.1 !! i
                = (if bool_decide (i ∈ (up_sub_id <$> sel)) && delivered i
                   then set_notified (clock w) else id) <$> subscriptions d !! i)
  /\ res.1.2
     = (fun u => (up_user_id u,
                  PaymentReminder (now_local w) (up_plan_title u)
                    (up_price_cents u) (up_plan_id u))) <$> sel
  /\ res.2
     = Z.of_nat (length (filter (fun u => delivered (up_sub_id u) = true) sel)).
Proof.
  unfold send_payment_notifications, get_current_period. cbv zeta. cbn [fst snd].
  apply (notify_loop delivered (now_local w) (clock w) _ d [] 0).
Qed.

Section Reminders.

Variable ADMIN_IDS : list Z.

(** X11. The deadline reminder reaches nobody: on the databases the
    program reaches, whenever the local day is the 27th or earlier, and
    so on the 4th when the scheduler runs it, [send_deadline_notifications]
    selects no row, sends nothing and returns 0.  A row paid for the
    current month ends on the 5th of the next one, more than five days
    away. *)
Theorem deadline_reminder_reaches_nobody delivered w d :
  reachable ADMIN_IDS d ->
  day (now_local w) <= 27 ->
  send_deadline_notifications delivered w d = ([], 0)
  /\ (day (now_local w) = 4 -> hour (now_local w) = 18 ->
      minute (now_local w) = 0 ->
      check_expirations_tick delivered w d = (d, [], [])).
Proof.
  intros Hreach Hday.
  destruct (reachable_invariants ADMIN_IDS d Hreach) as [_ Hper].
  assert (Hsel : select_deadline d (get_current_period w).1
                   (get_current_period w).2 (clock w) = []).
  { destruct (select_deadline _ _ _ _) as [|u l] eqn:E; [done|]. exfalso.
    assert (Hin : u ∈ u :: l) by left. rewrite <- E in Hin.
    apply select_deadline_spec in Hin as (r & Hr & Hdue).
    unfold deadline_due, get_current_period in Hdue. cbn [fst snd] in Hdue.
    apply andb_true_iff in Hdue as [Hdue Hpaid].
    apply andb_true_iff in Hdue as [_ Hwin].
    apply andb_true_iff in Hwin as [_ Hwin%Z.leb_le].
    apply andb_true_iff in Hpaid as [Hpaid _].
    apply andb_true_iff in Hpaid as [Hm%Z.eqb_eq Hy%Z.eqb_eq].
    pose proof (Hper _ r Hr) as He. rewrite Hm, Hy in He.
    destruct (current_period_ahead (clock w)) as [_ H33].
    unfold now_local in *. nia. }
  assert (Hsend : send_deadline_notifications delivered w d = ([], 0)).
  { unfold send_deadline_notifications.
    destruct (get_current_period w) as [cm cy]. cbn [fst snd] in Hsel.
    cbv zeta. by rewrite Hsel. }
  split; [done|]. intros H4 H18 H0.
  unfold check_expirations_tick. cbv zeta.
  rewrite H4, H18, H0, Hsend. reflexivity.
Qed.

Lemma sweep_ban w d i r :
  subscriptions d !! i = Some r ->
  lapsed (get_current_period w).1 (get_current_period w).2 (clock w) r = true ->
  is_Some (plans d !! plan_id r) -> is_Some (users d !! user_id r) ->
  truthy (group_id r) = true ->
  BanChatMember (opt_Z (group_id r)) (user_id r) (clock w + 30)
  ∈ (remove_unpaid_users w d).2.
Proof.
  intros Hr Hl [p Hp] [u Hu] Hg.
  destruct (sweep_table w d) as (_ & _ & _ & _ & _ & ->).
  apply list_elem_of_join.
  exists (sweep_events (clock w)
            {| es_sub_id := i; es_user_id := user_id r;
               es_group_id := group_id r; es_plan_id := plan_id r;
               es_plan_title := title p; es_username := username u |}).
  split.
  - unfold sweep_events. cbn [es_group_id es_user_id]. rewrite Hg. left.
  - apply list_elem_of_fmap. eexists. split; [reflexivity|].
    apply select_expired_spec. by exists r, p, u.
Qed.

(** X12. The turn of the scheduler on the 6th at 00:01: a member whose
    active row was last paid for the month before the current one is
    removed: the row is deactivated and, when it has a group, the member is banned
    from it for 30 seconds; a row paid in full for the current month is left as
    it is. *)
Theorem unpaid_members_removed_on_the_6th delivered w d i r :
  reachable ADMIN_IDS d ->
  day (now_local w) = 6 -> hour (now_local w) = 0 -> minute (now_local w) = 1 ->
  subscriptions d !! i = Some r ->
  active r = 1 ->
  is_Some (plans d !! plan_id r) -> is_Some (users d !! user_id r) ->
  (next_month_of {| year := current_period_year r;
                    month := current_period_month r; day := 1;
                    hour := 0; minute := 0; second := 0 |}
   = (month (now_local w), year (now_local w)) ->
   subscriptions (check_expirations_tick delivered w d).1.1 !! i
   = Some (deactivate r)
   /\ (truthy (group_id r) = true ->
       BanChatMember (opt_Z (group_id r)) (user_id r) (clock w + 30)
       ∈ (check_expirations_tick delivered w d).1.2))
  /\ (current_period_month r = month (now_local w) ->
      current_period_year r = year (now_local w) ->
      subscriptions (check_expirations_tick delivered w d).1.1 !! i = Some r).
Proof.
  intros Hreach H6 H0 H1 Hr Ha Hp Hu.
  destruct (reachable_invariants ADMIN_IDS d Hreach) as [_ Hper].
  pose proof (Hper i r Hr) as He.
  pose proof (lapsed_reachable ADMIN_IDS w d i r Hreach Hr) as Hl.
  unfold check_expirations_tick. cbv zeta. rewrite H6, H0, H1.
  cbn [Z.eqb Pos.eqb andb fst snd].
  destruct (sweep_table w d) as (_ & _ & _ & _ & Hs & _). cbv zeta in Hs.
  rewrite Hs, lookup_fmap, Hr. cbn [fmap option_fmap option_map]. unfold swept.
  split.
  - intros Hnext.
    assert (Hover : end_ts r < clock w).
    { rewrite He. apply previous_period_over; [done|].
      fold (now_local w). lia. }
    rewrite Ha, (proj2 (Z.ltb_lt _ _) Hover) in Hl.
    change (1 =? 1) with true in Hl. cbn [andb] in Hl.
    split.
    + by rewrite Hl, !bool_decide_true.
    + intros Hg. by apply (sweep_ban w d i r).
  - intros Hm Hy.
    assert (Hnot : clock w < end_ts r).
    { rewrite He, Hm, Hy.
      destruct (current_period_ahead (clock w)) as [H5 _].
      unfold now_local. lia. }
    rewrite (proj2 (Z.ltb_ge (end_ts r) (clock w)) ltac:(lia)), andb_false_r in Hl.
    by rewrite Hl.
Qed.

(** X13. The payment reminder is throttled: a row whose reminder was
    delivered in one run is not selected by a run that starts within the
    next 20 hours, whatever the period and the deliveries of that run; the
    messages of a run are those of the rows it selects, one each. *)
Theorem payment_reminder_throttle del1 del2 w w' d i :
  i ∈ (up_sub_id <$> select_unpaid d (get_current_period w).1
                       (get_current_period w).2 (clock w - 20 * 3600)) ->
  del1 i = true ->
  clock w' - 20 * 3600 <= clock w ->
  (i ∉ (up_sub_id <$> select_unpaid (send_payment_notifications del1 w d).1.1
                        (get_current_period w').1 (get_current_period w').2
                        (clock w' - 20 * 3600)))
  /\ (send_payment_notifications del2 w'
        (send_payment_notifications del1 w d).1.1).1.2
     = (fun u => (up_user_id u,
                  PaymentReminder (now_local w') (up_plan_title u)
                    (up_price_cents u) (up_plan_id u)))
       <$> select_unpaid (send_payment_notifications del1 w d).1.1
             (get_current_period w').1 (get_current_period w').2
             (clock w' - 20 * 3600).
Proof.
  intros Hsel Hdel Hsoon.
  destruct (send_payment_notifications_spec del1 w d)
    as (_ & _ & _ & _ & Hsub & _).
  destruct (send_payment_notifications_spec del2 w'
              (send_payment_notifications del1 w d).1.1)
    as (_ & _ & _ & _ & _ & Hmsg & _).
  cbv zeta in *. split; [|done].
  intros (r' & Hr' & Hdue & _)%select_unpaid_spec.
  rewrite Hsub, bool_decide_true, Hdel in Hr' by done. cbn [andb] in Hr'.
  destruct (subscriptions d !! i) as [r|]; [|done].
  injection Hr' as <-. unfold unpaid_due in Hdue.
  cbn [last_notification_ts set_notified] in Hdue.
  apply andb_true_iff in Hdue as [_ Hlt%Z.ltb_lt]. lia.
Qed.

Lemma notify_reachable delivered now now_ts l d msgs n :
  reachable ADMIN_IDS d ->
  reachable ADMIN_IDS (foldl (notify_one delivered now now_ts) (d, msgs, n) l).1.1.
Proof.
  revert d msgs n. induction l as [|u l IH]; intros d msgs n Hd; [done|].
  cbn [foldl]. unfold notify_one at 2. cbn [fst snd].
  destruct (delivered (up_sub_id u)); apply IH; [|done].
  eapply reach_step; [done|]. apply op_notified.
Qed.

(** X14. A turn of the scheduler keeps the database among those the
    program reaches, so every invariant of the reachable databases (one
    active row per user and plan, rows that end with their period) holds
    after it, whichever of its three jobs ran and whatever was
    delivered. *)
Theorem scheduler_keeps_reachable delivered w d :
  reachable ADMIN_IDS d ->
  reachable ADMIN_IDS (check_expirations_tick delivered w d).1.1
  /\ reachable ADMIN_IDS (send_payment_notifications delivered w d).1.1
  /\ one_active_per_pair
       (subscriptions (check_expirations_tick delivered w d).1.1)
  /\ ends_with_period
       (subscriptions (check_expirations_tick delivered w d).1.1).
Proof.
  intros Hd.
  assert (Hpay : reachable ADMIN_IDS (send_payment_notifications delivered w d).1.1).
  { unfold send_payment_notifications.
    destruct (get_current_period w) as [cm cy]. cbv zeta.
    by apply notify_reachable. }
  assert (Htick : reachable ADMIN_IDS (check_expirations_tick delivered w d).1.1).
  { unfold check_expirations_tick. cbv zeta.
    destruct ((day (now_local w) =? 6) && (hour (now_local w) =? 0)
              && (minute (now_local w) =? 1)).
    { cbn [fst snd]. eapply reach_step; [exact Hd|]. apply op_sweep. }
    destruct ((day (now_local w) =? 1) && (hour (now_local w) =? 10)
              && (minute (now_local w) =? 0)); [exact Hpay|].
    by destruct ((day (now_local w) =? 4) && (hour (now_local w) =? 18)
                 && (minute (now_local w) =? 0)). }
  split; [done|]. split; [done|].
  by apply (reachable_invariants ADMIN_IDS).
Qed.

End Reminders.

(* ================================================================= *)
(** ** A new invite link on request *)

Lemma new_link_data i :
  split ":" ("new_link:" +:+ py_str i) !! 1%nat ≫= py_int = Some i.
Proof.
  change ("new_link:" +:+ py_str i)
    with ("new_link" +:+ String ":" (py_str i)).
  rewrite split_at_first by done.
  rewrite split_no_sep by (by apply py_str_plain).
  cbn [lookup list_lookup mbind option_bind]. apply py_int_py_str.
Qed.

Lemma invite_link_Some w chat expire limit l :
  (create_chat_invite_link_one_time w chat expire limit).2 = Some l
  <-> invite_response w = Response 200 true (Some l).
Proof.
  unfold create_chat_invite_link_one_time. cbn [snd].
  split; [|by intros ->].
  destruct (invite_response w) as [|st ok ol]; [done|].
  destruct st as [|p|p]; try done.
  do 7 (destruct p as [p|p|]; try done).
  destruct p as [p|p|]; try done.
  destruct ok; [|done]. destruct ol; [|done]. by intros [= ->].
Qed.

Lemma invite_link_events w chat expire limit :
  (create_chat_invite_link_one_time w chat expire limit).1
  = [CreateChatInviteLink chat (clock w + expire) limit].
Proof. reflexivity. Qed.

(** The calls that tell the user of a refusal. *)
Definition refusal (answered : new_link_answer -> bool) (a : new_link_answer)
  : list new_link_call :=
  if answered a then [NlAnswer a] else [NlAnswer a; NlAnswer NlInternalError].

(** The calls that carry a link issued. *)
Definition delivery (answered : new_link_answer -> bool) (owner_reached : bool)
    (owner chat_id : Z) (l : string) : list new_link_call :=
  NlAnswer NlGenerated
    :: (if answered NlGenerated then
          if owner_reached then [NlSend owner l]
          else [NlSend owner l; NlSend chat_id l]
        else [NlSend chat_id l]).

Lemma refusal_sends_nothing answered a c l : NlSend c l ∉ refusal answered a.
Proof.
  unfold refusal. destruct (answered a); intros H;
    repeat (apply elem_of_cons in H as [H|H]; [discriminate H|]);
    by apply elem_of_nil in H.
Qed.

Section NewLink.

Variable ADMIN_IDS : list Z.

(** The handler by cases: on the request, the row, the caller, the group,
    the rights of the bot and the answer of the platform. *)
Lemma new_link_cases bot_is_admin answered owner_reached w d uid chat_id data :
  callback_new_link ADMIN_IDS bot_is_admin answered owner_reached w d uid
                    chat_id data
  = match split ":" data !! 1%nat with
    | None => (d, @nil event, refusal answered NlBadData)
    | Some p1 =>
        match py_int p1 with
        | None => (d, [], [NlAnswer NlInternalError])
        | Some i =>
            match subscriptions d !! i with
            | None => (d, [], refusal answered NlNotFound)
            | Some r =>
                if negb (uid =? user_id r)
                   && negb (bool_decide (uid ∈ ADMIN_IDS)) then
                  (d, [], refusal answered NlForbidden)
                else if negb (truthy (group_id r)) then
                  (d, [], refusal answered NlNoGroup)
                else if negb bot_is_admin && answered NlNotAdmin then
                  (d, [], [NlAnswer NlNotAdmin])
                else
                  match (create_chat_invite_link_one_time
                           w (opt_Z (group_id r)) (7 * 24 * 3600) 1).2 with
                  | Some (String c l) =>
                      (set_subscriptions
                         (alter (set_link (String c l) (clock w)) i
                                (subscriptions d)) d,
                       [CreateChatInviteLink (opt_Z (group_id r))
                          (clock w + 7 * 24 * 3600) 1],
                       (if bot_is_admin then [] else [NlAnswer NlNotAdmin])
                         ++ delivery answered owner_reached (user_id r)
                                     chat_id (String c l))
                  | _ =>
                      (d,
                       [CreateChatInviteLink (opt_Z (group_id r))
                          (clock w + 7 * 24 * 3600) 1],
                       (if bot_is_admin then [] else [NlAnswer NlNotAdmin])
                         ++ refusal answered NlNoInvite)
                  end
            end
        end
    end.
Proof.
  unfold callback_new_link, refusal, delivery.
  destruct (split ":" data !! 1%nat) as [p1|]; [|done].
  destruct (py_int p1) as [i|]; [|done].
  destruct (subscriptions d !! i) as [r|]; [|done].
  destruct (negb (uid =? user_id r) && negb (bool_decide (uid ∈ ADMIN_IDS)));
    [done|].
  destruct (negb (truthy (group_id r))); [done|].
  destruct (negb bot_is_admin && answered NlNotAdmin); [done|].
  unfold create_chat_invite_link_one_time. cbv zeta. cbn [fst snd].
  by destruct (match invite_response w with
               | Response 200 true (Some l) => Some l
               | _ => None
               end) as [[|c l]|].
Qed.

(** X15. Who gets a new link, and what the request writes.
    [callback_new_link] leaves the database as it is and sends no link
    unless it issues one.  It issues one only to a caller who owns the row
    or is an administrator, for a row with a group, and only with the
    non-empty link the platform returned; it then rewrites [invite_link]
    and [last_notification_ts] of that one row, and every message with the
    link goes to the owner of the row or to the chat of the button: to the
    owner whenever the answer to the query is delivered.  It calls the
    platform for a link only for such a caller and row, and only if the
    bot administers the group or the answer that says it does not could
    not be delivered.  A caller who is neither the owner nor an
    administrator is answered "forbidden": nothing is written, no link is
    requested and none is sent.  The resulting database is one the program
    reaches. *)
Theorem new_link_gate bot_is_admin answered owner_reached w d uid chat_id data :
  let res := callback_new_link ADMIN_IDS bot_is_admin answered owner_reached
                               w d uid chat_id data in
  ((res.1.1 = d /\ forall c l, NlSend c l ∉ res.2)
   \/ exists i r l,
        split ":" data !! 1%nat ≫= py_int = Some i
        /\ subscriptions d !! i = Some r
        /\ (uid = user_id r \/ uid ∈ ADMIN_IDS)
        /\ truthy (group_id r) = true
        /\ l <> EmptyString
        /\ invite_response w = Response 200 true (Some l)
        /\ res.1.1 = set_subscriptions
                       (alter (set_link l (clock w)) i (subscriptions d)) d
        /\ (forall c l', NlSend c l' ∈ res.2 ->
              l' = l /\ (c = user_id r \/ c = chat_id))
        /\ (answered NlGenerated = true -> NlSend (user_id r) l ∈ res.2)
        /\ (answered NlGenerated = false \/ owner_reached = false ->
            NlSend chat_id l ∈ res.2))
  /\ (forall e, e ∈ res.1.2 ->
        exists i r,
          split ":" data !! 1%nat ≫= py_int = Some i
          /\ subscriptions d !! i = Some r
          /\ (uid = user_id r \/ uid ∈ ADMIN_IDS)
          /\ truthy (group_id r) = true
          /\ (bot_is_admin = true \/ answered NlNotAdmin = false)
          /\ e = CreateChatInviteLink (opt_Z (group_id r))
                                      (clock w + 7 * 24 * 3600) 1)
  /\ (forall i r,
        split ":" data !! 1%nat ≫= py_int = Some i ->
        subscriptions d !! i = Some r ->
        uid <> user_id r -> uid ∉ ADMIN_IDS ->
        res = (d, [], refusal answered NlForbidden))
  /\ (reachable ADMIN_IDS d -> reachable ADMIN_IDS res.1.1).
Proof.
  cbv zeta. rewrite new_link_cases.
  assert (Hquiet : forall (evs : list event) a,
    let res := (d, evs, refusal answered a) in
    (res.1.1 = d /\ forall c l, NlSend c l ∉ res.2)
    /\ (reachable ADMIN_IDS d -> reachable ADMIN_IDS res.1.1)).
  { intros evs a. cbn [fst snd]. split; [|done]. split; [done|].
    intros c l. apply refusal_sends_nothing. }
  assert (Hquiet1 : forall (evs : list event) a,
    let res := (d, evs, [NlAnswer a]) in
    (res.1.1 = d /\ forall c l, NlSend c l ∉ res.2)
    /\ (reachable ADMIN_IDS d -> reachable ADMIN_IDS res.1.1)).
  { intros evs a. cbn [fst snd]. split; [|done]. split; [done|].
    intros c l [H|H]%elem_of_cons; [discriminate H|by apply elem_of_nil in H]. }
  destruct (split ":" data !! 1%nat) as [p1|] eqn:Hp1; cbn [mbind option_bind].
  2:{ destruct (Hquiet [] NlBadData) as [Hq Hr].
      split; [by left|]. split; [by intros e H%elem_of_nil|]. by split. }
  destruct (py_int p1) as [i|] eqn:Hi.
  2:{ destruct (Hquiet1 [] NlInternalError) as [Hq Hr].
      split; [by left|]. split; [by intros e H%elem_of_nil|]. by split. }
  destruct (subscriptions d !! i) as [r|] eqn:Hrow.
  2:{ destruct (Hquiet [] NlNotFound) as [Hq Hr].
      split; [by left|]. split; [by intros e H%elem_of_nil|].
      split; [|done]. intros i' r' [= <-]. by rewrite Hrow. }
  destruct (decide (uid = user_id r \/ uid ∈ ADMIN_IDS)) as [Hwho|Hwho].
  2:{ assert (uid <> user_id r /\ uid ∉ ADMIN_IDS) as [Hne Hadm] by tauto.
      rewrite (proj2 (Z.eqb_neq _ _) Hne), (bool_decide_false _ Hadm).
      cbn [negb andb].
      destruct (Hquiet [] NlForbidden) as [Hq Hr].
      split; [by left|]. split; [by intros e H%elem_of_nil|]. by split. }
  assert (negb (uid =? user_id r) && negb (bool_decide (uid ∈ ADMIN_IDS))
          = false) as ->.
  { destruct Hwho as [->|Hadm].
    - by rewrite Z.eqb_refl.
    - by rewrite (bool_decide_true _ Hadm), andb_false_r. }
  assert (Hstranger : forall X : db * list event * list new_link_call,
    forall i' r', Some i = Some i' -> subscriptions d !! i' = Some r' ->
      uid <> user_id r' -> uid ∉ ADMIN_IDS ->
      X = (d, [], refusal answered NlForbidden)).
  { intros X i' r' [= <-]. rewrite Hrow. intros [= <-] ? ?. tauto. }
  destruct (truthy (group_id r)) eqn:Hg; cbn [negb].
  2:{ destruct (Hquiet [] NlNoGroup) as [Hq Hr].
      split; [by left|]. split; [by intros e H%elem_of_nil|].
      split; [apply Hstranger|done]. }
  destruct (negb bot_is_admin && answered NlNotAdmin) eqn:Hadm.
  { destruct (Hquiet1 [] NlNotAdmin) as [Hq Hr].
    split; [by left|]. split; [by intros e H%elem_of_nil|].
    split; [apply Hstranger|done]. }
  assert (Hbot : bot_is_admin = true \/ answered NlNotAdmin = false).
  { destruct bot_is_admin; [by left|]. right. by destruct (answered NlNotAdmin). }
  assert (Hcall : forall e,
    e ∈ [CreateChatInviteLink (opt_Z (group_id r)) (clock w + 7 * 24 * 3600) 1] ->
    exists i' r',
      Some i = Some i' /\ subscriptions d !! i' = Some r'
      /\ (uid = user_id r' \/ uid ∈ ADMIN_IDS)
      /\ truthy (group_id r') = true
      /\ (bot_is_admin = true \/ answered NlNotAdmin = false)
      /\ e = CreateChatInviteLink (opt_Z (group_id r'))
                                  (clock w + 7 * 24 * 3600) 1).
  { intros e ->%list_elem_of_singleton. by exists i, r. }
  assert (Hwarned : forall c l rest,
    NlSend c l ∈ (if bot_is_admin then [] else [NlAnswer NlNotAdmin]) ++ rest ->
    NlSend c l ∈ rest).
  { intros c l rest. destruct bot_is_admin; [done|].
    by intros [H|H]%elem_of_cons; [discriminate H|]. }
  destruct (create_chat_invite_link_one_time _ _ _ _).2 as [[|c l]|] eqn:E.
  - cbn [fst snd]. split; [left; split; [done|]|].
    { intros c l H%Hwarned. by apply refusal_sends_nothing in H. }
    split; [done|]. split; [apply Hstranger|done].
  - apply invite_link_Some in E. cbn [fst snd]. split.
    + right. exists i, r, (String c l). do 7 (split; [done|]).
      split; [|split].
      * intros c' l' H%Hwarned. unfold delivery in H.
        apply elem_of_cons in H as [H|H]; [discriminate H|].
        destruct (answered NlGenerated); [destruct owner_reached|];
          repeat (apply elem_of_cons in H as [H|H];
                  [injection H as -> ->; split; [done|]; (by left) || (by right)|]);
          by apply elem_of_nil in H.
      * intros Ha. apply elem_of_app. right. unfold delivery. rewrite Ha.
        right. destruct owner_reached; left.
      * intros Hfail. apply elem_of_app. right. unfold delivery. right.
        destruct (answered NlGenerated); [|left].
        destruct Hfail as [?| ->]; [done|]. right. left.
    + split; [done|]. split; [apply Hstranger|].
      intros Hd. eapply reach_step; [exact Hd|]. apply op_new_link.
  - cbn [fst snd]. split; [left; split; [done|]|].
    { intros c l H%Hwarned. by apply refusal_sends_nothing in H. }
    split; [done|]. split; [apply Hstranger|done].
Qed.

(** X16. The request does not look at the state of the row: the owner of
    a row the sweep has just deactivated, and who was banned from the group
    for 30 seconds, is issued a fresh one-time link into that group as soon
    as they ask, if the bot administers the group and the platform returns
    a link.  The row gets the link, and the link is sent to the owner, or
    to the chat of the button when the answer or the message to the owner
    cannot be delivered. *)
Theorem removed_member_gets_a_link answered owner_reached w w' d i r l
    chat_id :
  subscriptions (remove_unpaid_users w d).1 !! i = Some (deactivate r) ->
  truthy (group_id r) = true ->
  invite_response w' = Response 200 true (Some l) ->
  l <> EmptyString ->
  callback_new_link ADMIN_IDS true answered owner_reached w'
                    (remove_unpaid_users w d).1
                    (user_id r) chat_id ("new_link:" +:+ py_str i)
  = (set_subscriptions
       (alter (set_link l (clock w')) i
              (subscriptions (remove_unpaid_users w d).1))
       (remove_unpaid_users w d).1,
     [CreateChatInviteLink (opt_Z (group_id r)) (clock w' + 7 * 24 * 3600) 1],
     NlAnswer NlGenerated
       :: (if answered NlGenerated then
             if owner_reached then [NlSend (user_id r) l]
             else [NlSend (user_id r) l; NlSend chat_id l]
           else [NlSend chat_id l])).
Proof.
  intros Hgone Hg Hw Hl. rewrite new_link_cases.
  pose proof (new_link_data i) as Hdata.
  destruct (split ":" ("new_link:" +:+ py_str i) !! 1%nat) as [p1|]; [|done].
  cbn [mbind option_bind] in Hdata. rewrite Hdata, Hgone.
  cbn [deactivate group_id user_id]. rewrite Z.eqb_refl, Hg. cbn [negb andb].
  apply invite_link_Some with (chat := opt_Z (group_id r))
    (expire := 7 * 24 * 3600) (limit := 1) in Hw. rewrite Hw.
  by destruct l.
Qed.

End NewLink.

(* ================================================================= *)
(** ** Promo codes *)

(** What happens to the promo tables over time: payments mark codes as
    used and administrators create codes. *)
Inductive promo_later (pd : promo_db) : promo_db -> Prop :=
| later_now : promo_later pd pd
| later_use pd' now_ts promo uid :
    promo_later pd pd' ->
    promo_later pd (record_promo_use now_ts pd' promo uid)
| later_create pd' w state chat_id text new_code :
    promo_later pd pd' ->
    promo_later pd (handle_promo_expires w pd' state chat_id text new_code).1.

Lemma used_by_app pd rows pid uid :
  used_by {| promo_codes := promo_codes pd;
             promo_usage := promo_usage pd ++ rows |} pid uid
  = used_by pd pid uid
    || existsb (fun u : Z * Z * Z => (u.1.1 =? pid) && (u.1.2 =? uid)) rows.
Proof. unfold used_by. cbn [promo_usage]. apply existsb_app. Qed.

Lemma record_promo_use_usage now_ts pd promo uid pid u :
  used_by pd pid u = true ->
  used_by (record_promo_use now_ts pd promo uid) pid u = true.
Proof.
  intros H. unfold record_promo_use.
  destruct (truthy promo && (0 <? opt_Z promo)); [|done].
  unfold used_by in *. cbn [promo_usage]. by rewrite existsb_app, H.
Qed.

Lemma promo_guard p :
  0 < p -> truthy (Some p) && (0 <? opt_Z (Some p)) = true.
Proof.
  intros Hp. unfold truthy, opt_Z. simpl. apply andb_true_iff. split.
  - apply negb_true_iff, Z.eqb_neq. lia.
  - apply Z.ltb_lt. lia.
Qed.

Lemma record_promo_use_marks now_ts pd p uid :
  0 < p -> used_by (record_promo_use now_ts pd (Some p) uid) p uid = true.
Proof.
  intros Hp. unfold record_promo_use. rewrite (promo_guard p Hp).
  unfold used_by. cbn [promo_usage]. rewrite existsb_app. cbn [existsb fst snd].
  change (opt_Z (Some p)) with p.
  by rewrite !Z.eqb_refl, orb_true_r.
Qed.

Lemma handle_promo_expires_usage w pd state chat_id text new_code :
  promo_usage (handle_promo_expires w pd state chat_id text new_code).1
  = promo_usage pd.
Proof.
  unfold handle_promo_expires.
  destruct (negb _); [done|]. by destruct (promo_life _).
Qed.

Lemma used_by_later pd pd' pid uid :
  promo_later pd pd' -> used_by pd pid uid = true -> used_by pd' pid uid = true.
Proof.
  induction 1 as [|pd' now_ts promo u _ IH|pd' w st c t nc _ IH]; intros H;
    [done| |].
  - by apply record_promo_use_usage, IH.
  - unfold used_by. rewrite handle_promo_expires_usage. by apply IH.
Qed.

(** X17. A promo code works once per user.  After a payment made with
    the promo [p] by the user [u] is recorded, [can_use_promo_code]
    refuses [p] to [u] with "already used", and goes on refusing it
    whatever payments are recorded and codes created later. *)
Theorem promo_once_per_user w now_ts pd pd' p u :
  0 < p ->
  promo_later (record_promo_use now_ts pd (Some p) u) pd' ->
  can_use_promo_code w pd' p u
  = Some (false, "Вы уже использовали этот промокод"%string).
Proof.
  intros Hp Hlater. unfold can_use_promo_code.
  by rewrite (used_by_later _ _ _ _ Hlater (record_promo_use_marks _ _ _ _ Hp)).
Qed.

(** A code once in the table stays there with its limit and its switch;
    its counter only grows. *)
Lemma promo_row_later pd pd' p r c :
  promo_later pd pd' ->
  promo_codes pd !! p = Some r -> used_count r = Some c ->
  exists r' c', promo_codes pd' !! p = Some r'
    /\ used_count r' = Some c' /\ c <= c'
    /\ max_uses r' = max_uses r /\ is_active r' = is_active r
    /\ expires_ts r' = expires_ts r
    /\ discount_percent r' = discount_percent r
    /\ discount_fixed_cents r' = discount_fixed_cents r.
Proof.
  intros Hlater Hr Hc.
  induction Hlater as [|pd' now_ts promo u _ IH|pd' w st ch t nc _ IH].
  - exists r, c. by repeat split.
  - destruct IH as (r' & c' & Hr' & Hc' & Hle & Hrest).
    unfold record_promo_use.
    destruct (truthy promo && (0 <? opt_Z promo)); [|by exists r', c'].
    cbn [promo_codes].
    destruct (decide (opt_Z promo = p)) as [->|Hne].
    + exists (count_use r'), (Z.succ c'). rewrite lookup_alter_eq, Hr'.
      cbn. rewrite Hc'. cbn. repeat split; try done; try lia; apply Hrest.
    + exists r', c'. by rewrite lookup_alter_ne.
  - destruct IH as (r' & c' & Hr' & Hc' & Hle & Hrest).
    exists r', c'. split; [|done].
    unfold handle_promo_expires.
    destruct (negb _); [done|]. destruct (promo_life _); [|done].
    cbn [fst promo_codes]. rewrite lookup_insert_ne; [done|].
    pose proof (max_rowid_ge (promo_codes pd') p r' Hr'). lia.
Qed.

(** X18. A code that has reached its limit is refused to everybody from
    then on: when [max_uses] is set and [used_count] is not below it, no
    sequence of later payments and creations makes [can_use_promo_code]
    accept the code again; and each recorded payment with the code adds
    one to its counter. *)
Theorem promo_exhausted_for_good w pd pd' p r c u :
  promo_later pd pd' ->
  promo_codes pd !! p = Some r ->
  used_count r = Some c ->
  truthy (max_uses r) = true ->
  opt_Z (max_uses r) <= c ->
  (exists msg, can_use_promo_code w pd' p u = Some (false, msg))
  /\ (forall now_ts who, 0 < p ->
        promo_codes (record_promo_use now_ts pd (Some p) who) !! p
        = Some (count_use r)
        /\ used_count (count_use r) = Some (c + 1)).
Proof.
  intros Hlater Hr Hc Hmax Hle. split.
  - destruct (promo_row_later pd pd' p r c Hlater Hr Hc)
      as (r' & c' & Hr' & Hc' & Hcc & Hm' & Ha' & _).
    unfold can_use_promo_code.
    destruct (used_by pd' p u); [by eexists|].
    rewrite Hr'. destruct (negb (truthy (is_active r'))); [by eexists|].
    rewrite Hm', Hmax, Hc'. cbn [mbind option_bind].
    rewrite (proj2 (Z.leb_le _ _)) by lia. by eexists.
  - intros now_ts who Hp. unfold record_promo_use. rewrite (promo_guard p Hp).
    cbn [promo_codes]. change (opt_Z (Some p)) with p.
    rewrite lookup_alter_eq, Hr. split; [done|].
    cbn. rewrite Hc. cbn. f_equal; lia.
Qed.

(* ----------------------------------------------------------------- *)
(** ** Creating a promo code *)

Lemma not_the_error_text (s : string) :
  "Промокод " +:+ s <> "Ошибка применения промокода"%string.
Proof. intros H. apply (f_equal (String.get 1)) in H. discriminate H. Qed.

(** X19. A promo code that comes out of the three steps of the creation
    is sound.  It is a new row under a fresh id, with the generated code,
    active and unused; it carries either a percentage between 1 and 100
    and a fixed discount of 0, or a percentage of 0 and a positive fixed
    discount; its limit is absent or positive.  Applied to a price, it
    yields a price between 0 and that price and never the "error applying
    the promo" text; and at that moment every user who has no usage row
    for the id may use it. *)
Theorem created_promo_is_sound CURRENCY w pd st0 st1 st2 chat t1 t2 t3 nc i :
  handle_promo_value st0 chat t1 = WzNext st1 ->
  handle_promo_max_uses st1 chat t2 = WzNext st2 ->
  (handle_promo_expires w pd st2 chat t3 nc).2 = WzNext i ->
  exists r,
    promo_codes (handle_promo_expires w pd st2 chat t3 nc).1
    = <[i := r]> (promo_codes pd)
    /\ promo_codes pd !! i = None
    /\ code r = nc /\ is_active r = Some 1 /\ used_count r = Some 0
    /\ ((exists p, 1 <= p <= 100 /\ discount_percent r = Some p
                   /\ discount_fixed_cents r = Some 0)
        \/ (exists f, 0 < f /\ discount_percent r = Some 0
                      /\ discount_fixed_cents r = Some f))
    /\ (max_uses r = None \/ exists m, 0 < m /\ max_uses r = Some m)
    /\ (forall price, 0 <= price -> price * 100 < 2 ^ 53 ->
          0 <= (apply_promo_code CURRENCY price r).1 <= price
          /\ (apply_promo_code CURRENCY price r).2
             <> "Ошибка применения промокода"%string)
    /\ (forall u, used_by pd i u = false ->
          can_use_promo_code w (handle_promo_expires w pd st2 chat t3 nc).1 i u
          = Some (true, "OK"%string)).
Proof.
  intros H1 H2 H3.
  (* the value *)
  assert (Hdisc :
    (exists p, 1 <= p <= 100 /\ draft_discount_percent st1 = Some p
               /\ draft_discount_fixed_cents st1 = Some 0)
    \/ (exists f, 0 < f /\ draft_discount_percent st1 = Some 0
                  /\ draft_discount_fixed_cents st1 = Some f)).
  { unfold handle_promo_value in H1.
    destruct (negb (draft_chat_id st0 =? chat)); [done|].
    destruct (bool_decide _).
    - destruct (py_int (strip t1)) as [p|]; [|done].
      destruct ((p <=? 0) || (100 <? p)) eqn:Hr; [done|].
      apply orb_false_iff in Hr as [Hlo%Z.leb_gt Hhi%Z.ltb_ge].
      injection H1 as <-. left. exists p. cbn. repeat split; lia.
    - destruct (cents_from_str (strip t1)) as [f|]; [|done].
      destruct (f <=? 0) eqn:Hr; [done|]. apply Z.leb_gt in Hr.
      injection H1 as <-. right. exists f. by cbn. }
  (* the limit *)
  assert (Hlim :
    draft_discount_percent st2 = draft_discount_percent st1
    /\ draft_discount_fixed_cents st2 = draft_discount_fixed_cents st1
    /\ (draft_max_uses st2 = None
        \/ exists m, 0 < m /\ draft_max_uses st2 = Some m)).
  { unfold handle_promo_max_uses in H2.
    destruct (negb (draft_chat_id st1 =? chat)); [done|].
    destruct (py_int (strip t2)) as [n|]; [|done].
    destruct (n <? 0); [done|]. injection H2 as <-. cbn.
    split; [done|]. split; [done|].
    destruct (0 <? n) eqn:Hn; [|by left]. apply Z.ltb_lt in Hn.
    right. by exists n. }
  destruct Hlim as (Hp2 & Hf2 & Hmax). rewrite <- Hp2, <- Hf2 in Hdisc.
  clear H1 H2 Hp2 Hf2.
  (* the row *)
  unfold handle_promo_expires in *.
  destruct (negb (draft_chat_id st2 =? chat)); [done|].
  destruct (promo_life (strip t3)) as [life|] eqn:Hlife; [|done].
  cbn [fst snd] in *. injection H3 as <-.
  assert (Hlife' : life = None \/ exists s, 0 < s /\ life = Some s).
  { unfold promo_life in Hlife.
    repeat (destruct (String.eqb _ _) in Hlife;
            [injection Hlife as <-; (by left) || (right; eexists; split; [|reflexivity]; lia)|]).
    done. }
  clear Hlife.
  eexists. split; [reflexivity|]. cbn [code is_active used_count
    discount_percent discount_fixed_cents max_uses expires_ts].
  assert (Hfresh : promo_codes pd !! (max_rowid (promo_codes pd) + 1) = None).
  { destruct (promo_codes pd !! _) as [x|] eqn:E; [|done].
    apply max_rowid_ge in E. lia. }
  split; [done|]. split; [done|]. split; [done|]. split; [done|].
  split; [done|]. split; [done|]. split.
  - intros price Hprice _. unfold apply_promo_code.
    cbn [discount_percent discount_fixed_cents code].
    destruct Hdisc as [(p & Hp & -> & ->)|(f & Hf & -> & ->)].
    + rewrite truthy_Some by lia. change (opt_Z (Some p)) with p.
      cbn [fst snd]. unfold int_of_truediv. rewrite Z.quot_div_nonneg by nia.
      assert (0 <= price * p / 100) by (apply Z.div_pos; nia).
      split; [lia|]. apply not_the_error_text.
    + change (truthy (Some 0)) with false. cbv iota.
      rewrite truthy_Some by lia. change (opt_Z (Some f)) with f.
      cbn [fst snd]. split; [lia|]. apply not_the_error_text.
  - intros u Hu. unfold can_use_promo_code, used_by in *.
    cbn [promo_usage promo_codes]. rewrite Hu, lookup_insert_eq.
    cbn [is_active max_uses used_count expires_ts].
    change (negb (truthy (Some 1))) with false. cbv iota.
    assert (Hex : (if truthy (draft_max_uses st2)
                   then c ← Some 0; Some (opt_Z (draft_max_uses st2) <=? c)
                   else Some false) = Some false).
    { destruct Hmax as [->|(m & Hm & ->)]; [done|].
      rewrite truthy_Some by lia. cbn. f_equal. apply Z.leb_gt. lia. }
    rewrite Hex. cbn [mbind option_bind].
    destruct Hlife' as [->|(s & Hs & ->)]; [done|].
    cbn [fmap option_fmap option_map]. 
    destruct (truthy (Some (clock w + s))); [|done].
    change (opt_Z (Some (clock w + s))) with (clock w + s). cbn [andb].
    by rewrite (proj2 (Z.ltb_ge (clock w + s) (clock w))) by lia.
Qed.

Lemma all_chars_lstrip p blank s :
  all_chars p s = true -> all_chars p (lstrip blank s) = true.
Proof.
  induction s as [|c r IH]; [done|]. cbn [lstrip].
  destruct (blank c); [|done]. cbn [all_chars].
  intros [_ Hr]%andb_true_iff. by apply IH.
Qed.

Lemma all_chars_rstrip p blank s :
  all_chars p s = true -> all_chars p (rstrip blank s) = true.
Proof.
  induction s as [|c r IH]; [done|]. cbn [rstrip all_chars].
  intros [Hc Hr]%andb_true_iff. specialize (IH Hr).
  destruct (rstrip blank r) as [|c' r'].
  - destruct (blank c); [done|]. cbn [all_chars]. by rewrite Hc.
  - cbn [all_chars] in *. by rewrite Hc.
Qed.

Lemma all_chars_strip_with p blank s :
  all_chars p s = true -> all_chars p (strip_with blank s) = true.
Proof. intros H. by apply all_chars_lstrip, all_chars_rstrip. Qed.

Lemma all_chars_drop_underscores p prev s ds :
  drop_underscores prev s = Some ds ->
  all_chars p s = true -> all_chars p ds = true.
Proof.
  revert prev ds. induction s as [|c r IH]; intros prev ds; cbn [drop_underscores].
  - destruct prev; [|done]. by intros [= <-].
  - cbn [all_chars]. intros Hd [Hc Hr]%andb_true_iff.
    destruct (Ascii.eqb c "_").
    + destruct prev; [|done]. by eapply IH.
    + destruct (drop_underscores true r) as [t|] eqn:E; [|done].
      injection Hd as <-. cbn [all_chars]. rewrite Hc. by eapply IH.
Qed.

Lemma all_chars_split_head p sep s h :
  split sep s !! 0%nat = Some h ->
  all_chars p s = true -> all_chars p h = true.
Proof.
  revert h. induction s as [|c r IH]; intros h; cbn [split].
  - by intros [= <-].
  - cbn [all_chars]. intros Hh [Hc Hr]%andb_true_iff.
    destruct (Ascii.eqb c sep); [by injection Hh as <-|].
    destruct (split sep r) as [|h' t] eqn:E.
    + injection Hh as <-. cbn [all_chars]. by rewrite Hc.
    + injection Hh as <-. cbn [all_chars]. rewrite Hc. by apply IH.
Qed.

Lemma uint_of_no_digit c r :
  is_digit c = false -> NilEmpty.uint_of_string (String c r) = None.
Proof.
  intros Hc. cbn [NilEmpty.uint_of_string].
  destruct c as [[] [] [] [] [] [] [] []]; try discriminate Hc;
    by destruct (NilEmpty.uint_of_string r).
Qed.

Lemma no_digit_numeral {A} (f : uint -> A) body :
  all_chars (fun c => negb (is_digit c)) body = true ->
  drop_underscores false body
    ≫= (fun ds => NilEmpty.uint_of_string ds ≫= fun d => Some (f d)) = None.
Proof.
  intros Hb.
  destruct (drop_underscores false body) as [ds|] eqn:Ed; [|done].
  cbn [mbind option_bind].
  pose proof (all_chars_drop_underscores _ _ _ _ Ed Hb) as Hds.
  destruct ds as [|c r].
  - destruct body as [|c r]; [done|]. cbn [drop_underscores] in Ed.
    destruct (Ascii.eqb c "_"); [done|].
    by destruct (drop_underscores true r).
  - cbn [all_chars] in Hds. apply andb_true_iff in Hds as [Hc _].
    apply negb_true_iff in Hc. by rewrite (uint_of_no_digit c r Hc).
Qed.

(** [int] refuses a text with no digit. *)
Lemma py_int_no_digit s :
  all_chars (fun c => negb (is_digit c)) s = true -> py_int s = None.
Proof.
  intros H. unfold py_int.
  pose proof (all_chars_strip_with _ is_int_space s H) as Ht.
  destruct (strip_with is_int_space s) as [|c r] eqn:Es.
  - reflexivity.
  - assert (Hr : all_chars (fun c => negb (is_digit c)) r = true).
    { cbn [all_chars] in Ht. by apply andb_true_iff in Ht as [_ ?]. }
    destruct c as [[] [] [] [] [] [] [] []];
      first [ exact (no_digit_numeral Z.of_uint _ Ht)
            | exact (no_digit_numeral (fun d => - Z.of_uint d) _ Hr)
            | exact (no_digit_numeral Z.of_uint _ Hr) ].
Qed.

Lemma cents_from_str_no_digit s :
  all_chars (fun c => negb (is_digit c)) s = true -> cents_from_str s = None.
Proof.
  intros H. unfold cents_from_str, strip.
  pose proof (all_chars_strip_with _ is_space s H) as Ht.
  destruct (contains_char "." (strip_with is_space s)).
  - destruct (split "." (strip_with is_space s) !! 0%nat) as [p0|] eqn:E; [|done].
    cbn [mbind option_bind].
    by rewrite (py_int_no_digit p0 (all_chars_split_head _ _ _ _ E Ht)).
  - by rewrite (py_int_no_digit _ Ht).
Qed.

(** X20. A fixed discount that is not a number crashes the creation.
    For an ASCII text with no digit, [handle_promo_value] asks again when
    the draft is a percentage, and raises when it is a fixed discount:
    [cents_from_str] returns [None] and the [TypeError] of comparing it
    with 0 is not the [ValueError] the handler catches. *)
Theorem bad_fixed_discount_raises st chat text :
  draft_chat_id st = chat ->
  all_chars (fun c => negb (is_digit c) && (nat_of_ascii c <? 128)%nat) text
  = true ->
  handle_promo_value st chat text
  = if bool_decide (draft_promo_type st = Some "percent"%string)
    then WzAskAgain else WzRaised.
Proof.
  intros <- Htext. unfold handle_promo_value.
  rewrite Z.eqb_refl. cbn [negb].
  assert (Hnd : all_chars (fun c => negb (is_digit c)) (strip text) = true).
  { apply all_chars_strip_with. revert Htext. apply all_chars_impl.
    by intros c [? _]%andb_true_iff. }
  rewrite (py_int_no_digit _ Hnd), (cents_from_str_no_digit _ Hnd).
  by destruct (bool_decide _).
Qed.

(* ================================================================= *)
(** ** Users, referrers and cashback *)

Example start_with_referrer : start_ref "/start ref42" = Some 42.
Proof. reflexivity. Qed.

Example start_without_referrer : start_ref "/start" = None.
Proof. reflexivity. Qed.

Example start_with_bad_referrer : start_ref "/start  refx1" = None.
Proof. reflexivity. Qed.

(** Nobody is their own referrer. *)
Definition no_self_referral (u : gmap Z user) : Prop :=
  forall i r, u !! i = Some r -> referred_by r <> Some i.

Lemma add_user_tables d uid ref name :
  plans (add_user_if_not_exists d uid ref name) = plans d
  /\ subscriptions (add_user_if_not_exists d uid ref name) = subscriptions d
  /\ subscriptions_seq (add_user_if_not_exists d uid ref name)
     = subscriptions_seq d
  /\ manual_payments (add_user_if_not_exists d uid ref name)
     = manual_payments d
  /\ (forall j, j <> uid ->
        users (add_user_if_not_exists d uid ref name) !! j = users d !! j)
  /\ users (add_user_if_not_exists d uid ref name) !! uid
     = Some {| referred_by := match users d !! uid with
                              | Some u => referred_by u
                              | None => ref
                              end;
               cashback_cents := match users d !! uid with
                                 | Some u => cashback_cents u
                                 | None => 0
                                 end;
               username := at_name name |}.
Proof.
  unfold add_user_if_not_exists.
  destruct (users d !! uid) as [u|]; cbn [plans subscriptions subscriptions_seq
    manual_payments users set_users]; repeat split; try done;
    try (by intros j Hj; rewrite lookup_insert_ne);
    by rewrite lookup_insert_eq.
Qed.

Lemma split_blanks_word s :
  s <> EmptyString ->
  all_chars (fun c => negb (is_space c)) s = true ->
  split_blanks s = [s].
Proof.
  induction s as [|c r IH]; [done|]. intros _. cbn [all_chars split_blanks].
  intros [Hc Hr]%andb_true_iff. apply negb_true_iff in Hc. rewrite Hc.
  destruct r as [|c' r']; [done|].
  pose proof Hr as Hr'. cbn [all_chars] in Hr'.
  apply andb_true_iff in Hr' as [Hc'%negb_true_iff _]. rewrite Hc'.
  by rewrite IH.
Qed.

Lemma split_blanks_two s t :
  s <> EmptyString ->
  all_chars (fun c => negb (is_space c)) s = true ->
  t <> EmptyString ->
  all_chars (fun c => negb (is_space c)) t = true ->
  split_blanks (s +:+ String " " t) = [s; t].
Proof.
  intros Hs Hbs Ht Hbt. induction s as [|c r IH]; [done|].
  cbn [all_chars] in Hbs. apply andb_true_iff in Hbs as [Hc%negb_true_iff Hr].
  change (String c r +:+ String " " t) with (String c (r +:+ String " " t)).
  cbn [split_blanks]. rewrite Hc.
  destruct r as [|c' r'].
  - change (EmptyString +:+ String " " t) with (String " " t).
    change (is_space " ") with true. cbv iota. cbn [split_blanks].
    change (is_space " ") with true. cbv iota.
    by rewrite (split_blanks_word t Ht Hbt).
  - change (String c' r' +:+ String " " t)
      with (String c' (r' +:+ String " " t)) in *.
    pose proof Hr as Hr'. cbn [all_chars] in Hr'.
    apply andb_true_iff in Hr' as [Hc'%negb_true_iff _]. rewrite Hc'.
    by rewrite IH.
Qed.

Lemma py_str_no_blank n :
  py_str n <> EmptyString
  /\ all_chars (fun c => negb (is_space c)) (py_str n) = true.
Proof.
  destruct (py_str_shape n) as (s & dd & Hne & Hdig & -> & _).
  assert (Hs : all_chars (fun c => negb (is_space c)) s = true).
  { revert Hdig. apply all_chars_impl. intros c Hc.
    apply is_digit_cases in Hc. cbn in Hc.
    by repeat (destruct Hc as [<-|Hc]; [reflexivity|]). }
  destruct (n <? 0); [|done]. split; [done|]. cbn [all_chars]. by rewrite Hs.
Qed.

(** The text a referral link opens the conversation with names its
    referrer. *)
Lemma start_ref_link n : start_ref ("/start ref" +:+ py_str n) = Some n.
Proof.
  destruct (py_str_no_blank n) as [Hne Hnb]. unfold start_ref.
  change ("/start ref" +:+ py_str n)
    with ("/start" +:+ String " " ("ref" +:+ py_str n)).
  rewrite split_blanks_two; [|done|done|done|by cbn [String.append all_chars]].
  cbn [lookup list_lookup].
  assert (String.prefix "ref" ("ref" +:+ py_str n) = true) as ->
    by (cbn; by destruct (py_str n)).
  change (slice_from 3 ("ref" +:+ py_str n)) with (py_str n).
  apply py_int_py_str.
Qed.

(** The referrer [cmd_start] settles on. *)
Lemma cmd_start_referrer d uid name text :
  cmd_start d uid name text
  = (add_user_if_not_exists d uid (cmd_start d uid name text).2 name,
     (cmd_start d uid name text).2)
  /\ (cmd_start d uid name text).2
     = (if truthy (start_ref text) && negb (opt_Z (start_ref text) =? uid)
        then start_ref text else None).
Proof.
  unfold cmd_start.
  by destruct (truthy (start_ref text) && negb (opt_Z (start_ref text) =? uid)).
Qed.

(** X21. The referrer of a user is set once, at the first [/start], and
    is never the user.  [cmd_start] touches the row of the sender only: a
    known user keeps the referrer and the balance they had, whatever the
    link says; a new user starts with a balance of 0 and with the referrer
    the text names, or none when it names nobody, 0 or the user
    themselves.  The text of a referral link, [/start ref<n>], names [n]:
    a new user who opens the link of [n], [n] being neither 0 nor the
    user, is recorded with the referrer [n], and [n] is told of the new
    referral; the bare [/start] records no referrer.  A table in which
    nobody is their own referrer stays so, and the database stays among
    those the program reaches. *)
Theorem referrer_is_set_once d uid name text :
  let res := cmd_start d uid name text in
  plans res.1 = plans d /\ subscriptions res.1 = subscriptions d
  /\ manual_payments res.1 = manual_payments d
  /\ (forall j, j <> uid -> users res.1 !! j = users d !! j)
  /\ res.2 = (if truthy (start_ref text) && negb (opt_Z (start_ref text) =? uid)
              then start_ref text else None)
  /\ res.2 <> Some uid /\ res.2 <> Some 0
  /\ match users d !! uid with
     | Some u =>
         users res.1 !! uid
         = Some {| referred_by := referred_by u;
                   cashback_cents := cashback_cents u;
                   username := at_name name |}
     | None =>
         users res.1 !! uid
         = Some {| referred_by := res.2; cashback_cents := 0;
                   username := at_name name |}
     end
  /\ (forall n, n <> 0 -> n <> uid ->
        (cmd_start d uid name ("/start ref" +:+ py_str n)).2 = Some n
        /\ (users d !! uid = None ->
            users (cmd_start d uid name ("/start ref" +:+ py_str n)).1 !! uid
            = Some {| referred_by := Some n; cashback_cents := 0;
                      username := at_name name |}))
  /\ (cmd_start d uid name ("/start ref" +:+ py_str uid)).2 = None
  /\ (cmd_start d uid name "/start ref0").2 = None
  /\ (cmd_start d uid name "/start").2 = None
  /\ (no_self_referral (users d) -> no_self_referral (users res.1))
  /\ (forall ADMIN_IDS, reachable ADMIN_IDS d -> reachable ADMIN_IDS res.1).
Proof.
  cbv zeta.
  destruct (cmd_start_referrer d uid name text) as [Hres Href].
  set (ref := (cmd_start d uid name text).2) in *.
  assert (Hself : ref <> Some uid /\ ref <> Some 0).
  { rewrite Href.
    destruct (truthy (start_ref text) && negb (opt_Z (start_ref text) =? uid))
      eqn:Hc; [|done].
    apply andb_true_iff in Hc as [Ht Hne%negb_true_iff%Z.eqb_neq].
    split; intros Heq; rewrite Heq in *; [by apply Hne|done]. }
  rewrite Hres. cbn [fst snd].
  destruct (add_user_tables d uid ref name) as (Hp & Hs & Hq & Hm & Hother & Hrow).
  split; [done|]. split; [done|]. split; [done|]. split; [done|].
  split; [done|]. split; [apply Hself|]. split; [apply Hself|].
  split; [by destruct (users d !! uid)|].
  assert (Hlink : forall n,
            (cmd_start d uid name ("/start ref" +:+ py_str n)).2
            = if truthy (Some n) && negb (n =? uid) then Some n else None).
  { intros n.
    destruct (cmd_start_referrer d uid name ("/start ref" +:+ py_str n))
      as [_ ->].
    by rewrite start_ref_link. }
  split; [|split; [|split; [|split; [|split]]]].
  - intros n H0 Hn.
    assert (Hn2 : (cmd_start d uid name ("/start ref" +:+ py_str n)).2 = Some n).
    { rewrite Hlink, truthy_Some by done.
      by rewrite (proj2 (Z.eqb_neq n uid) Hn). }
    split; [done|]. intros Hnew.
    destruct (cmd_start_referrer d uid name ("/start ref" +:+ py_str n))
      as [-> _].
    rewrite Hn2. cbn [fst].
    destruct (add_user_tables d uid (Some n) name) as (_ & _ & _ & _ & _ & ->).
    by rewrite Hnew.
  - rewrite Hlink, Z.eqb_refl. by rewrite andb_false_r.
  - reflexivity.
  - reflexivity.
  - intros Hinv j r. destruct (decide (j = uid)) as [->|Hne].
    + rewrite Hrow. intros [= <-]. cbn [referred_by].
      destruct (users d !! uid) as [u|] eqn:Hu; [by eapply Hinv|apply Hself].
    + rewrite (Hother j Hne). apply Hinv.
  - intros ADMIN_IDS Hd. eapply reach_step; [exact Hd|]. by apply op_other.
Qed.

Lemma got_payment_tables w d uid payload g :
  plans (got_payment w d uid payload g).1 = plans d
  /\ users (got_payment w d uid payload g).1 = users d
  /\ manual_payments (got_payment w d uid payload g).1 = manual_payments d.
Proof.
  unfold got_payment.
  destruct (parse_payload payload) as [[[[pid ptype] promo] mode]|]; [|done].
  pose proof (activation_other_tables _ _ _ _ _ _
                (activate_subscription_cases w d uid pid ptype g false)) as H.
  destruct (activate_subscription w d uid pid ptype g false)
    as [[db1 evs] [success result]].
  cbn [fst snd] in *. by destruct (negb success).
Qed.

(** X22. The books of a payment.  What [got_payment] writes after its
    message to the payer never touches [subscriptions], [plans] or
    [manual_payments].  A failed activation, an unreadable payload or an
    undelivered message leave the promo tables and the balances as they
    were.  Cashback goes to the referrer of the payer only: it is
    [REFERRAL_PERCENT] percent of the amount paid, rounded down, between 0
    and that amount for a percentage between 0 and 100; and where nobody
    is their own referrer, a payer never earns cashback on their own
    payment.  The database stays among those the program reaches. *)
Theorem payment_books REFERRAL_PERCENT delivered w d pd uid payload g total :
  let res := got_payment_books REFERRAL_PERCENT delivered w d pd uid payload g
                               total in
  subscriptions res.1.1 = subscriptions (got_payment w d uid payload g).1
  /\ plans res.1.1 = plans d
  /\ manual_payments res.1.1 = manual_payments d
  /\ match res.2 with
     | Some (ref, c) =>
         delivered = true
         /\ (exists pid ptype promo mode,
               parse_payload payload = Some (pid, ptype, promo, mode)
               /\ (activate_subscription w d uid pid ptype g false).2.1 = true
               /\ res.1.2 = record_promo_use (clock w) pd promo uid)
         /\ users d !! uid ≫= referred_by = Some ref
         /\ ref <> 0
         /\ c = total * REFERRAL_PERCENT / 100
         /\ users res.1.1 = alter (add_cashback c) ref (users d)
         /\ (0 <= total -> 0 <= REFERRAL_PERCENT <= 100 -> 0 <= c <= total)
         /\ (no_self_referral (users d) -> ref <> uid)
     | None => users res.1.1 = users d
     end
  /\ (delivered = false
      \/ (forall pid ptype promo mode,
            parse_payload payload = Some (pid, ptype, promo, mode) ->
            (activate_subscription w d uid pid ptype g false).2.1 = false) ->
      res.1.2 = pd /\ res.2 = None)
  /\ (forall ADMIN_IDS, reachable ADMIN_IDS d -> reachable ADMIN_IDS res.1.1).
Proof.
  assert (Hreach : forall ADMIN_IDS d', reachable ADMIN_IDS d ->
            subscriptions d' = subscriptions (got_payment w d uid payload g).1 ->
            subscriptions_seq d'
            = subscriptions_seq (got_payment w d uid payload g).1 ->
            reachable ADMIN_IDS d').
  { intros A d' Hd Hs Hq.
    apply (reach_step A (got_payment w d uid payload g).1).
    - eapply reach_step; [exact Hd|]. apply op_payment.
    - by apply op_other. }
  unfold got_payment_books. cbv zeta.
  destruct (got_payment_tables w d uid payload g) as (Hp & Hu & Hm).
  destruct (parse_payload payload) as [[[[pid ptype] promo] mode]|] eqn:Hparse;
    [|repeat split; try done; intros A Hd; by apply (Hreach A)].
  destruct (activate_subscription w d uid pid ptype g false).2.1 eqn:Hok;
    cbn [negb orb];
    [|repeat split; try done; intros A Hd; by apply (Hreach A)].
  destruct delivered; cbn [negb].
  2:{ repeat split; try done. intros A Hd. by apply (Hreach A). }
  rewrite Hu.
  destruct (users d !! uid ≫= referred_by) as [ref|] eqn:Href;
    [|split; [done|]; split; [done|]; split; [done|]; split; [done|];
      split; [|intros A Hd; by apply (Hreach A)];
      intros [?|H]; [done|]; specialize (H _ _ _ _ eq_refl); congruence].
  destruct (truthy (Some ref)) eqn:Ht;
    [|split; [done|]; split; [done|]; split; [done|]; split; [done|];
      split; [|intros A Hd; by apply (Hreach A)];
      intros [?|H]; [done|]; specialize (H _ _ _ _ eq_refl); congruence].
  change (opt_Z (Some ref)) with ref. cbn [fst snd].
  split; [done|]. split; [done|]. split; [done|]. split; [|split].
  - split; [done|]. split; [by exists pid, ptype, promo, mode|].
    split; [done|].
    apply negb_true_iff, Z.eqb_neq in Ht.
    split; [done|]. split; [done|]. split; [by rewrite ?Hu|]. split.
    + intros Htot Hpc. unfold floor_percent. split.
      * apply Z.div_pos; nia.
      * apply Z.div_le_upper_bound; nia.
    + intros Hself ->.
      destruct (users d !! uid) as [u|] eqn:Hu'; [|done].
      cbn in Href. by apply (Hself uid u Hu').
  - intros [?|H]; [done|]. specialize (H _ _ _ _ eq_refl). congruence.
  - intros A Hd. by apply (Hreach A).
Qed.

(* ================================================================= *)
(** ** From the invoice to the subscription *)

(** X23. A payment made on an invoice of [process_card_payment] activates
    the plan of the invoice for the user who paid, for the period and with
    the clock of the moment of the payment: the database is the one
    [activate_subscription] returns for the payer, the plan and the payment
    type of the payload, and the payer is sent the renewal text in mode
    ["renewal"], the subscription text in any other mode, or the
    activation error.  When the message is delivered, the promo of the
    invoice is marked as used exactly when the activation succeeded. *)
Theorem paid_invoice_activates w d uid pid payload_uid ptype cm cy promo mode
    ts g :
  contains_char ":" ptype = false ->
  contains_char ":" mode = false ->
  let payload := invoice_payload pid payload_uid ptype cm cy promo mode ts in
  let act := activate_subscription w d uid pid ptype g false in
  (got_payment w d uid payload g).1 = act.1.1
  /\ (got_payment w d uid payload g).2
     = act.1.2
       ++ [SendMessage uid
             (if act.2.1 then
                if String.eqb mode "renewal"
                then MsgSubscriptionRenewed (plans d !! pid ≫= title) act.2.2
                else MsgSubscriptionCreated (plans d !! pid ≫= title) act.2.2
              else MsgActivationError act.2.2)]
  /\ (forall REFERRAL_PERCENT pd total,
        (got_payment_books REFERRAL_PERCENT true w d pd uid payload g total).1.2
        = if act.2.1 then record_promo_use (clock w) pd promo uid else pd).
Proof.
  intros Hpt Hmode payload act.
  pose proof (parse_invoice_payload pid payload_uid ptype cm cy promo mode ts
                Hpt Hmode) as Hparse.
  fold payload in Hparse.
  pose proof (activation_other_tables _ _ _ _ _ _
                (activate_subscription_cases w d uid pid ptype g false))
    as (Hplans & _).
  fold act in Hplans.
  assert (Hpromo : forall pd,
             record_promo_use (clock w) pd (if truthy promo then promo else None) uid
             = record_promo_use (clock w) pd promo uid).
  { intros pd. destruct (truthy promo) eqn:Ht; [done|].
    unfold record_promo_use. by rewrite Ht. }
  unfold got_payment_books, got_payment. rewrite Hparse. fold act.
  destruct act as [[db1 evs] [success result]] eqn:Hact. cbn [fst snd] in *.
  destruct success; cbn [negb orb fst snd].
  - rewrite Hplans. split; [done|]. split; [done|].
    intros P pd total. rewrite Hpromo.
    by destruct (truthy (users db1 !! uid ≫= referred_by)).
  - by repeat split.
Qed.

Lemma paid_invoice_activates_witness :
  let payload := invoice_payload 1 7 "full" 3 2025 None "new_subscription"
                                 1740992400 in
  let act := activate_subscription march_3 sample_db 7 1 "full" None false in
  (got_payment march_3 sample_db 7 payload None).1 = act.1.1
  /\ (got_payment march_3 sample_db 7 payload None).2
     = act.1.2
       ++ [SendMessage 7
             (if act.2.1 then
                if String.eqb "new_subscription" "renewal"
                then MsgSubscriptionRenewed (plans sample_db !! 1 ≫= title) act.2.2
                else MsgSubscriptionCreated (plans sample_db !! 1 ≫= title) act.2.2
              else MsgActivationError act.2.2)]
  /\ (forall REFERRAL_PERCENT pd total,
        (got_payment_books REFERRAL_PERCENT true march_3 sample_db pd 7 payload
                           None total).1.2
        = if act.2.1 then record_promo_use (clock march_3) pd None 7 else pd).
Proof.
  apply (paid_invoice_activates march_3 sample_db 7 1 7 "full" 3 2025 None
                                "new_subscription" 1740992400 None);
    reflexivity.
Defined.

(* ================================================================= *)
(** ** The properties on sample data, continued *)

(** 2025-04-01 10:00:00 local time, when the payment reminders go out. *)
Definition april_1 : world :=
  {| clock := 1743490800; invite_response := RequestRaised |}.

(** 2025-04-04 18:00:00 local time, when the deadline reminders go out. *)
Definition april_4 : world :=
  {| clock := 1743778800; invite_response := RequestRaised |}.

(** 2025-04-06 00:01:00 local time, when the sweep runs; the platform
    issues a link to whoever asks. *)
Definition april_6 : world :=
  {| clock := 1743886860;
     invite_response := Response 200 true (Some "https://t.me/+back"%string) |}.

(** 2025-04-01 19:00:00 local time, nine hours after the reminders. *)
Definition april_1_later : world :=
  {| clock := 1743523200; invite_response := RequestRaised |}.

(** Every message is delivered. *)
Definition everyone (_ : Z) : bool := true.

(** Every answer to a callback query is delivered. *)
Definition everything (_ : new_link_answer) : bool := true.

(** A stranger (user 8) asks for a link to the row of user 7: the answer is
    "forbidden", nothing is written and the platform is not asked. *)
Example stranger_asks_for_a_link :
  callback_new_link sample_admins true everything true april_6 march_db 8 8
                    "new_link:1"
  = (march_db, [], [NlAnswer NlForbidden]).
Proof. reflexivity. Qed.

(** The bot does not administer the group and the answer that says so
    cannot be delivered: the handler goes on and issues the link. *)
Example link_without_admin_rights :
  callback_new_link sample_admins false (fun _ => false) true april_6
                    march_db 7 7 "new_link:1"
  = (set_subscriptions
       {[ 1 := set_link "https://t.me/+back" (clock april_6) march_row ]}
       march_db,
     [CreateChatInviteLink (-1001) (clock april_6 + 7 * 24 * 3600) 1],
     [NlAnswer NlNotAdmin; NlAnswer NlGenerated;
      NlSend 7 "https://t.me/+back"]).
Proof. vm_compute. reflexivity. Qed.

Example april_1_is_the_1st :
  now_local april_1
  = {| year := 2025; month := 4; day := 1; hour := 10; minute := 0; second := 0 |}.
Proof. reflexivity. Qed.

Example april_4_is_the_4th :
  now_local april_4
  = {| year := 2025; month := 4; day := 4; hour := 18; minute := 0; second := 0 |}.
Proof. reflexivity. Qed.

Example april_6_is_the_6th :
  now_local april_6
  = {| year := 2025; month := 4; day := 6; hour := 0; minute := 1; second := 0 |}.
Proof. reflexivity. Qed.

(** The turn of the scheduler on 2025-04-06 at 00:01 on the row paid for
    March: the row is deactivated and its owner banned from the group. *)
Example tick_on_april_6 :
  check_expirations_tick everyone april_6 march_db
  = (set_subscriptions {[ 1 := deactivate march_row ]} march_db,
     [BanChatMember (-1001) 7 1743886890;
      SendMessage 7 (MsgAccessSuspended (Some "Math"%string))],
     []).
Proof. vm_compute. reflexivity. Qed.

(** The turn of 2025-04-01 at 10:00: the owner of the row paid for March
    is reminded, and the row stamped. *)
Example tick_on_april_1 :
  check_expirations_tick everyone april_1 march_db
  = (set_subscriptions {[ 1 := set_notified 1743490800 march_row ]} march_db,
     [],
     [(7, PaymentReminder (now_local april_1) (Some "Math"%string)
            (Some 1000) 1)]).
Proof. vm_compute. reflexivity. Qed.

(** A code for 10 percent with no limit, and one for 5.00 whose single
    use is taken. *)
Definition sample_promos : promo_db :=
  {| promo_codes :=
       {[ 1 := percent_promo "TEN" 10;
          2 := {| promo_id := 2; code := "ONCE"; discount_percent := Some 0;
                  discount_fixed_cents := Some 500; is_active := Some 1;
                  used_count := Some 1; max_uses := Some 1;
                  expires_ts := None |} ]};
     promo_usage := [(2, 8, 1740992400)] |}.

(** The draft of an administrator in chat 99 who chose a percentage. *)
Definition percent_draft : promo_draft :=
  {| draft_chat_id := 99; draft_step := "value";
     draft_promo_type := Some "percent"%string;
     draft_discount_percent := None; draft_discount_fixed_cents := None;
     draft_max_uses := None |}.

Definition percent_draft_15 : promo_draft :=
  {| draft_chat_id := 99; draft_step := "max_uses";
     draft_promo_type := Some "percent"%string;
     draft_discount_percent := Some 15;
     draft_discount_fixed_cents := Some 0;
     draft_max_uses := None |}.

Definition percent_draft_15_3 : promo_draft :=
  {| draft_chat_id := 99; draft_step := "expires";
     draft_promo_type := Some "percent"%string;
     draft_discount_percent := Some 15;
     draft_discount_fixed_cents := Some 0;
     draft_max_uses := Some 3 |}.

(** The draft of an administrator who chose a fixed discount. *)
Definition fixed_draft : promo_draft :=
  {| draft_chat_id := 99; draft_step := "value";
     draft_promo_type := Some "fixed"%string;
     draft_discount_percent := None; draft_discount_fixed_cents := None;
     draft_max_uses := None |}.

Example fixed_discount_abc : handle_promo_value fixed_draft 99 "abc" = WzRaised.
Proof. reflexivity. Qed.

Example fixed_discount_5 :
  handle_promo_value fixed_draft 99 " 5.00 "
  = WzNext {| draft_chat_id := 99; draft_step := "max_uses";
              draft_promo_type := Some "fixed"%string;
              draft_discount_percent := Some 0;
              draft_discount_fixed_cents := Some 500;
              draft_max_uses := None |}.
Proof. reflexivity. Qed.

Lemma stored_rows_are_well_formed_witness :
  row_wf march_row
  /\ end_ts march_row
     = period_end (current_period_month march_row) (current_period_year march_row).
Proof.
  apply (stored_rows_are_well_formed sample_admins march_db 1 march_row);
    [exact march_db_reachable | reflexivity].
Defined.

Lemma partial_payment_never_offered_witness :
  can_user_pay_partial april_1 march_db 7 1 = false.
Proof.
  apply (partial_payment_never_offered sample_admins april_1 march_db 7 1).
  exact march_db_reachable.
Defined.

Lemma activation_makes_paid_witness :
  exists i r c,
    select_active_sub
      (subscriptions
         (activate_subscription april_6 march_db 7 1 "full" None false).1.1)
      7 1 = Some (i, r)
    /\ check_existing_subscription
         april_6
         (activate_subscription april_6 march_db 7 1 "full" None false).1.1
         7 1 = Some c
    /\ sc_id c = i
    /\ sc_status c = "paid"%string /\ sc_paid c = true
    /\ sc_needs_renewal c = false
    /\ sc_end_ts c = end_ts_at (now_local april_6).
Proof.
  apply (activation_makes_paid sample_admins april_6 march_db 7 1 "full" None
                               false);
    [exact march_db_reachable | reflexivity].
Defined.

Lemma status_predicts_activation_witness :
  let res := activate_subscription april_6 march_db 7 1 "full" None false in
  match check_existing_subscription april_6 march_db 7 1 with
  | Some c =>
      is_Some (subscriptions march_db !! sc_id c)
      /\ subscriptions res.1.1
         = alter (if sc_paid c then refresh_link res.2.2
                  else renew_row (get_current_period april_6).1
                                 (get_current_period april_6).2
                                 "full" (clock april_6)
                                 (end_ts_at (now_local april_6))
                                 res.2.2 "full")
                 (sc_id c) (subscriptions march_db)
  | None =>
      subscriptions march_db !! next_rowid march_db = None
      /\ exists target,
          subscriptions res.1.1
          = <[next_rowid march_db := new_row april_6 7 1 "full" target res.2.2]>
              (subscriptions march_db)
  end.
Proof.
  apply (status_predicts_activation sample_admins april_6 march_db 7 1 "full"
                                    None false);
    [exact march_db_reachable | reflexivity].
Defined.

Lemma sweep_removes_the_expired_witness :
  (active march_row = 1 /\ end_ts march_row < clock april_6
   /\ is_Some (plans march_db !! plan_id march_row)
   /\ is_Some (users march_db !! user_id march_row) ->
   subscriptions (remove_unpaid_users april_6 march_db).1 !! 1
   = Some (deactivate march_row))
  /\ (~ (active march_row = 1 /\ end_ts march_row < clock april_6
         /\ is_Some (plans march_db !! plan_id march_row)
         /\ is_Some (users march_db !! user_id march_row)) ->
      subscriptions (remove_unpaid_users april_6 march_db).1 !! 1
      = Some march_row)
  /\ (forall r', subscriptions (remove_unpaid_users april_6 march_db).1 !! 1
                 = Some r' ->
        active r' = 1 ->
        is_Some (plans march_db !! plan_id r') ->
        is_Some (users march_db !! user_id r') ->
        clock april_6 <= end_ts r').
Proof.
  apply (sweep_removes_the_expired sample_admins april_6 march_db 1 march_row);
    [exact march_db_reachable | reflexivity].
Defined.

Lemma deadline_reminder_reaches_nobody_witness :
  send_deadline_notifications everyone april_4 march_db = ([], 0)
  /\ (day (now_local april_4) = 4 -> hour (now_local april_4) = 18 ->
      minute (now_local april_4) = 0 ->
      check_expirations_tick everyone april_4 march_db = (march_db, [], [])).
Proof.
  apply (deadline_reminder_reaches_nobody sample_admins everyone april_4 march_db);
    [exact march_db_reachable | by vm_compute].
Defined.

Lemma unpaid_members_removed_on_the_6th_witness :
  (next_month_of {| year := current_period_year march_row;
                    month := current_period_month march_row; day := 1;
                    hour := 0; minute := 0; second := 0 |}
   = (month (now_local april_6), year (now_local april_6)) ->
   subscriptions (check_expirations_tick everyone april_6 march_db).1.1 !! 1
   = Some (deactivate march_row)
   /\ (truthy (group_id march_row) = true ->
       BanChatMember (opt_Z (group_id march_row)) (user_id march_row)
                     (clock april_6 + 30)
       ∈ (check_expirations_tick everyone april_6 march_db).1.2))
  /\ (current_period_month march_row = month (now_local april_6) ->
      current_period_year march_row = year (now_local april_6) ->
      subscriptions (check_expirations_tick everyone april_6 march_db).1.1 !! 1
      = Some march_row).
Proof.
  apply (unpaid_members_removed_on_the_6th sample_admins everyone april_6
                                           march_db 1 march_row);
    [exact march_db_reachable | reflexivity | reflexivity | reflexivity
     | reflexivity | reflexivity | by eexists | by eexists].
Defined.

Lemma payment_reminder_throttle_witness :
  (1 ∉ (up_sub_id
          <$> select_unpaid
                (send_payment_notifications everyone april_1 march_db).1.1
                (get_current_period april_1_later).1
                (get_current_period april_1_later).2
                (clock april_1_later - 20 * 3600)))
  /\ (send_payment_notifications everyone april_1_later
        (send_payment_notifications everyone april_1 march_db).1.1).1.2
     = (fun u => (up_user_id u,
                  PaymentReminder (now_local april_1_later)
                    (up_plan_title u) (up_price_cents u) (up_plan_id u)))
       <$> select_unpaid
             (send_payment_notifications everyone april_1 march_db).1.1
             (get_current_period april_1_later).1
             (get_current_period april_1_later).2
             (clock april_1_later - 20 * 3600).
Proof.
  apply (payment_reminder_throttle everyone everyone april_1 april_1_later
                                   march_db 1);
    [vm_compute; left | reflexivity | vm_compute; discriminate].
Defined.

Lemma scheduler_keeps_reachable_witness :
  reachable sample_admins (check_expirations_tick everyone april_6 march_db).1.1
  /\ reachable sample_admins
       (send_payment_notifications everyone april_6 march_db).1.1
  /\ one_active_per_pair
       (subscriptions (check_expirations_tick everyone april_6 march_db).1.1)
  /\ ends_with_period
       (subscriptions (check_expirations_tick everyone april_6 march_db).1.1).
Proof.
  apply (scheduler_keeps_reachable sample_admins everyone april_6 march_db).
  exact march_db_reachable.
Defined.

Lemma removed_member_gets_a_link_witness :
  callback_new_link sample_admins true everything true april_6
    (remove_unpaid_users april_6 march_db).1
    (user_id march_row) 7 ("new_link:" +:+ py_str 1)
  = (set_subscriptions
       (alter (set_link "https://t.me/+back" (clock april_6)) 1
              (subscriptions (remove_unpaid_users april_6 march_db).1))
       (remove_unpaid_users april_6 march_db).1,
     [CreateChatInviteLink (opt_Z (group_id march_row))
        (clock april_6 + 7 * 24 * 3600) 1],
     NlAnswer NlGenerated
       :: (if everything NlGenerated then
             if true then [NlSend (user_id march_row) "https://t.me/+back"]
             else [NlSend (user_id march_row) "https://t.me/+back";
                   NlSend 7 "https://t.me/+back"]
           else [NlSend 7 "https://t.me/+back"])).
Proof.
  apply (removed_member_gets_a_link sample_admins everything true april_6
                                    april_6 march_db 1 march_row
                                    "https://t.me/+back" 7);
    [reflexivity | reflexivity | reflexivity | discriminate].
Defined.

Lemma promo_once_per_user_witness :
  can_use_promo_code april_1
    (record_promo_use 1743454799 sample_promos (Some 1) 7) 1 7
  = Some (false, "Вы уже использовали этот промокод"%string).
Proof.
  apply (promo_once_per_user april_1 1743454799 sample_promos
           (record_promo_use 1743454799 sample_promos (Some 1) 7) 1 7);
    [lia | apply later_now].
Defined.

Lemma promo_exhausted_for_good_witness :
  (exists msg, can_use_promo_code april_1 sample_promos 2 7 = Some (false, msg))
  /\ (forall now_ts who, 0 < 2 ->
        promo_codes (record_promo_use now_ts sample_promos (Some 2) who) !! 2
        = Some (count_use {| promo_id := 2; code := "ONCE";
                             discount_percent := Some 0;
                             discount_fixed_cents := Some 500;
                             is_active := Some 1; used_count := Some 1;
                             max_uses := Some 1; expires_ts := None |})
        /\ used_count
             (count_use {| promo_id := 2; code := "ONCE";
                           discount_percent := Some 0;
                           discount_fixed_cents := Some 500;
                           is_active := Some 1; used_count := Some 1;
                           max_uses := Some 1; expires_ts := None |})
           = Some (1 + 1)).
Proof.
  apply (promo_exhausted_for_good april_1 sample_promos sample_promos 2 _ 1 7);
    [apply later_now | reflexivity | reflexivity | reflexivity | simpl; lia].
Defined.

Lemma created_promo_is_sound_witness :
  exists r,
    promo_codes (handle_promo_expires april_1 sample_promos percent_draft_15_3
                                      99 "7 дней" "SPRING25").1
    = <[3 := r]> (promo_codes sample_promos)
    /\ promo_codes sample_promos !! 3 = None
    /\ code r = "SPRING25"%string /\ is_active r = Some 1
    /\ used_count r = Some 0
    /\ ((exists p, 1 <= p <= 100 /\ discount_percent r = Some p
                   /\ discount_fixed_cents r = Some 0)
        \/ (exists f, 0 < f /\ discount_percent r = Some 0
                      /\ discount_fixed_cents r = Some f))
    /\ (max_uses r = None \/ exists m, 0 < m /\ max_uses r = Some m)
    /\ (forall price, 0 <= price -> price * 100 < 2 ^ 53 ->
          0 <= (apply_promo_code "BYN" price r).1 <= price
          /\ (apply_promo_code "BYN" price r).2
             <> "Ошибка применения промокода"%string)
    /\ (forall u, used_by sample_promos 3 u = false ->
          can_use_promo_code april_1
            (handle_promo_expires april_1 sample_promos percent_draft_15_3
                                  99 "7 дней" "SPRING25").1 3 u
          = Some (true, "OK"%string)).
Proof.
  apply (created_promo_is_sound "BYN" april_1 sample_promos percent_draft
           percent_draft_15 percent_draft_15_3 99 " 15" "3" "7 дней"
           "SPRING25" 3); reflexivity.
Defined.

Lemma bad_fixed_discount_raises_witness :
  handle_promo_value fixed_draft 99 "abc"
  = if bool_decide (draft_promo_type fixed_draft = Some "percent"%string)
    then WzAskAgain else WzRaised.
Proof.
  apply (bad_fixed_discount_raises fixed_draft 99 "abc"); reflexivity.
Defined.
